(** * Bitcoin post-reward economic model: the equilibrium solver

    A shallow embedding of [BitcoinEconomicsModel] (the fee-market and
    mining-economics model) and of the helpers [usd] and
    [assertNearlyEqual].

    Numbers.  The program computes with JavaScript numbers.  They are
    modelled by [num]: an exact rational, or one of the three special
    values [Infinity], [-Infinity] and [NaN], which the program both
    writes down ([bestGap = Infinity]) and produces (a division by a zero
    target, arithmetic on a missing field).  The special values follow the
    IEEE 754 rules of the language; finite arithmetic is exact, so
    rounding, overflow and the sign of zero are abstracted away.  General
    statements are proved on this model.  Those that rest on the order of
    the tests and assignments carry over to the doubles of the program as
    they are; those that rest on an identity of exact arithmetic which
    rounding breaks hold of the program up to rounding, and say so.

    Module [Binary64] holds the same functions on binary64 numbers, for
    closed evaluation: it shows what the program computes on a given
    input, digit for digit, and where rounding decides.

    [Math.pow] is a builtin with irrational results; the model takes it
    as a parameter [Math_pow].  Closed instances use [pow_int], the
    builtin wherever its result is rational or a special value. *)

From Stdlib Require Import QArith Qabs Qminmax Qround Qpower ZArith String List
  Lia Lqa Bool.
From Corelib Require PrimFloat.
Import ListNotations.
Open Scope Q_scope.

(** ** JavaScript numbers *)

Module JS.

Inductive num : Type :=
| Fin (q : Q)
| PInf
| NInf
| NaN.

(** The three-way sign of a rational, used by the rules for products and
    quotients with an infinite or zero operand. *)
Inductive sign : Type := Neg | Zero | Pos.

Definition Qsign (q : Q) : sign :=
  match Qnum q with
  | Z0 => Zero
  | Zpos _ => Pos
  | Zneg _ => Neg
  end.

Definition Qltb (a b : Q) : bool := negb (Qle_bool b a).

Definition neg (a : num) : num :=
  match a with
  | Fin q => Fin (- q)
  | PInf => NInf
  | NInf => PInf
  | NaN => NaN
  end.

Definition add (a b : num) : num :=
  match a, b with
  | NaN, _ | _, NaN => NaN
  | Fin x, Fin y => Fin (x + y)
  | PInf, NInf | NInf, PInf => NaN
  | PInf, _ | _, PInf => PInf
  | NInf, _ | _, NInf => NInf
  end.

Definition sub (a b : num) : num := add a (neg b).

(** An infinity times a finite number: the sign decides, and zero times
    infinity is [NaN]. *)
Definition scale_inf (positive : bool) (s : sign) : num :=
  match s with
  | Zero => NaN
  | Pos => if positive then PInf else NInf
  | Neg => if positive then NInf else PInf
  end.

Definition mul (a b : num) : num :=
  match a, b with
  | NaN, _ | _, NaN => NaN
  | Fin x, Fin y => Fin (x * y)
  | Fin x, PInf | PInf, Fin x => scale_inf true (Qsign x)
  | Fin x, NInf | NInf, Fin x => scale_inf false (Qsign x)
  | PInf, PInf | NInf, NInf => PInf
  | PInf, NInf | NInf, PInf => NInf
  end.

(** Division.  A finite number over zero is an infinity of its sign, and
    [0 / 0] is [NaN]; a finite number over an infinity is zero; an infinity
    over a finite number keeps or flips its sign (zero counts as positive);
    an infinity over an infinity is [NaN]. *)
Definition div (a b : num) : num :=
  match a, b with
  | NaN, _ | _, NaN => NaN
  | Fin x, Fin y =>
      match Qsign y with
      | Zero => match Qsign x with
                | Zero => NaN
                | Pos => PInf
                | Neg => NInf
                end
      | _ => Fin (x / y)
      end
  | Fin _, PInf | Fin _, NInf => Fin 0
  | PInf, Fin y => match Qsign y with Neg => NInf | _ => PInf end
  | NInf, Fin y => match Qsign y with Neg => PInf | _ => NInf end
  | PInf, PInf | PInf, NInf | NInf, PInf | NInf, NInf => NaN
  end.

(** [Math.abs] *)
Definition Math_abs (a : num) : num :=
  match a with
  | Fin q => Fin (Qabs q)
  | PInf | NInf => PInf
  | NaN => NaN
  end.

(** [a < b]; every comparison with [NaN] is false. *)
Definition ltb (a b : num) : bool :=
  match a, b with
  | NaN, _ | _, NaN => false
  | Fin x, Fin y => Qltb x y
  | NInf, NInf | PInf, _ | _, NInf => false
  | NInf, _ | _, PInf => true
  end.

(** [a <= b] *)
Definition leb (a b : num) : bool :=
  match a, b with
  | NaN, _ | _, NaN => false
  | Fin x, Fin y => Qle_bool x y
  | NInf, _ | _, PInf => true
  | PInf, _ | _, NInf => false
  end.

(** [a > b] and [a >= b] *)
Definition gtb (a b : num) : bool := ltb b a.
Definition geb (a b : num) : bool := leb b a.

(** [Math.min] and [Math.max] of two arguments: [NaN] if either is. *)
Definition Math_min (a b : num) : num :=
  match a, b with
  | NaN, _ | _, NaN => NaN
  | _, _ => if leb a b then a else b
  end.

Definition Math_max (a b : num) : num :=
  match a, b with
  | NaN, _ | _, NaN => NaN
  | _, _ => if leb a b then b else a
  end.

(** The same number: equal rationals, or the same special value. *)
Definition same (a b : num) : Prop :=
  match a, b with
  | Fin x, Fin y => x == y
  | PInf, PInf | NInf, NInf | NaN, NaN => True
  | _, _ => False
  end.

Definition sameb (a b : num) : bool :=
  match a, b with
  | Fin x, Fin y => Qeq_bool x y
  | PInf, PInf | NInf, NInf | NaN, NaN => true
  | _, _ => false
  end.

Definition is_finite (a : num) : Prop :=
  match a with Fin _ => True | _ => False end.

(** A value read from an optional field: the number, or [undefined]. *)
Inductive value : Type :=
| Undefined
| Number (n : num).

Definition of_field (f : option Q) : value :=
  match f with
  | Some q => Number (Fin q)
  | None => Undefined
  end.

(** [ToNumber]: what an arithmetic operator makes of a value. *)
Definition ToNumber (v : value) : num :=
  match v with
  | Undefined => NaN
  | Number n => n
  end.

(** Truthiness of a value ([undefined], [0] and [NaN] are falsy). *)
Definition truthy (v : value) : bool :=
  match v with
  | Undefined => false
  | Number (Fin q) => negb (Qeq_bool q 0)
  | Number NaN => false
  | Number _ => true
  end.

(** A call either returns or throws [new Error(msg)]. *)
Inductive completion (A : Type) : Type :=
| Return (a : A)
| Throw (msg : string).
Arguments Return {A} a.
Arguments Throw {A} msg.

End JS.
Import JS.

Declare Scope num_scope.
Delimit Scope num_scope with num.
Infix "+" := add : num_scope.
Infix "-" := sub : num_scope.
Infix "*" := mul : num_scope.
Infix "/" := div : num_scope.
Infix "<?" := ltb : num_scope.
Infix "<=?" := leb : num_scope.
Infix ">?" := gtb : num_scope.
Infix ">=?" := geb : num_scope.
Coercion Fin : Q >-> num.

(** ** Data model *)

(** [EconomicInputs].  Required fields hold finite numbers; an optional
    field ([?:]) may be missing. *)
Record EconomicInputs : Type := mkInputs {
  btcPrice : Q;
  blockLimitMB : Q;
  baselineFeerate : Q;
  baselineDemandVbDay : Q;
  elasticity : Q;
  mevUplift : Q;
  costPerTHDay : Q;
  margin : Q;
  poolShare : Q;
  avgTxVb : Q;
  backlogVb : Q;
  securityBudgetMode : string;
  alpha : option Q;
  base2025RevenueUsd : option Q;
  beta : option Q;
  settlementUsdDay : option Q;
  absoluteUsdDay : option Q;
  batchingFactor : option Q;
  valuePerTxMultiplier : option Q;
  rentRateUsdPerTHHour : option Q
}.

(** The record [i] with one field replaced (the object spread
    [{...i, poolShare: p}]). *)
Definition with_poolShare (p : Q) (i : EconomicInputs) : EconomicInputs :=
  mkInputs (btcPrice i) (blockLimitMB i) (baselineFeerate i)
    (baselineDemandVbDay i) (elasticity i) (mevUplift i) (costPerTHDay i)
    (margin i) p (avgTxVb i) (backlogVb i) (securityBudgetMode i)
    (alpha i) (base2025RevenueUsd i) (beta i) (settlementUsdDay i)
    (absoluteUsdDay i) (batchingFactor i) (valuePerTxMultiplier i)
    (rentRateUsdPerTHHour i).

Definition with_valuePerTxMultiplier (v : option Q) (i : EconomicInputs)
  : EconomicInputs :=
  mkInputs (btcPrice i) (blockLimitMB i) (baselineFeerate i)
    (baselineDemandVbDay i) (elasticity i) (mevUplift i) (costPerTHDay i)
    (margin i) (poolShare i) (avgTxVb i) (backlogVb i) (securityBudgetMode i)
    (alpha i) (base2025RevenueUsd i) (beta i) (settlementUsdDay i)
    (absoluteUsdDay i) (batchingFactor i) v (rentRateUsdPerTHHour i).

Definition with_alpha (a : option Q) (i : EconomicInputs) : EconomicInputs :=
  mkInputs (btcPrice i) (blockLimitMB i) (baselineFeerate i)
    (baselineDemandVbDay i) (elasticity i) (mevUplift i) (costPerTHDay i)
    (margin i) (poolShare i) (avgTxVb i) (backlogVb i) (securityBudgetMode i)
    a (base2025RevenueUsd i) (beta i) (settlementUsdDay i)
    (absoluteUsdDay i) (batchingFactor i) (valuePerTxMultiplier i)
    (rentRateUsdPerTHHour i).

Definition with_rentRate (r : option Q) (i : EconomicInputs) : EconomicInputs :=
  mkInputs (btcPrice i) (blockLimitMB i) (baselineFeerate i)
    (baselineDemandVbDay i) (elasticity i) (mevUplift i) (costPerTHDay i)
    (margin i) (poolShare i) (avgTxVb i) (backlogVb i) (securityBudgetMode i)
    (alpha i) (base2025RevenueUsd i) (beta i) (settlementUsdDay i)
    (absoluteUsdDay i) (batchingFactor i) (valuePerTxMultiplier i) r.

Definition with_baselineFeerate (f : Q) (i : EconomicInputs) : EconomicInputs :=
  mkInputs (btcPrice i) (blockLimitMB i) f
    (baselineDemandVbDay i) (elasticity i) (mevUplift i) (costPerTHDay i)
    (margin i) (poolShare i) (avgTxVb i) (backlogVb i) (securityBudgetMode i)
    (alpha i) (base2025RevenueUsd i) (beta i) (settlementUsdDay i)
    (absoluteUsdDay i) (batchingFactor i) (valuePerTxMultiplier i)
    (rentRateUsdPerTHHour i).

(** The object returned by [solveFeerateForTarget]. *)
Record SolverResult : Type := mkSolverResult {
  feerate : num;
  targetMet : bool;
  gap : num;
  actualRevenue : num;
  confirmedDemandMBDay : num;
  targetFeesUsd : num
}.

(** The [solverInfo] member of the full model's output. *)
Record SolverInfo : Type := mkSolverInfo {
  info_targetMet : bool;
  info_gap : num;
  info_actualRevenue : num;
  info_targetFeesUsd : num
}.

(** [EconomicOutputs] together with [solverInfo] and
    [currentHashrateTH]. *)
Record EconomicOutputs : Type := mkOutputs {
  optimalFeerate : num;
  dailyFeeRevenueBTC : num;
  dailyFeeRevenueUSD : num;
  feesPerBlockBTC : num;
  avgFeePerTxUSD : num;
  out_demandVbPerDay : num;
  out_confirmedVbPerDay : num;
  out_backlogVb : num;
  avgConfirmationTimeMin : num;
  out_equilibriumHashrateTH : num;
  networkRevenueUSD : num;
  securityBudgetTargetUSD : value;
  attackCost6hUSD : num;
  attackCostAsPercentOfSettlement : num;
  poolDailyRevenueUSD : num;
  poolDailyExpensesUSD : num;
  poolDailyProfitUSD : num;
  poolProfitMargin : num;
  breakEvenBTCPrice : num;
  hashrateSustainabilityRatio : num;
  solverInfo : SolverInfo;
  currentHashrateTH : num
}.

(** The variables of the bisection loop. *)
Record SearchState : Type := mkSearch {
  lo : num;
  hi : num;
  bestFeerate : num;
  bestGap : num;
  bestFeesUsd : num;
  bestDemand : num
}.

(** ** The model *)

Definition BLOCKS_PER_DAY : Q := 144.
Definition SATOSHIS_PER_BTC : Q := 100000000.

(** [usd(btcAmount, btcPrice)] *)
Definition usd (btcAmount btcPrice : num) : num := (btcAmount * btcPrice)%num.

(** [assertNearlyEqual]: never throws; it logs a warning, recorded here by
    its label, when the two numbers differ by more than the tolerance. *)
Definition assertNearlyEqual (actual expected tolerance : num) (label : string)
  : list string :=
  let diff := Math_abs (actual - expected)%num in
  if (diff >? tolerance)%num then [label] else [].

Section Model.

(** [Math.pow(base, exponent)] *)
Variable Math_pow : num -> num -> num.

Definition blockLimitVb (blockLimitMB : num) : num :=
  (blockLimitMB * Fin 1000000)%num.

Definition demandVbPerDay (feerate : num) (inputs : EconomicInputs) : num :=
  let batchingFactor :=
    match of_field (batchingFactor inputs) with
    | Undefined => Fin 1
    | Number n => n
    end in
  let ratio := (feerate / Fin (baselineFeerate inputs))%num in
  ((Fin (baselineDemandVbDay inputs) / batchingFactor)
   * Math_pow ratio (Fin (elasticity inputs)))%num.

Definition confirmedVbPerDay (feerate : num) (inputs : EconomicInputs) : num :=
  let demand := demandVbPerDay feerate inputs in
  let supply := (blockLimitVb (Fin (blockLimitMB inputs)) * Fin BLOCKS_PER_DAY)%num in
  Math_min demand supply.

Definition feesUsdPerDay (feerate : num) (inputs : EconomicInputs) : num :=
  let vbConfirmed := confirmedVbPerDay feerate inputs in
  let feesBtc := ((feerate * vbConfirmed) / Fin SATOSHIS_PER_BTC)%num in
  usd feesBtc (Fin (btcPrice inputs)).

Definition feesBtcPerDay (feerate : num) (inputs : EconomicInputs) : num :=
  let vbConfirmed := confirmedVbPerDay feerate inputs in
  ((feerate * vbConfirmed) / Fin SATOSHIS_PER_BTC)%num.

(** The [switch] on the mode string.  The postfix [!] is erased by the
    compiler: a missing field is read as [undefined]. *)
Definition securityBudgetTargetUsd (inputs : EconomicInputs) : completion value :=
  if String.eqb (securityBudgetMode inputs) "absolute_usd" then
    Return (of_field (absoluteUsdDay inputs))
  else if String.eqb (securityBudgetMode inputs) "percent_of_2025" then
    Return (Number (ToNumber (of_field (alpha inputs))
                    * ToNumber (of_field (base2025RevenueUsd inputs)))%num)
  else if String.eqb (securityBudgetMode inputs) "percent_of_settlement_value" then
    Return (Number (ToNumber (of_field (beta inputs))
                    * ToNumber (of_field (settlementUsdDay inputs)))%num)
  else
    Throw "Invalid security budget mode".

Definition tolerance : Q := 25 # 10000.

(** The state before the first iteration. *)
Definition search_init : SearchState :=
  mkSearch (Fin 1) (Fin 100000) (Fin 100000) PInf (Fin 0) (Fin 0).

(** One pass through the body of the [for] loop, up to the [break] test. *)
Definition search_body (inputs : EconomicInputs) (targetFeesUsd : num)
    (s : SearchState) : SearchState :=
  let mid := ((lo s + hi s) / Fin 2)%num in
  let confirmedVbDay := confirmedVbPerDay mid inputs in
  let feesUsd :=
    ((mid * confirmedVbDay / Fin SATOSHIS_PER_BTC) * Fin (btcPrice inputs))%num in
  let gap := (Math_abs (feesUsd - targetFeesUsd) / targetFeesUsd)%num in
  let s1 :=
    if (gap <? bestGap s)%num then
      mkSearch (lo s) (hi s) mid gap feesUsd (confirmedVbDay / Fin 1000000)%num
    else s in
  if (feesUsd >=? targetFeesUsd)%num then
    mkSearch (lo s1) mid (bestFeerate s1) (bestGap s1) (bestFeesUsd s1) (bestDemand s1)
  else
    mkSearch mid (hi s1) (bestFeerate s1) (bestGap s1) (bestFeesUsd s1) (bestDemand s1).

(** The [for] loop with [n] iterations left: the body, then [break] when
    the bracket is narrower than 0.001. *)
Fixpoint search_loop (n : nat) (inputs : EconomicInputs) (targetFeesUsd : num)
    (s : SearchState) : SearchState :=
  match n with
  | O => s
  | S n' =>
      let s' := search_body inputs targetFeesUsd s in
      if ((hi s' - lo s') <? Fin (1 # 1000))%num then s'
      else search_loop n' inputs targetFeesUsd s'
  end.

(** The state when the loop is left ([i < 100]). *)
Definition search (inputs : EconomicInputs) (targetFeesUsd : num) : SearchState :=
  search_loop 100 inputs targetFeesUsd search_init.

Definition solveFeerateForTarget (inputs : EconomicInputs)
  : completion SolverResult :=
  match securityBudgetTargetUsd inputs with
  | Throw msg => Throw msg
  | Return securityBudgetTarget =>
      let gamma := Fin (mevUplift inputs) in
      let targetFeesUsd := (ToNumber securityBudgetTarget / (Fin 1 + gamma))%num in
      let s := search inputs targetFeesUsd in
      let finalGap := ((bestFeesUsd s - targetFeesUsd) / targetFeesUsd)%num in
      let actualRevenue := (bestFeesUsd s * (Fin 1 + gamma))%num in
      Return (mkSolverResult (bestFeerate s)
                (Math_abs finalGap <=? Fin tolerance)%num
                finalGap actualRevenue (bestDemand s) targetFeesUsd)
  end.

Definition equilibriumHashrateTH (feerate rewardUsdDay : num)
    (inputs : EconomicInputs) : num :=
  let feeRevenue := (feesUsdPerDay feerate inputs * (Fin 1 + Fin (mevUplift inputs)))%num in
  let totalRevenue := (feeRevenue + rewardUsdDay)%num in
  (totalRevenue / (Fin (costPerTHDay inputs) * (Fin 1 + Fin (margin inputs))))%num.

Definition attackCostUsd (hours hashrateTH rentRateUsdPerTHHour : num) : num :=
  let attackerTH := (Fin (51 # 100) * hashrateTH)%num in
  (attackerTH * rentRateUsdPerTHHour * hours)%num.

Definition calculateConfirmationTime (feerate : num) (inputs : EconomicInputs)
  : num :=
  let demand := demandVbPerDay feerate inputs in
  let supply := (blockLimitVb (Fin (blockLimitMB inputs)) * Fin BLOCKS_PER_DAY)%num in
  if (demand <=? supply)%num then Fin 10
  else
    let backlog := (Fin (backlogVb inputs) + (demand - supply))%num in
    Math_max (Fin 10) ((backlog / supply) * Fin 10 * Fin 60)%num.

(** [x || d] on an optional numeric field. *)
Definition or_default (f : option Q) (d : num) : num :=
  if truthy (of_field f) then ToNumber (of_field f) else d.

(** [computeFullModel(inputs, includeBlockRewards)]: the output record and
    the labels of the warnings logged on the way, or the error thrown. *)
Definition computeFullModel (inputs : EconomicInputs) (includeBlockRewards : bool)
  : completion (EconomicOutputs * list string) :=
  let currentBlockReward := if includeBlockRewards then Fin (3125 # 1000) else Fin 0 in
  let rewardUsdDay :=
    usd (currentBlockReward * Fin BLOCKS_PER_DAY)%num (Fin (btcPrice inputs)) in
  match solveFeerateForTarget inputs with
  | Throw msg => Throw msg
  | Return solverResult =>
  let optimalFeerate := feerate solverResult in
  let confirmedVbPerDay' := confirmedVbPerDay optimalFeerate inputs in
  let dailyFeeRevenueUSD :=
    ((optimalFeerate * confirmedVbPerDay' / Fin SATOSHIS_PER_BTC)
     * Fin (btcPrice inputs))%num in
  let dailyFeeRevenueBTC := (dailyFeeRevenueUSD / Fin (btcPrice inputs))%num in
  let feesPerBlockUSD := (dailyFeeRevenueUSD / Fin BLOCKS_PER_DAY)%num in
  let feesPerBlockBTC := (feesPerBlockUSD / Fin (btcPrice inputs))%num in
  let avgFeePerTxUSD :=
    ((optimalFeerate * Fin (avgTxVb inputs) / Fin SATOSHIS_PER_BTC)
     * Fin (btcPrice inputs))%num in
  let w1 := assertNearlyEqual dailyFeeRevenueUSD (targetFeesUsd solverResult)
              (Fin 1) "Daily fees match solver target" in
  let w2 := assertNearlyEqual feesPerBlockUSD
              (dailyFeeRevenueUSD / Fin BLOCKS_PER_DAY)%num
              (Fin (1 # 100)) "Fees per block consistency" in
  let w3 := assertNearlyEqual (feesPerBlockBTC * Fin (btcPrice inputs))%num
              feesPerBlockUSD (Fin (1 # 100)) "Block fees BTC/USD consistency" in
  let w4 := assertNearlyEqual (dailyFeeRevenueBTC * Fin (btcPrice inputs))%num
              dailyFeeRevenueUSD (Fin (1 # 100)) "Daily fees BTC/USD consistency" in
  let demandVbPerDay' := demandVbPerDay optimalFeerate inputs in
  let backlogVb' :=
    Math_max (Fin 0)
      (Fin (backlogVb inputs) + demandVbPerDay' - confirmedVbPerDay')%num in
  let avgConfirmationTimeMin := calculateConfirmationTime optimalFeerate inputs in
  let feeRevenueWithMEV :=
    (dailyFeeRevenueUSD * (Fin 1 + Fin (mevUplift inputs)))%num in
  let networkRevenueUSD := (feeRevenueWithMEV + rewardUsdDay)%num in
  match securityBudgetTargetUsd inputs with
  | Throw msg => Throw msg
  | Return securityBudgetTargetUSD =>
  let equilibriumHashrateTH' :=
    (networkRevenueUSD
     / (Fin (costPerTHDay inputs) * (Fin 1 + Fin (margin inputs))))%num in
  let attackCost6hUSD :=
    attackCostUsd (Fin 6) equilibriumHashrateTH'
      (or_default (rentRateUsdPerTHHour inputs) (Fin (6 # 100))) in
  let attackCostAsPercentOfSettlement :=
    if truthy (of_field (settlementUsdDay inputs)) then
      ((attackCost6hUSD / ToNumber (of_field (settlementUsdDay inputs)))
       * Fin 100)%num
    else Fin 0 in
  let poolDailyRevenueUSD := (networkRevenueUSD * Fin (poolShare inputs))%num in
  let poolDailyExpensesUSD :=
    (equilibriumHashrateTH' * Fin (poolShare inputs)
     * Fin (costPerTHDay inputs))%num in
  let poolDailyProfitUSD := (poolDailyRevenueUSD - poolDailyExpensesUSD)%num in
  let poolProfitMargin :=
    if (poolDailyRevenueUSD >? Fin 0)%num
    then (poolDailyProfitUSD / poolDailyRevenueUSD)%num
    else Fin (-1) in
  let expectedPoolRevenue := (networkRevenueUSD * Fin (poolShare inputs))%num in
  let w5 := assertNearlyEqual poolDailyRevenueUSD expectedPoolRevenue
              (Fin (1 # 100)) "Pool revenue calculation" in
  let breakEvenBTCPrice :=
    if (poolDailyExpensesUSD >? Fin 0)%num && (dailyFeeRevenueBTC >? Fin 0)%num
    then (poolDailyExpensesUSD
          / (dailyFeeRevenueBTC * Fin (poolShare inputs)))%num
    else PInf in
  let currentHashrateTH := (Fin 400 * Fin 1000000000000)%num in
  let hashrateSustainabilityRatio :=
    (equilibriumHashrateTH' / currentHashrateTH)%num in
  Return
    (mkOutputs optimalFeerate dailyFeeRevenueBTC dailyFeeRevenueUSD
       feesPerBlockBTC avgFeePerTxUSD demandVbPerDay' confirmedVbPerDay'
       backlogVb' avgConfirmationTimeMin equilibriumHashrateTH'
       networkRevenueUSD securityBudgetTargetUSD attackCost6hUSD
       attackCostAsPercentOfSettlement poolDailyRevenueUSD
       poolDailyExpensesUSD poolDailyProfitUSD poolProfitMargin
       breakEvenBTCPrice hashrateSustainabilityRatio
       (mkSolverInfo (targetMet solverResult) (gap solverResult)
          (actualRevenue solverResult) (targetFeesUsd solverResult))
       currentHashrateTH,
     (w1 ++ w2 ++ w3 ++ w4 ++ w5)%list)
  end
  end.

End Model.

(** ** Formatting helpers *)

Section Formatting.

(** [Number.prototype.toFixed], a builtin that prints a number in decimal
    notation with the given count of fractional digits. *)
Variable toFixed : num -> nat -> string.

(** [x === 0] on numbers. *)
Definition is_zero (x : num) : bool :=
  match x with
  | Fin q => Qeq_bool q 0
  | _ => false
  end.

(** [pct(x, digits = 1)] *)
Definition pct (x : num) (digits : nat) : string :=
  (toFixed (x * Fin 100)%num digits ++ "%")%string.

Definition pctOfCurrent (val current : num) : string :=
  if is_zero current then "—"%string
  else
    let r := (val / current)%num in
    if (r <? Fin (5 # 1000))%num then "<0.5%"%string
    else pct r 1.

Definition pctChange (newV oldV : num) : string :=
  if is_zero oldV then "—"%string
  else
    let r := ((newV - oldV) / oldV)%num in
    if (Math_abs r <? Fin (5 # 1000))%num then "≈0%"%string
    else
      let pctValue := toFixed (r * Fin 100)%num 1 in
      ((if (r >=? Fin 0)%num then "+" else "") ++ pctValue ++ "%")%string.

Definition fmtChange (newV oldV : num) : string :=
  if is_zero oldV then "—"%string
  else
    let r := ((newV - oldV) / oldV)%num in
    if (Math_abs r <? Fin (5 # 1000))%num then "≈0%"%string
    else
      ((if (r >=? Fin 0)%num then "+" else "")
       ++ toFixed (r * Fin 100)%num 1 ++ "%")%string.

End Formatting.

(** ** The fee-scenario sweep of the charts *)

(** One row of the scenario chart. *)
Record FeeScenario : Type := mkFeeScenario {
  sc_feeRate : num;
  sc_dailyRevenue : num;
  sc_demandMB : num;
  sc_hashrate : num;
  sc_feePerTx : num;
  sc_attackCost : num;
  sc_securityTarget : num
}.

Definition scenarioFeeRates : list Q := [5; 10; 20; 50; 100; 200; 300; 500; 1000].

(** The [for ... of] loop of [generateFeeScenarios] over the fee rates
    left, with the rows pushed so far and the warnings logged so far: each
    pass runs the fee-only model on the inputs with [baselineFeerate]
    replaced. *)
Fixpoint scenario_loop (Math_pow : num -> num -> num) (inputs : EconomicInputs)
    (feeRates : list Q) (scenarios : list FeeScenario) (log : list string)
  : completion (list FeeScenario * list string) :=
  match feeRates with
  | [] => Return (scenarios, log)
  | feeRate :: rest =>
      let testInputs := with_baselineFeerate feeRate inputs in
      match computeFullModel Math_pow testInputs false with
      | Throw msg => Throw msg
      | Return (results, warnings) =>
          let row :=
            mkFeeScenario (Fin feeRate)
              (dailyFeeRevenueUSD results / Fin 1000000)%num
              (out_demandVbPerDay results / Fin 1000000)%num
              (out_equilibriumHashrateTH results / Fin 1000000000000)%num
              (usd ((Fin feeRate * Fin (avgTxVb inputs)) / Fin 100000000)%num
                 (Fin (btcPrice inputs)))
              (attackCost6hUSD results / Fin 1000000)%num
              (ToNumber (securityBudgetTargetUSD results) / Fin 1000000)%num in
          scenario_loop Math_pow inputs rest (scenarios ++ [row])
            (log ++ warnings)
      end
  end.

Definition generateFeeScenarios (Math_pow : num -> num -> num)
    (inputs : EconomicInputs) : completion (list FeeScenario * list string) :=
  scenario_loop Math_pow inputs scenarioFeeRates [] [].

(** ** The mining economics calculator *)

(** The value of an optional parameter with a destructuring default. *)
Definition with_default (f : option Q) (d : Q) : num :=
  match of_field f with
  | Undefined => Fin d
  | Number n => n
  end.

(** [Math.floor] *)
Definition Math_floor (a : num) : num :=
  match a with
  | Fin q => Fin (inject_Z (Qfloor q))
  | other => other
  end.

Module MiningEconomicsCalculator.

(** The parameter object of [calculateMiningMetrics]. *)
Record Params : Type := mkParams {
  poolHashrate : Q;
  networkHashrate : Q;
  btcPrice : Q;
  avgFeeRate : Q;
  blockSize : Q;
  electricityCost : option Q;
  hardwareCostPerTH : option Q;
  powerConsumptionPerTH : option Q
}.

(** [MiningPoolMetrics] *)
Record MiningPoolMetrics : Type := mkMetrics {
  m_totalHashrate : num;
  m_hardwareCost : num;
  m_hardwareLifespan : num;
  m_electricityCost : num;
  m_powerConsumption : num;
  m_coolingCost : num;
  m_facilityRent : num;
  m_staffCost : num;
  m_maintenanceCost : num;
  m_networkHashrate : num;
  m_btcPrice : num;
  m_avgFeeRate : num;
  m_blockSize : num;
  marketShare : num;
  dailyBlocks : num;
  dailyRevenue : num;
  dailyExpenses : num;
  dailyProfit : num;
  profitMargin : num;
  breakEvenPrice : num;
  roiMonths : num
}.

Definition calculateMiningMetrics (params : Params) : MiningPoolMetrics :=
  let electricityCost := with_default (electricityCost params) (8 # 100) in
  let hardwareCostPerTH := with_default (hardwareCostPerTH params) 25 in
  let powerConsumptionPerTH := with_default (powerConsumptionPerTH params) 25 in
  let poolTH := (Fin (poolHashrate params) / Fin 1000000000000)%num in
  let networkTH := (Fin (networkHashrate params) / Fin 1000000000000)%num in
  let marketShare := ((poolTH / networkTH) * Fin 100)%num in
  let blocksPerDay := Fin 144 in
  let dailyBlocks := (blocksPerDay * (poolTH / networkTH))%num in
  let feesPerBlock :=
    ((Fin (avgFeeRate params) * Fin (blockSize params)) / Fin 100000000)%num in
  let dailyBTCRevenue := (dailyBlocks * feesPerBlock)%num in
  let dailyRevenue := (dailyBTCRevenue * Fin (btcPrice params))%num in
  let powerPerTH := (powerConsumptionPerTH / Fin 1000)%num in
  let dailyElectricityPerTH := (powerPerTH * Fin 24 * electricityCost)%num in
  let dailyCoolingPerTH := (dailyElectricityPerTH * Fin (3 # 10))%num in
  let hardwareLifespan := Fin 3 in
  let dailyDepreciationPerTH :=
    (hardwareCostPerTH / (hardwareLifespan * Fin 365))%num in
  let dailyFacilityPerTH := Fin (1 # 10) in
  let dailyStaffPerTH := Fin (5 # 100) in
  let dailyMaintenancePerTH :=
    ((hardwareCostPerTH * Fin (2 # 100)) / Fin 365)%num in
  let dailyExpensesPerTH :=
    (dailyElectricityPerTH + dailyCoolingPerTH + dailyDepreciationPerTH
     + dailyFacilityPerTH + dailyStaffPerTH + dailyMaintenancePerTH)%num in
  let dailyExpenses := (dailyExpensesPerTH * poolTH)%num in
  let totalHardwareCost := (poolTH * hardwareCostPerTH)%num in
  let dailyProfit := (dailyRevenue - dailyExpenses)%num in
  let profitMargin :=
    if (dailyRevenue >? Fin 0)%num
    then Math_max (Fin (-1000))
           (Math_min (Fin 1000) ((dailyProfit / dailyRevenue) * Fin 100)%num)
    else Fin (-100) in
  let breakEvenPrice :=
    if (dailyBTCRevenue >? Fin 0)%num
    then Math_min (Fin 10000000) (dailyExpenses / dailyBTCRevenue)%num
    else PInf in
  let roiMonths :=
    if (dailyProfit >? Fin 0)%num
    then Math_min (Fin 1200) (totalHardwareCost / (dailyProfit * Fin 30))%num
    else PInf in
  mkMetrics (Fin (poolHashrate params)) hardwareCostPerTH hardwareLifespan
    electricityCost powerConsumptionPerTH (Fin 30)
    (dailyFacilityPerTH * poolTH * Fin 30)%num
    (dailyStaffPerTH * poolTH * Fin 30)%num
    (Fin 2) (Fin (networkHashrate params)) (Fin (btcPrice params))
    (Fin (avgFeeRate params)) (Fin (blockSize params))
    marketShare dailyBlocks dailyRevenue dailyExpenses dailyProfit
    profitMargin breakEvenPrice roiMonths.

(** [calculateNetworkEconomics]: the parameter object has no pool
    hashrate, hardware cost or power consumption; the spread adds the
    pool, a tenth of the network. *)
Definition calculateNetworkEconomics (networkHashrate btcPrice avgFeeRate
    blockSize : Q) (electricityCost : option Q) : MiningPoolMetrics :=
  let averagePoolSize := networkHashrate * (1 # 10) in
  calculateMiningMetrics
    (mkParams averagePoolSize networkHashrate btcPrice avgFeeRate blockSize
       electricityCost None None).

Definition calculateHashrateSustainability (btcPrice avgFeeRate blockSize : Q)
    (electricityCost targetProfitMargin : option Q) : num :=
  let electricityCost := with_default electricityCost (8 # 100) in
  let targetProfitMargin := with_default targetProfitMargin 10 in
  let feesPerBlock := ((Fin avgFeeRate * Fin blockSize) / Fin 100000000)%num in
  let dailyBTCRevenue := (Fin 144 * feesPerBlock)%num in
  let dailyUSDRevenue := (dailyBTCRevenue * Fin btcPrice)%num in
  let powerPerTH := (Fin 25 / Fin 1000)%num in
  let dailyElectricityPerTH := (powerPerTH * Fin 24 * electricityCost)%num in
  let dailyCoolingPerTH := (dailyElectricityPerTH * Fin (3 # 10))%num in
  let dailyInfrastructurePerTH :=
    (Fin (1 # 10) + Fin (5 # 100) + Fin (15 # 100))%num in
  let totalCostPerTHPerDay :=
    (dailyElectricityPerTH + dailyCoolingPerTH + dailyInfrastructurePerTH)%num in
  let targetCostRatio := ((Fin 100 - targetProfitMargin) / Fin 100)%num in
  let maxAffordableCostPerDay := (dailyUSDRevenue * targetCostRatio)%num in
  let sustainableHashrateTH :=
    (maxAffordableCostPerDay / totalCostPerTHPerDay)%num in
  Math_max (Fin 0) (sustainableHashrateTH * Fin 1000000000000)%num.

End MiningEconomicsCalculator.

(** The status that [formatProfitability] assigns. *)
Inductive ProfitStatus : Type := profitable | marginal | unprofitable.

(** [formatProfitability]: text, colour class and status. *)
Definition formatProfitability (profitMargin : num)
  : string * string * ProfitStatus :=
  if (profitMargin >? Fin 20)%num then
    ("Highly Profitable", "text-green-400", profitable)%string
  else if (profitMargin >? Fin 10)%num then
    ("Profitable", "text-green-400", profitable)%string
  else if (profitMargin >? Fin 0)%num then
    ("Marginally Profitable", "text-yellow-400", marginal)%string
  else if (profitMargin >? Fin (-20))%num then
    ("Unprofitable", "text-red-400", unprofitable)%string
  else
    ("Severely Unprofitable", "text-red-400", unprofitable)%string.

(** [calculateMinerRevenue] and [calculateNetworkSecurity] of the shared
    utilities. *)
Definition calculateMinerRevenue (avgFeeRate blockSize btcPrice : num) : num :=
  let feesInBTC := ((avgFeeRate * blockSize) / Fin 100000000)%num in
  (feesInBTC * btcPrice)%num.

Definition calculateNetworkSecurity (hashrate minerRevenue minerCostPerTH : num)
  : num :=
  let totalMinerCost :=
    ((hashrate / Fin 1000000000000) * minerCostPerTH * Fin 24)%num in
  let revenuePerDay := (minerRevenue * Fin 144)%num in
  Math_min (revenuePerDay / totalMinerCost)%num (Fin 2).

(** ** The fee analyzer *)

Module FeeAnalyzer.

(** The parameter object of [analyzeFeeMarket]. *)
Record Params : Type := mkParams {
  avgFeeRate : Q;
  mempoolSize : Q;
  blockSize : Q;
  btcPrice : Q;
  networkHashrate : Q;
  targetSecurityBudget : option Q
}.

(** [FeeMetrics] *)
Record FeeMetrics : Type := mkFeeMetrics {
  currentFeeRate : num;
  currentMempoolSize : num;
  currentBlockSize : num;
  lowPriorityFee : num;
  mediumPriorityFee : num;
  highPriorityFee : num;
  feesPerBlock : num;
  feesPerBlockUSD : num;
  dailyFeeRevenue : num;
  feeMarketDepth : num;
  avgTransactionSize : num;
  avgFeePerTransaction : num;
  requiredFeeRate : num;
  feeMultiplierNeeded : num;
  sustainableTxThroughput : num
}.

Definition analyzeFeeMarket (params : Params) : FeeMetrics :=
  let avgFeeRate := Fin (avgFeeRate params) in
  let mempoolSize := Fin (mempoolSize params) in
  let blockSize := Fin (blockSize params) in
  let btcPrice := Fin (btcPrice params) in
  let targetSecurityBudget :=
    with_default (targetSecurityBudget params) 50000000 in
  let lowPriorityFee := Math_max (Fin 1) (avgFeeRate * Fin (3 # 10))%num in
  let mediumPriorityFee := avgFeeRate in
  let highPriorityFee := (avgFeeRate * Fin 3)%num in
  let feesPerBlockSats := (avgFeeRate * blockSize)%num in
  let feesPerBlock := (feesPerBlockSats / Fin 100000000)%num in
  let feesPerBlockUSD := (feesPerBlock * btcPrice)%num in
  let dailyFeeRevenue := (feesPerBlockUSD * Fin 144)%num in
  let avgTransactionSize := Fin 250 in
  let transactionsPerBlock := Math_floor (blockSize / avgTransactionSize)%num in
  let avgFeePerTransaction := (feesPerBlockUSD / transactionsPerBlock)%num in
  let avgMempoolFeeRate := (avgFeeRate * Fin (8 # 10))%num in
  let totalMempoolBytes := (mempoolSize * avgTransactionSize)%num in
  let feeMarketDepth :=
    ((avgMempoolFeeRate * totalMempoolBytes / Fin 100000000) * btcPrice)%num in
  let requiredDailyRevenue := targetSecurityBudget in
  let requiredFeePerBlock := (requiredDailyRevenue / Fin 144)%num in
  let requiredFeesPerBlockBTC := (requiredFeePerBlock / btcPrice)%num in
  let requiredFeeRate :=
    ((requiredFeesPerBlockBTC * Fin 100000000) / blockSize)%num in
  let feeMultiplierNeeded := (requiredFeeRate / avgFeeRate)%num in
  let demandElasticity := Fin (-3 # 10) in
  let feeIncrease := Math_max (Fin 0) (feeMultiplierNeeded - Fin 1)%num in
  let demandReduction :=
    Math_min (Fin (8 # 10)) (Math_abs (demandElasticity * feeIncrease)%num) in
  let baseThroughput := (transactionsPerBlock * Fin 144 / Fin 86400)%num in
  let sustainableTxThroughput :=
    Math_max (Fin (1 # 10)) (baseThroughput * (Fin 1 - demandReduction))%num in
  mkFeeMetrics avgFeeRate mempoolSize blockSize
    lowPriorityFee mediumPriorityFee highPriorityFee
    feesPerBlock feesPerBlockUSD dailyFeeRevenue
    feeMarketDepth avgTransactionSize avgFeePerTransaction
    requiredFeeRate feeMultiplierNeeded sustainableTxThroughput.

(** An element of the [scenarios] array and a row of the result of
    [calculateFeeScenarios]. *)
Record Scenario : Type := mkScenario {
  name : string;
  demandMultiplier : Q;
  feeMultiplier : Q
}.

Record ScenarioResult : Type := mkScenarioResult {
  r_name : string;
  r_feeRate : num;
  r_feesPerBlock : num;
  r_dailyRevenue : num;
  r_demandMultiplier : num;
  r_avgConfirmTime : num
}.

Definition calculateFeeScenarios (baseFeeRate btcPrice blockSize : Q)
    (scenarios : list Scenario) : list ScenarioResult :=
  map (fun scenario =>
         let effectiveFeeRate :=
           (Fin baseFeeRate * Fin (feeMultiplier scenario))%num in
         let feesPerBlock :=
           ((effectiveFeeRate * Fin blockSize) / Fin 100000000
            * Fin btcPrice)%num in
         let dailyRevenue := (feesPerBlock * Fin 144)%num in
         mkScenarioResult (name scenario) effectiveFeeRate feesPerBlock
           dailyRevenue (Fin (demandMultiplier scenario))
           (Math_max (Fin 10)
              (Fin 600 / (Fin 7 * Fin (demandMultiplier scenario)))%num))
      scenarios.

End FeeAnalyzer.

(** The priority that [formatFeePriority] assigns. *)
Inductive FeePriority : Type := low | medium | high | urgent.

Definition formatFeePriority (feeRate : num)
  : string * string * FeePriority :=
  if (feeRate <? Fin 5)%num then
    ("Low Priority", "text-green-400", low)%string
  else if (feeRate <? Fin 20)%num then
    ("Medium Priority", "text-yellow-400", medium)%string
  else if (feeRate <? Fin 100)%num then
    ("High Priority", "text-orange-400", high)%string
  else
    ("Urgent", "text-red-400", urgent)%string.

(** The record with the fee rate replaced
    ([{...params, avgFeeRate: f}]). *)
Definition with_avgFeeRate (f : Q) (p : FeeAnalyzer.Params)
  : FeeAnalyzer.Params :=
  FeeAnalyzer.mkParams f (FeeAnalyzer.mempoolSize p) (FeeAnalyzer.blockSize p)
    (FeeAnalyzer.btcPrice p) (FeeAnalyzer.networkHashrate p)
    (FeeAnalyzer.targetSecurityBudget p).

(** ** Closed instances *)

(** An odd integer. *)
Definition odd_integer (e : Q) : bool :=
  match Qden (Qred e) with
  | xH => Z.odd (Qnum (Qred e))
  | _ => false
  end.

(** [Math.pow] wherever its result is rational or a special value: a
    finite base to an integer exponent is [x^n], with [0^n = Infinity] for
    negative [n]; any base to the exponent 0 is 1, [NaN] included; zero and
    the infinities follow the sign of the exponent, [-Infinity] keeping its
    sign at odd integers; a negative base to an exponent that is not an
    integer is [NaN]; a base of absolute value 1 to an infinite exponent is
    [NaN].  The one case left out is a positive finite base other than 1
    to a finite exponent that is not an integer, where the result is
    irrational: the definition gives [NaN] there and no statement relies
    on it. *)
Definition pow_int (base exponent : num) : num :=
  match base, exponent with
  | Fin x, Fin e =>
      let e' := Qred e in
      match Qden e' with
      | xH =>
          match Qsign x, Qnum e' with
          | Zero, Zneg _ => PInf
          | _, n => Fin (Qpower x n)
          end
      | _ =>
          match Qsign x with
          | Zero => if Qltb 0 e then Fin 0 else PInf
          | _ => NaN
          end
      end
  | NaN, Fin e | PInf, Fin e | NInf, Fin e =>
      match Qsign e with
      | Zero => Fin 1
      | Pos =>
          match base with
          | PInf => PInf
          | NInf => if odd_integer e then NInf else PInf
          | _ => NaN
          end
      | Neg =>
          match base with
          | NaN => NaN
          | _ => Fin 0
          end
      end
  | Fin x, PInf =>
      match Qcompare (Qabs x) 1 with
      | Gt => PInf
      | Lt => Fin 0
      | Eq => NaN
      end
  | Fin x, NInf =>
      match Qcompare (Qabs x) 1 with
      | Gt => Fin 0
      | Lt => PInf
      | Eq => NaN
      end
  | PInf, PInf | NInf, PInf => PInf
  | PInf, NInf | NInf, NInf => Fin 0
  | NaN, PInf | NaN, NInf | NaN, NaN | Fin _, NaN | PInf, NaN | NInf, NaN => NaN
  end.

(** [getDefaultInputs()], with the elasticity left open. *)
Definition defaultInputs (eps : Q) : EconomicInputs :=
  let currentBTCPrice := 100000 in
  let currentBlockReward := 3125 # 1000 in
  let currentSecurityBudget := currentBTCPrice * currentBlockReward * 144 in
  mkInputs currentBTCPrice 4 12 280000000
    eps (3 # 100) (15 # 10) (107 # 1000) (8 # 1000)
    210 25000000
    "percent_of_2025" (Some (65 # 100)) (Some currentSecurityBudget)
    (Some (3 # 1000)) (Some 8000000000) (Some 25000000)
    (Some (115 # 100)) (Some (13 # 10)) (Some (6 # 100)).

(** Zero elasticity, nothing optional set: the budget is [usdDay] dollars
    a day in absolute terms, no ancillary revenue. *)
Definition flatInputs (usdDay : option Q) : EconomicInputs :=
  mkInputs 100000 4 12 280000000 0 0 (15 # 10) (107 # 1000) (8 # 1000)
    210 25000000 "absolute_usd" None None None None usdDay None None None.

(** [flatInputs] with an unrecognised mode string. *)
Definition bogusInputs : EconomicInputs :=
  mkInputs 100000 4 12 280000000 0 0 (15 # 10) (107 # 1000) (8 # 1000)
    210 25000000 "percent_of_gdp" None None None None (Some 1) None None None.

(** The default record with no baseline demand and a zero batching factor:
    the demand is [0 / 0]. *)
Definition noDemandInputs : EconomicInputs :=
  mkInputs 100000 4 12 0 0 (3 # 100) (15 # 10) (107 # 1000) (8 # 1000)
    210 25000000 "percent_of_2025" (Some (65 # 100))
    (Some (100000 * (3125 # 1000) * 144))
    (Some (3 # 1000)) (Some 8000000000) (Some 25000000)
    (Some 0) (Some (13 # 10)) (Some (6 # 100)).

(** [flatInputs] with a negative block limit. *)
Definition negativeLimitInputs : EconomicInputs :=
  mkInputs 100000 (-4) 12 280000000 0 0 (15 # 10) (107 # 1000) (8 # 1000)
    210 25000000 "absolute_usd" None None None None (Some 25000000)
    None None None.

(** The three recognised modes. *)
Definition recognised (mode : string) : Prop :=
  mode = "absolute_usd"%string \/ mode = "percent_of_2025"%string
  \/ mode = "percent_of_settlement_value"%string.

(** ** The same program on binary64 numbers

    The model above computes on exact rationals.  Where a statement depends
    on the rounding of the double-precision operations, the program is
    evaluated on Rocq's primitive binary64 numbers, whose operations are
    those of the language: [+], [-], [*], [/] and the comparisons are the
    IEEE 754 ones, rounded to nearest.  The definitions follow the source
    line by line, as the exact ones do; [a >= b] is written [b <=? a] and
    [a > b] is written [b <? a]. *)

Set Warnings "-inexact-float".

Module Binary64.

Import PrimFloat.
Local Open Scope float_scope.

(** [Math.min] and [Math.max] of two arguments: [NaN] if either is, and
    [-0] below [+0]. *)
Definition Math_min (a b : float) : float :=
  if is_nan a || is_nan b then nan
  else if a <? b then a
  else if b <? a then b
  else if get_sign a then a else b.

Definition Math_max (a b : float) : float :=
  if is_nan a || is_nan b then nan
  else if a <? b then b
  else if b <? a then a
  else if get_sign a then b else a.

Definition Math_abs (a : float) : float := abs a.

(** [ToNumber] of an optional field: [undefined] is [NaN]. *)
Definition ToNumber (v : option float) : float :=
  match v with
  | Some x => x
  | None => nan
  end.

(** Truthiness: [undefined], [0], [-0] and [NaN] are falsy. *)
Definition truthy (v : option float) : bool :=
  match v with
  | Some x => negb (is_zero x || is_nan x)
  | None => false
  end.

(** [EconomicInputs], the result of the solver, the variables of its loop
    and [EconomicOutputs], as in the exact model, on doubles. *)
Record EconomicInputs : Type := mkInputs {
  btcPrice : float;
  blockLimitMB : float;
  baselineFeerate : float;
  baselineDemandVbDay : float;
  elasticity : float;
  mevUplift : float;
  costPerTHDay : float;
  margin : float;
  poolShare : float;
  avgTxVb : float;
  backlogVb : float;
  securityBudgetMode : string;
  alpha : option float;
  base2025RevenueUsd : option float;
  beta : option float;
  settlementUsdDay : option float;
  absoluteUsdDay : option float;
  batchingFactor : option float;
  valuePerTxMultiplier : option float;
  rentRateUsdPerTHHour : option float
}.

Record SolverResult : Type := mkSolverResult {
  feerate : float;
  targetMet : bool;
  gap : float;
  actualRevenue : float;
  confirmedDemandMBDay : float;
  targetFeesUsd : float
}.

Record SearchState : Type := mkSearch {
  lo : float;
  hi : float;
  bestFeerate : float;
  bestGap : float;
  bestFeesUsd : float;
  bestDemand : float
}.

Record SolverInfo : Type := mkSolverInfo {
  info_targetMet : bool;
  info_gap : float;
  info_actualRevenue : float;
  info_targetFeesUsd : float
}.

Record EconomicOutputs : Type := mkOutputs {
  optimalFeerate : float;
  dailyFeeRevenueBTC : float;
  dailyFeeRevenueUSD : float;
  feesPerBlockBTC : float;
  avgFeePerTxUSD : float;
  out_demandVbPerDay : float;
  out_confirmedVbPerDay : float;
  out_backlogVb : float;
  avgConfirmationTimeMin : float;
  out_equilibriumHashrateTH : float;
  networkRevenueUSD : float;
  securityBudgetTargetUSD : option float;
  attackCost6hUSD : float;
  attackCostAsPercentOfSettlement : float;
  poolDailyRevenueUSD : float;
  poolDailyExpensesUSD : float;
  poolDailyProfitUSD : float;
  poolProfitMargin : float;
  breakEvenBTCPrice : float;
  hashrateSustainabilityRatio : float;
  solverInfo : SolverInfo;
  currentHashrateTH : float
}.

(** [assertNearlyEqual]: the label of the warning it logs, if any. *)
Definition assertNearlyEqual (actual expected tolerance : float) (label : string)
  : list string :=
  let diff := Math_abs (actual - expected) in
  if tolerance <? diff then [label] else [].

Definition BLOCKS_PER_DAY : float := 144.
Definition SATOSHIS_PER_BTC : float := 1e8.

Definition usd (btcAmount btcPrice : float) : float := btcAmount * btcPrice.

Section Model.

Variable Math_pow : float -> float -> float.

Definition blockLimitVb (blockLimitMB : float) : float :=
  blockLimitMB * 1000000.

Definition demandVbPerDay (feerate : float) (inputs : EconomicInputs) : float :=
  let batchingFactor :=
    match batchingFactor inputs with
    | None => 1
    | Some b => b
    end in
  let ratio := feerate / baselineFeerate inputs in
  (baselineDemandVbDay inputs / batchingFactor)
  * Math_pow ratio (elasticity inputs).

Definition confirmedVbPerDay (feerate : float) (inputs : EconomicInputs) : float :=
  let demand := demandVbPerDay feerate inputs in
  let supply := blockLimitVb (blockLimitMB inputs) * BLOCKS_PER_DAY in
  Math_min demand supply.

Definition feesUsdPerDay (feerate : float) (inputs : EconomicInputs) : float :=
  let vbConfirmed := confirmedVbPerDay feerate inputs in
  let feesBtc := (feerate * vbConfirmed) / SATOSHIS_PER_BTC in
  usd feesBtc (btcPrice inputs).

Definition securityBudgetTargetUsd (inputs : EconomicInputs)
  : completion (option float) :=
  if String.eqb (securityBudgetMode inputs) "absolute_usd" then
    Return (absoluteUsdDay inputs)
  else if String.eqb (securityBudgetMode inputs) "percent_of_2025" then
    Return (Some (ToNumber (alpha inputs)
                  * ToNumber (base2025RevenueUsd inputs)))
  else if String.eqb (securityBudgetMode inputs) "percent_of_settlement_value" then
    Return (Some (ToNumber (beta inputs)
                  * ToNumber (settlementUsdDay inputs)))
  else
    Throw "Invalid security budget mode".

Definition search_init : SearchState :=
  mkSearch 1 100000 100000 infinity 0 0.

Definition search_body (inputs : EconomicInputs) (targetFeesUsd : float)
    (s : SearchState) : SearchState :=
  let mid := (lo s + hi s) / 2 in
  let confirmedVbDay := confirmedVbPerDay mid inputs in
  let feesUsd := (mid * confirmedVbDay / SATOSHIS_PER_BTC) * btcPrice inputs in
  let gap := Math_abs (feesUsd - targetFeesUsd) / targetFeesUsd in
  let s1 :=
    if gap <? bestGap s then
      mkSearch (lo s) (hi s) mid gap feesUsd (confirmedVbDay / 1e6)
    else s in
  if targetFeesUsd <=? feesUsd then
    mkSearch (lo s1) mid (bestFeerate s1) (bestGap s1) (bestFeesUsd s1) (bestDemand s1)
  else
    mkSearch mid (hi s1) (bestFeerate s1) (bestGap s1) (bestFeesUsd s1) (bestDemand s1).

Fixpoint search_loop (n : nat) (inputs : EconomicInputs) (targetFeesUsd : float)
    (s : SearchState) : SearchState :=
  match n with
  | O => s
  | S n' =>
      let s' := search_body inputs targetFeesUsd s in
      if (hi s' - lo s') <? 0.001 then s'
      else search_loop n' inputs targetFeesUsd s'
  end.

Definition solveFeerateForTarget (inputs : EconomicInputs)
  : completion SolverResult :=
  match securityBudgetTargetUsd inputs with
  | Throw msg => Throw msg
  | Return securityBudgetTarget =>
      let gamma := mevUplift inputs in
      let tolerance := 0.0025 in
      let targetFeesUsd := ToNumber securityBudgetTarget / (1 + gamma) in
      let s := search_loop 100 inputs targetFeesUsd search_init in
      let finalGap := (bestFeesUsd s - targetFeesUsd) / targetFeesUsd in
      let actualRevenue := bestFeesUsd s * (1 + gamma) in
      Return (mkSolverResult (bestFeerate s)
                (Math_abs finalGap <=? tolerance)
                finalGap actualRevenue (bestDemand s) targetFeesUsd)
  end.


Definition attackCostUsd (hours hashrateTH rentRateUsdPerTHHour : float) : float :=
  let attackerTH := 0.51 * hashrateTH in
  attackerTH * rentRateUsdPerTHHour * hours.

Definition calculateConfirmationTime (feerate : float) (inputs : EconomicInputs)
  : float :=
  let demand := demandVbPerDay feerate inputs in
  let supply := blockLimitVb (blockLimitMB inputs) * BLOCKS_PER_DAY in
  if demand <=? supply then 10
  else
    let backlog := backlogVb inputs + (demand - supply) in
    Math_max 10 ((backlog / supply) * 10 * 60).

Definition computeFullModel (inputs : EconomicInputs) (includeBlockRewards : bool)
  : completion (EconomicOutputs * list string) :=
  let currentBlockReward := if includeBlockRewards then 3.125 else 0 in
  let rewardUsdDay := usd (currentBlockReward * BLOCKS_PER_DAY) (btcPrice inputs) in
  match solveFeerateForTarget inputs with
  | Throw msg => Throw msg
  | Return solverResult =>
  let optimalFeerate := feerate solverResult in
  let confirmedVbPerDay' := confirmedVbPerDay optimalFeerate inputs in
  let dailyFeeRevenueUSD :=
    (optimalFeerate * confirmedVbPerDay' / SATOSHIS_PER_BTC) * btcPrice inputs in
  let dailyFeeRevenueBTC := dailyFeeRevenueUSD / btcPrice inputs in
  let feesPerBlockUSD := dailyFeeRevenueUSD / BLOCKS_PER_DAY in
  let feesPerBlockBTC := feesPerBlockUSD / btcPrice inputs in
  let avgFeePerTxUSD :=
    (optimalFeerate * avgTxVb inputs / SATOSHIS_PER_BTC) * btcPrice inputs in
  let w1 := assertNearlyEqual dailyFeeRevenueUSD (targetFeesUsd solverResult)
              1 "Daily fees match solver target" in
  let w2 := assertNearlyEqual feesPerBlockUSD
              (dailyFeeRevenueUSD / BLOCKS_PER_DAY)
              0.01 "Fees per block consistency" in
  let w3 := assertNearlyEqual (feesPerBlockBTC * btcPrice inputs)
              feesPerBlockUSD 0.01 "Block fees BTC/USD consistency" in
  let w4 := assertNearlyEqual (dailyFeeRevenueBTC * btcPrice inputs)
              dailyFeeRevenueUSD 0.01 "Daily fees BTC/USD consistency" in
  let demandVbPerDay' := demandVbPerDay optimalFeerate inputs in
  let backlogVb' :=
    Math_max 0 (backlogVb inputs + demandVbPerDay' - confirmedVbPerDay') in
  let avgConfirmationTimeMin := calculateConfirmationTime optimalFeerate inputs in
  let feeRevenueWithMEV := dailyFeeRevenueUSD * (1 + mevUplift inputs) in
  let networkRevenueUSD := feeRevenueWithMEV + rewardUsdDay in
  match securityBudgetTargetUsd inputs with
  | Throw msg => Throw msg
  | Return securityBudgetTargetUSD =>
  let equilibriumHashrateTH' :=
    networkRevenueUSD / (costPerTHDay inputs * (1 + margin inputs)) in
  let attackCost6hUSD :=
    attackCostUsd 6 equilibriumHashrateTH'
      (if truthy (rentRateUsdPerTHHour inputs)
       then ToNumber (rentRateUsdPerTHHour inputs) else 0.06) in
  let attackCostAsPercentOfSettlement :=
    if truthy (settlementUsdDay inputs) then
      (attackCost6hUSD / ToNumber (settlementUsdDay inputs)) * 100
    else 0 in
  let poolDailyRevenueUSD := networkRevenueUSD * poolShare inputs in
  let poolDailyExpensesUSD :=
    equilibriumHashrateTH' * poolShare inputs * costPerTHDay inputs in
  let poolDailyProfitUSD := poolDailyRevenueUSD - poolDailyExpensesUSD in
  let poolProfitMargin :=
    if 0 <? poolDailyRevenueUSD
    then poolDailyProfitUSD / poolDailyRevenueUSD
    else -1 in
  let expectedPoolRevenue := networkRevenueUSD * poolShare inputs in
  let w5 := assertNearlyEqual poolDailyRevenueUSD expectedPoolRevenue
              0.01 "Pool revenue calculation" in
  let breakEvenBTCPrice :=
    if (0 <? poolDailyExpensesUSD) && (0 <? dailyFeeRevenueBTC)
    then poolDailyExpensesUSD / (dailyFeeRevenueBTC * poolShare inputs)
    else infinity in
  let currentHashrateTH := 400 * 1e12 in
  let hashrateSustainabilityRatio :=
    equilibriumHashrateTH' / currentHashrateTH in
  Return
    (mkOutputs optimalFeerate dailyFeeRevenueBTC dailyFeeRevenueUSD
       feesPerBlockBTC avgFeePerTxUSD demandVbPerDay' confirmedVbPerDay'
       backlogVb' avgConfirmationTimeMin equilibriumHashrateTH'
       networkRevenueUSD securityBudgetTargetUSD attackCost6hUSD
       attackCostAsPercentOfSettlement poolDailyRevenueUSD
       poolDailyExpensesUSD poolDailyProfitUSD poolProfitMargin
       breakEvenBTCPrice hashrateSustainabilityRatio
       (mkSolverInfo (targetMet solverResult) (gap solverResult)
          (actualRevenue solverResult) (targetFeesUsd solverResult))
       currentHashrateTH,
     (w1 ++ w2 ++ w3 ++ w4 ++ w5)%list)
  end
  end.

End Model.

(** [Math.pow] at the exponents 0, 1 and -1: 1 for every base, which the
    language fixes, the base itself, and its reciprocal, which is what an
    implementation that rounds correctly returns.  Other exponents are
    left out ([NaN]); no statement relies on them. *)
Definition pow_unit (base exponent : float) : float :=
  if exponent =? 0 then 1
  else if exponent =? 1 then base
  else if exponent =? -1 then 1 / base
  else nan.

(** [getDefaultInputs()], with the elasticity left open. *)
Definition defaultInputs (eps : float) : EconomicInputs :=
  let currentBTCPrice := 100000 in
  let currentBlockReward := 3.125 in
  let currentSecurityBudget := currentBTCPrice * currentBlockReward * 144 in
  mkInputs currentBTCPrice 4.0 12 280000000
    eps 0.03 1.5 0.107 0.008
    210 25000000
    "percent_of_2025" (Some 0.65) (Some currentSecurityBudget)
    (Some 0.003) (Some 8000000000) (Some 25000000)
    (Some 1.15) (Some 1.3) (Some 0.06).

(** Zero elasticity, nothing optional set but an absolute budget of
    [usdDay] dollars a day, no ancillary revenue. *)
Definition flatInputs (usdDay : float) : EconomicInputs :=
  mkInputs 100000 4 12 280000000 0 0 1.5 0.107 0.008
    210 25000000 "absolute_usd" None None None None (Some usdDay) None None None.

(** [flatInputs] with a block limit of 10^15 MB, a demand that fills it
    and a budget out of reach: the fee revenue is about 1.44 * 10^25 USD a
    day. *)
Definition vastInputs : EconomicInputs :=
  mkInputs 100000 1e15 12 1e24 0 0 1.5 0.107 0.008
    210 25000000 "absolute_usd" None None None None (Some 1e30) None None None.

(** [flatInputs] with a budget of 2,800,000 USD a day and a baseline
    demand of [d] vB a day. *)
Definition demandInputs (d : float) : EconomicInputs :=
  mkInputs 100000 4 12 d 0 0 1.5 0.107 0.008
    210 25000000 "absolute_usd" None None None None (Some 2800000) None None None.

(** [{...i, poolShare: p}] *)
Definition with_poolShare (p : float) (i : EconomicInputs) : EconomicInputs :=
  mkInputs (btcPrice i) (blockLimitMB i) (baselineFeerate i)
    (baselineDemandVbDay i) (elasticity i) (mevUplift i) (costPerTHDay i)
    (margin i) p (avgTxVb i) (backlogVb i) (securityBudgetMode i)
    (alpha i) (base2025RevenueUsd i) (beta i) (settlementUsdDay i)
    (absoluteUsdDay i) (batchingFactor i) (valuePerTxMultiplier i)
    (rentRateUsdPerTHHour i).

End Binary64.

(** ** Vocabulary of the statements *)

(** The relative gap the loop minimises. *)
Definition relative_gap (feesUsd target : num) : num :=
  (Math_abs (feesUsd - target) / target)%num.

(** The tracked candidate is either the initial one (the ceiling, with an
    infinite gap and no revenue) or a fee rate the loop evaluated, stored
    with its own revenue and gap. *)
Definition best_tracked (Math_pow : num -> num -> num) (i : EconomicInputs)
    (target : num) (s : SearchState) : Prop :=
  (bestFeerate s = Fin 100000 /\ bestGap s = PInf /\ bestFeesUsd s = Fin 0)
  \/ (bestFeesUsd s = feesUsdPerDay Math_pow (bestFeerate s) i
      /\ bestGap s = relative_gap (bestFeesUsd s) target).

(** Two records that differ at most in [valuePerTxMultiplier]. *)
Definition differ_only_in_valuePerTxMultiplier (i1 i2 : EconomicInputs) : Prop :=
  btcPrice i1 = btcPrice i2 /\ blockLimitMB i1 = blockLimitMB i2
  /\ baselineFeerate i1 = baselineFeerate i2
  /\ baselineDemandVbDay i1 = baselineDemandVbDay i2
  /\ elasticity i1 = elasticity i2 /\ mevUplift i1 = mevUplift i2
  /\ costPerTHDay i1 = costPerTHDay i2 /\ margin i1 = margin i2
  /\ poolShare i1 = poolShare i2 /\ avgTxVb i1 = avgTxVb i2
  /\ backlogVb i1 = backlogVb i2
  /\ securityBudgetMode i1 = securityBudgetMode i2
  /\ alpha i1 = alpha i2 /\ base2025RevenueUsd i1 = base2025RevenueUsd i2
  /\ beta i1 = beta i2 /\ settlementUsdDay i1 = settlementUsdDay i2
  /\ absoluteUsdDay i1 = absoluteUsdDay i2
  /\ batchingFactor i1 = batchingFactor i2
  /\ rentRateUsdPerTHHour i1 = rentRateUsdPerTHHour i2.

(** A target no revenue has a finite relative gap to: zero, or not a
    number. *)
Definition degenerate_target (t : num) : Prop :=
  match t with
  | NaN => True
  | Fin q => q == 0
  | _ => False
  end.

(** The active mode names a field that the record does not carry. *)
Definition required_field_missing (i : EconomicInputs) : Prop :=
  (securityBudgetMode i = "percent_of_2025"%string
   /\ (alpha i = None \/ base2025RevenueUsd i = None))
  \/ (securityBudgetMode i = "percent_of_settlement_value"%string
      /\ (beta i = None \/ settlementUsdDay i = None))
  \/ (securityBudgetMode i = "absolute_usd"%string /\ absoluteUsdDay i = None).

(** The batching factor in force: the field, or its default 1. *)
Definition batching (i : EconomicInputs) : Q :=
  match batchingFactor i with
  | Some b => b
  | None => 1
  end.

(** Block space per day, in vB. *)
Definition supplyVbPerDay (i : EconomicInputs) : Q :=
  blockLimitMB i * 1000000 * 144.

(** The smaller of two rationals, as [Math.min] picks it. *)
Definition Qmin_b (a b : Q) : Q := if Qle_bool a b then a else b.

(** The target [t] is above the fee revenue at every fee rate of the
    search domain. *)
Definition unreachable (Math_pow : num -> num -> num) (i : EconomicInputs)
    (t : Q) : Prop :=
  forall f, 1 <= f <= 100000 ->
  (feesUsdPerDay Math_pow (Fin f) i <? Fin t)%num = true.

(** The fee revenue is finite and strictly increasing over the search
    domain. *)
Definition strictly_increasing_revenue (Math_pow : num -> num -> num)
    (i : EconomicInputs) : Prop :=
  (forall f, 1 <= f <= 100000 -> is_finite (feesUsdPerDay Math_pow (Fin f) i))
  /\ (forall f1 f2, 1 <= f1 -> f1 < f2 -> f2 <= 100000 ->
      (feesUsdPerDay Math_pow (Fin f1) i
       <? feesUsdPerDay Math_pow (Fin f2) i)%num = true).

(** A width halved [n] times. *)
Fixpoint halvings (n : nat) (w : Q) : Q :=
  match n with
  | O => w
  | S n' => halvings n' (w / 2)
  end.

(** What the loop keeps when every midpoint falls short of the target: the
    upper bound stays at the ceiling, the lower bound stays inside the
    domain, and the tracked candidate is the initial one or a midpoint of
    the upper half with its revenue. *)
Definition short_bracket (Math_pow : num -> num -> num) (i : EconomicInputs)
    (s : SearchState) : Prop :=
  hi s = Fin 100000
  /\ (exists l, lo s = Fin l /\ 1 <= l /\ l < 100000)
  /\ ((bestFeerate s = Fin 100000 /\ bestFeesUsd s = Fin 0)
      \/ (exists f, bestFeerate s = Fin f /\ 50000 < f /\ f < 100000
                    /\ bestFeesUsd s = feesUsdPerDay Math_pow (Fin f) i)).

(** The midpoint the next pass of the loop evaluates. *)
Definition midpoint (s : SearchState) : num := ((lo s + hi s) / Fin 2)%num.

(** The state after [n] passes of the loop body, without the [break]. *)
Definition passes (Math_pow : num -> num -> num) (i : EconomicInputs)
    (target : num) (n : nat) : SearchState :=
  Nat.iter n (search_body Math_pow i target) search_init.

(** The bracket is finite and [w] wide. *)
Definition bracket_width (s : SearchState) (w : Q) : Prop :=
  exists l h, lo s = Fin l /\ hi s = Fin h /\ h - l == w.

(** The bracket and the tracked fee rate lie in the search domain. *)
Definition in_domain (s : SearchState) : Prop :=
  exists l h b,
    lo s = Fin l /\ hi s = Fin h /\ bestFeerate s = Fin b
    /\ 1 <= l /\ l <= h /\ h <= 100000 /\ 1 <= b /\ b <= 100000.

(** The relative gap of the midpoint evaluated in pass [k], counting from
    0. *)
Definition pass_gap (Math_pow : num -> num -> num) (i : EconomicInputs)
    (target : num) (k : nat) : num :=
  relative_gap
    (feesUsdPerDay Math_pow (midpoint (passes Math_pow i target k)) i) target.

(** Across any two fee rates less than 0.001 apart, one short of the
    target [t] and the next at it, the revenue is finite and rises by at
    most the tolerated fraction of the target. *)
Definition crossing_within_tolerance (Math_pow : num -> num -> num)
    (i : EconomicInputs) (t : Q) : Prop :=
  forall f f', 1 <= f -> f < f' -> f' <= 100000 -> f' - f < 1 # 1000 ->
  (feesUsdPerDay Math_pow (Fin f) i >=? Fin t)%num = false ->
  (feesUsdPerDay Math_pow (Fin f') i >=? Fin t)%num = true ->
  exists y y',
    feesUsdPerDay Math_pow (Fin f) i = Fin y
    /\ feesUsdPerDay Math_pow (Fin f') i = Fin y'
    /\ y' - y <= tolerance * t.

(** The rational an optional parameter stands for, given its default. *)
Definition default_value (f : option Q) (d : Q) : Q :=
  match f with
  | Some q => q
  | None => d
  end.

(** [x] is not a number, or lies between [a] and [b]. *)
Definition NaN_or_between (a b x : num) : Prop :=
  x = NaN \/ ((a <=? x)%num = true /\ (x <=? b)%num = true).

(** The fee revenue is a finite number over the search domain. *)
Definition finite_revenue (Math_pow : num -> num -> num) (i : EconomicInputs)
  : Prop :=
  forall f, 1 <= f <= 100000 -> is_finite (feesUsdPerDay Math_pow (Fin f) i).

(** [Math.pow] of a positive base and the exponent [e] is a number that is
    not negative, or [Infinity]. *)
Definition pow_is_number (Math_pow : num -> num -> num) (e : Q) : Prop :=
  forall x, 0 < x ->
  Math_pow (Fin x) (Fin e) = PInf
  \/ exists y, Math_pow (Fin x) (Fin e) = Fin y /\ 0 <= y.

(** The records of the data model: positive price, baseline fee rate,
    baseline demand and cost, a batching factor of at least 1, and a block
    limit, an ancillary revenue and a margin that are not negative. *)
Definition well_formed (i : EconomicInputs) : Prop :=
  0 < btcPrice i /\ 0 < baselineFeerate i /\ 0 < baselineDemandVbDay i
  /\ 1 <= batching i /\ 0 <= blockLimitMB i /\ 0 <= mevUplift i
  /\ 0 < costPerTHDay i /\ 0 <= margin i.

(** The laws of the real power function that the monotonicity of the
    revenue rests on, for a function [power] that gives the value of
    [Math.pow] on a positive base at the exponent [e0]: it is positive,
    multiplicative in the base, non-decreasing in the exponent for a base
    of 1 or above, and the reciprocal at the exponent -1. *)
Definition power_laws (Math_pow : num -> num -> num) (power : Q -> Q -> Q)
    (e0 : Q) : Prop :=
  (forall x, 0 < x -> Math_pow (Fin x) (Fin e0) = Fin (power x e0))
  /\ (forall x e, 0 < x -> 0 < power x e)
  /\ (forall x x' e, 0 < x -> x == x' -> power x e == power x' e)
  /\ (forall x y e, 0 < x -> 0 < y ->
        power (x * y) e == power x e * power y e)
  /\ (forall x e e', 1 <= x -> e <= e' -> power x e <= power x e')
  /\ (forall x, 0 < x -> power x (-1) == / x).

(** The integer power [x ^ floor e]: the power function at integer
    exponents, constant in between. *)
Definition floor_power (x e : Q) : Q := Qpower x (Qfloor e).

(** * Properties *)

(** ** The security-budget resolver *)

(** C6: [securityBudgetTargetUsd] returns [alpha * base2025RevenueUsd] in
    mode [percent_of_2025], [beta * settlementUsdDay] in mode
    [percent_of_settlement_value], [absoluteUsdDay] in mode [absolute_usd],
    and throws for every other mode string: no mode is a default. *)
Theorem securityBudgetTargetUsd_by_mode (i : EconomicInputs) :
  (securityBudgetMode i = "percent_of_2025"%string ->
   forall a b, alpha i = Some a -> base2025RevenueUsd i = Some b ->
   securityBudgetTargetUsd i = Return (Number (Fin (a * b))))
  /\ (securityBudgetMode i = "percent_of_settlement_value"%string ->
      forall a b, beta i = Some a -> settlementUsdDay i = Some b ->
      securityBudgetTargetUsd i = Return (Number (Fin (a * b))))
  /\ (securityBudgetMode i = "absolute_usd"%string ->
      forall a, absoluteUsdDay i = Some a ->
      securityBudgetTargetUsd i = Return (Number (Fin a)))
  /\ (~ recognised (securityBudgetMode i) ->
      securityBudgetTargetUsd i = Throw "Invalid security budget mode").
Proof.
  unfold securityBudgetTargetUsd, recognised.
  repeat split.
  - intros Hm a b Ha Hb. rewrite Hm, Ha, Hb. reflexivity.
  - intros Hm a b Ha Hb. rewrite Hm, Ha, Hb. reflexivity.
  - intros Hm a Ha. rewrite Hm, Ha. reflexivity.
  - intros Hno.
    destruct (String.eqb_spec (securityBudgetMode i) "absolute_usd");
      [tauto|].
    destruct (String.eqb_spec (securityBudgetMode i) "percent_of_2025");
      [tauto|].
    destruct (String.eqb_spec (securityBudgetMode i) "percent_of_settlement_value");
      [tauto|].
    reflexivity.
Qed.

Lemma securityBudgetTargetUsd_by_mode_witness :
  securityBudgetTargetUsd (defaultInputs (-1 # 2))
    = Return (Number (Fin ((65 # 100) * (100000 * (3125 # 1000) * 144))))
  /\ securityBudgetTargetUsd (flatInputs (Some 25000000))
     = Return (Number (Fin 25000000))
  /\ securityBudgetTargetUsd bogusInputs = Throw "Invalid security budget mode".
Proof.
  split; [|split].
  - exact (proj1 (securityBudgetTargetUsd_by_mode (defaultInputs (-1 # 2)))
             eq_refl _ _ eq_refl eq_refl).
  - exact (proj1 (proj2 (proj2
             (securityBudgetTargetUsd_by_mode (flatInputs (Some 25000000)))))
             eq_refl _ eq_refl).
  - apply (proj2 (proj2 (proj2 (securityBudgetTargetUsd_by_mode bogusInputs)))).
    unfold recognised; simpl.
    intros [H | [H | H]]; discriminate H.
Defined.

(** A recognised mode never throws, whatever fields are present. *)
Lemma securityBudgetTargetUsd_returns (i : EconomicInputs) :
  recognised (securityBudgetMode i) ->
  exists v, securityBudgetTargetUsd i = Return v.
Proof.
  unfold securityBudgetTargetUsd.
  intros [H | [H | H]]; rewrite H; simpl; eauto.
Qed.

Lemma securityBudgetTargetUsd_throws (i : EconomicInputs) msg :
  securityBudgetTargetUsd i = Throw msg -> ~ recognised (securityBudgetMode i).
Proof.
  intros Ht Hr. destruct (securityBudgetTargetUsd_returns i Hr) as [v Hv].
  congruence.
Qed.

(** ** Confirmation delay *)

Section ConfirmationDelay.

Variable Math_pow : num -> num -> num.

(** C9: with [supply = blockLimitMB * 1,000,000 * 144],
    [calculateConfirmationTime] returns 10 minutes when the demand at the
    fee rate is at most the supply, and otherwise
    [max(10, ((backlogVb + (demand - supply)) / supply) * 10 * 60)]. *)
Theorem calculateConfirmationTime_cases (f : num) (i : EconomicInputs) :
  let demand := demandVbPerDay Math_pow f i in
  let supply := (Fin (blockLimitMB i) * Fin 1000000 * Fin 144)%num in
  ((demand <=? supply)%num = true ->
   calculateConfirmationTime Math_pow f i = Fin 10)
  /\ ((demand <=? supply)%num = false ->
      calculateConfirmationTime Math_pow f i
      = Math_max (Fin 10)
          (((Fin (backlogVb i) + (demand - supply)) / supply)
           * Fin 10 * Fin 60)%num).
Proof.
  intros demand supply.
  unfold calculateConfirmationTime, blockLimitVb, BLOCKS_PER_DAY.
  fold demand. fold supply.
  split; intros H; rewrite H; reflexivity.
Qed.

End ConfirmationDelay.

(** At the default record with unit elasticity, 12 sat/vB is uncongested
    and 1 sat/vB is congested: the demand is 12 times the baseline, and the
    estimate is [600 * (backlog + excess) / supply] minutes. *)
Lemma calculateConfirmationTime_cases_witness :
  calculateConfirmationTime pow_int (Fin 12) (defaultInputs (-1)) = Fin 10
  /\ same (calculateConfirmationTime pow_int (Fin 1) (defaultInputs (-1)))
          (Fin (1363175 # 552)).
Proof.
  split.
  - exact (proj1 (calculateConfirmationTime_cases pow_int (Fin 12)
                    (defaultInputs (-1))) eq_refl).
  - rewrite (proj2 (calculateConfirmationTime_cases pow_int (Fin 1)
                      (defaultInputs (-1))) eq_refl).
    reflexivity.
Defined.

(** ** The equilibrium solver *)

Section Solver.

Variable Math_pow : num -> num -> num.
Variable i : EconomicInputs.

(** A property kept by the loop body holds when the loop is left. *)
Lemma search_loop_ind (P : SearchState -> Prop) (target : num) :
  (forall s, P s -> P (search_body Math_pow i target s)) ->
  forall n s, P s -> P (search_loop Math_pow n i target s).
Proof.
  intros Hbody n. induction n as [|n IH]; intros s Hs; simpl.
  - exact Hs.
  - destruct (_ <? _)%num.
    + apply Hbody, Hs.
    + apply IH, Hbody, Hs.
Qed.

Lemma search_loop_S (n : nat) (target : num) (s : SearchState) :
  search_loop Math_pow (S n) i target s
  = if ((hi (search_body Math_pow i target s)
         - lo (search_body Math_pow i target s)) <? Fin (1 # 1000))%num
    then search_body Math_pow i target s
    else search_loop Math_pow n i target (search_body Math_pow i target s).
Proof. reflexivity. Qed.

(** The loop body written by cases on its two tests. *)
Lemma search_body_eq (target : num) (s : SearchState) :
  let mid := ((lo s + hi s) / Fin 2)%num in
  let fees := feesUsdPerDay Math_pow mid i in
  let better := (relative_gap fees target <? bestGap s)%num in
  search_body Math_pow i target s
  = mkSearch
      (if (fees >=? target)%num then lo s else mid)
      (if (fees >=? target)%num then mid else hi s)
      (if better then mid else bestFeerate s)
      (if better then relative_gap fees target else bestGap s)
      (if better then fees else bestFeesUsd s)
      (if better
       then (confirmedVbPerDay Math_pow mid i / Fin 1000000)%num
       else bestDemand s).
Proof.
  intros mid fees better.
  unfold search_body. fold mid.
  change ((mid * confirmedVbPerDay Math_pow mid i / Fin SATOSHIS_PER_BTC)
          * Fin (btcPrice i))%num with fees.
  change (Math_abs (fees - target) / target)%num with (relative_gap fees target).
  fold better.
  destruct better, (fees >=? target)%num; reflexivity.
Qed.

Lemma search_body_best_tracked (target : num) (s : SearchState) :
  best_tracked Math_pow i target s ->
  best_tracked Math_pow i target (search_body Math_pow i target s).
Proof.
  intros H. rewrite search_body_eq. unfold best_tracked; simpl.
  destruct (_ <? _)%num.
  - right. split; reflexivity.
  - exact H.
Qed.

Lemma search_best_tracked (target : num) :
  best_tracked Math_pow i target (search Math_pow i target).
Proof.
  unfold search. apply search_loop_ind.
  - apply search_body_best_tracked.
  - left. repeat split.
Qed.

End Solver.

(** A target within reach: at a flat record the revenue is 280,000 USD a
    day per sat/vB, and a budget of 2,800,000 USD a day is met within the
    tolerance at a fee rate within 0.001 of 10 sat/vB. *)
Example solveFeerateForTarget_converges :
  exists r f,
    solveFeerateForTarget pow_int (flatInputs (Some 2800000)) = Return r
    /\ targetMet r = true
    /\ feerate r = Fin f /\ 10 - (1 # 1000) < f /\ f < 10 + (1 # 1000).
Proof.
  destruct (solveFeerateForTarget pow_int (flatInputs (Some 2800000)))
    as [r|] eqn:E; vm_compute in E; [|discriminate].
  injection E as <-. do 2 eexists.
  split; [reflexivity|]. split; [reflexivity|]. split; [reflexivity|].
  split; reflexivity.
Qed.

(** ** Fields the model does not read *)

Section Independence.

Variable Math_pow : num -> num -> num.

(** Solving [i'] is solving [i] when the two agree on what the demand
    curve, the supply and the budget read. *)
Ltac same_reads i' i :=
  assert (Hd : forall f, demandVbPerDay Math_pow f i' = demandVbPerDay Math_pow f i)
    by reflexivity;
  assert (Hc : forall f, confirmedVbPerDay Math_pow f i' = confirmedVbPerDay Math_pow f i)
    by reflexivity;
  assert (Hb : forall t s, search_body Math_pow i' t s = search_body Math_pow i t s)
    by reflexivity;
  assert (Hl : forall n t s, search_loop Math_pow n i' t s = search_loop Math_pow n i t s)
    by (intros n t; induction n as [|n IH]; intros s; simpl;
        [reflexivity | rewrite Hb; destruct (_ <? _)%num; [reflexivity | apply IH]]);
  unfold solveFeerateForTarget, search;
  change (securityBudgetTargetUsd i') with (securityBudgetTargetUsd i);
  destruct (securityBudgetTargetUsd i); [|reflexivity];
  rewrite Hl; reflexivity.

Lemma solve_with_valuePerTxMultiplier v i :
  solveFeerateForTarget Math_pow (with_valuePerTxMultiplier v i)
  = solveFeerateForTarget Math_pow i.
Proof. same_reads (with_valuePerTxMultiplier v i) i. Qed.

Lemma solve_with_poolShare p i :
  solveFeerateForTarget Math_pow (with_poolShare p i)
  = solveFeerateForTarget Math_pow i.
Proof. same_reads (with_poolShare p i) i. Qed.

Lemma computeFullModel_with_valuePerTxMultiplier v i flag :
  computeFullModel Math_pow (with_valuePerTxMultiplier v i) flag
  = computeFullModel Math_pow i flag.
Proof.
  unfold computeFullModel. rewrite solve_with_valuePerTxMultiplier.
  destruct (solveFeerateForTarget Math_pow i); reflexivity.
Qed.

(** C10: two input records that differ only in [valuePerTxMultiplier]
    give the same result of [computeFullModel] under the same flag: the
    same output record and warnings, or the same error.  No computation
    reads the field. *)
Theorem computeFullModel_ignores_valuePerTxMultiplier
    (i1 i2 : EconomicInputs) (includeBlockRewards : bool) :
  differ_only_in_valuePerTxMultiplier i1 i2 ->
  computeFullModel Math_pow i1 includeBlockRewards
  = computeFullModel Math_pow i2 includeBlockRewards.
Proof.
  intros H.
  assert (E : i1 = with_valuePerTxMultiplier (valuePerTxMultiplier i1) i2).
  { destruct i1, i2; unfold differ_only_in_valuePerTxMultiplier in H;
      simpl in H; unfold with_valuePerTxMultiplier; simpl.
    decompose [and] H; subst; reflexivity. }
  rewrite E. apply computeFullModel_with_valuePerTxMultiplier.
Qed.

End Independence.

Lemma computeFullModel_ignores_valuePerTxMultiplier_witness :
  computeFullModel pow_int (defaultInputs (-1)) false
  = computeFullModel pow_int
      (with_valuePerTxMultiplier (Some 7) (defaultInputs (-1))) false.
Proof.
  apply (computeFullModel_ignores_valuePerTxMultiplier pow_int).
  unfold differ_only_in_valuePerTxMultiplier; simpl.
  repeat split; reflexivity.
Defined.

(** ** Pool-share scaling *)

Section PoolShare.

Variable Math_pow : num -> num -> num.

Lemma Qsign_double (p : Q) : Qsign (2 * p) = Qsign p.
Proof. destruct p as [[|n|n] d]; reflexivity. Qed.

Lemma same_refl (a : num) : same a a.
Proof. destruct a; simpl; auto with qarith. Qed.

(** Doubling a factor doubles a product, special values included. *)
Lemma mul_double_r (a : num) (p : Q) :
  same (a * Fin (2 * p))%num (Fin 2 * (a * Fin p))%num.
Proof.
  destruct a as [x| | |]; simpl; try rewrite Qsign_double;
    try (destruct (Qsign p); simpl; exact I).
  ring.
Qed.

Lemma mul_double_r2 (a : num) (p c : Q) :
  same (a * Fin (2 * p) * Fin c)%num (Fin 2 * (a * Fin p * Fin c))%num.
Proof.
  destruct a as [x| | |]; simpl; try rewrite Qsign_double;
    try (destruct (Qsign p); simpl; try exact I;
         destruct (Qsign c); simpl; exact I).
  ring.
Qed.


End PoolShare.

(** ** Degenerate targets: a zero budget, a missing field *)

Section Degenerate.

Variable Math_pow : num -> num -> num.
Variable i : EconomicInputs.

Lemma Qsign_zero (q : Q) : q == 0 -> Qsign q = Zero.
Proof.
  destruct q as [n d]. unfold Qeq, Qsign; simpl. intros H.
  replace n with 0%Z by lia. reflexivity.
Qed.

Lemma Qsign_abs (q : Q) : Qsign (Qabs q) <> Neg.
Proof. destruct q as [[|n|n] d]; discriminate. Qed.

(** Against a degenerate target no candidate has a gap below the initial
    [Infinity]. *)
Lemma relative_gap_degenerate (x t : num) :
  degenerate_target t -> (relative_gap x t <? PInf)%num = false.
Proof.
  unfold relative_gap.
  destruct t as [q| | |]; cbn -[Qabs Qsign Qplus Qopp]; try contradiction.
  - intros Hq. pose proof (Qsign_zero q Hq) as Hs.
    destruct x as [a| | |]; cbn -[Qabs Qsign Qplus Qopp]; rewrite ?Hs;
      try reflexivity.
    pose proof (Qsign_abs (a + - q)) as Ha.
    destruct (Qsign (Qabs (a + - q))); try reflexivity. congruence.
  - intros _. destruct (Math_abs (x - NaN)%num); reflexivity.
Qed.

(** So the tracked candidate stays the initial one. *)
Lemma search_degenerate (t : num) :
  degenerate_target t ->
  let s := search Math_pow i t in
  bestFeerate s = Fin 100000 /\ bestGap s = PInf
  /\ bestFeesUsd s = Fin 0 /\ bestDemand s = Fin 0.
Proof.
  intros Ht. unfold search. apply search_loop_ind.
  - intros s (Hf & Hg & Hu & Hd). rewrite search_body_eq. simpl.
    rewrite Hg, relative_gap_degenerate by exact Ht. auto.
  - repeat split.
Qed.

Lemma final_gap_degenerate (t : num) :
  degenerate_target t -> ((Fin 0 - t) / t)%num = NaN.
Proof.
  destruct t as [q| | |]; simpl; try contradiction; try reflexivity.
  intros Hq. rewrite (Qsign_zero q Hq).
  assert (H0 : 0 + - q == 0) by (rewrite Hq; reflexivity).
  rewrite (Qsign_zero _ H0). reflexivity.
Qed.

(** With a degenerate target the solver returns the search ceiling,
    100000 sat/vB, flagged as not meeting the target, with a gap that is
    not a number. *)
Lemma solve_degenerate (budget : value) :
  securityBudgetTargetUsd i = Return budget ->
  degenerate_target (ToNumber budget / (Fin 1 + Fin (mevUplift i)))%num ->
  exists r,
    solveFeerateForTarget Math_pow i = Return r
    /\ feerate r = Fin 100000 /\ targetMet r = false /\ gap r = NaN
    /\ confirmedDemandMBDay r = Fin 0.
Proof.
  intros Hb Ht. unfold solveFeerateForTarget. rewrite Hb.
  destruct (search_degenerate _ Ht) as (Hf & _ & Hu & Hd).
  eexists. split; [reflexivity|].
  cbn [feerate targetMet gap confirmedDemandMBDay].
  rewrite Hf, Hu, Hd, (final_gap_degenerate _ Ht). auto.
Qed.

End Degenerate.

(** C5 (the code at a failing input): the default record with
    [alpha = 0], a zero security budget.  The target is 0, and the solver
    returns the search ceiling, 100000 sat/vB, not a fee rate near the
    floor. *)
Theorem zero_budget_returns_ceiling (Math_pow : num -> num -> num) :
  let inputs := with_alpha (Some 0) (defaultInputs (-1 # 2)) in
  exists r,
    solveFeerateForTarget Math_pow inputs = Return r
    /\ same (targetFeesUsd r) (Fin 0)
    /\ feerate r = Fin 100000 /\ targetMet r = false /\ gap r = NaN.
Proof.
  intros inputs.
  destruct (solve_degenerate Math_pow inputs _ eq_refl)
    as (r & Hr & Hf & Hm & Hg & _).
  { reflexivity. }
  exists r. repeat split; try assumption.
  unfold solveFeerateForTarget in Hr.
  change (securityBudgetTargetUsd inputs)
    with (Return (A:=value) (Number (Fin 0 * Fin (100000 * (3125 # 1000) * 144))%num))
    in Hr.
  injection Hr as <-. reflexivity.
Qed.

(** ** Arithmetic of finite numbers *)

Lemma Qltb_lt (a b : Q) : Qltb a b = true <-> a < b.
Proof.
  unfold Qltb. rewrite negb_true_iff, <- not_true_iff_false, Qle_bool_iff.
  split; intros H; [apply Qnot_le_lt, H | apply Qlt_not_le, H].
Qed.

Lemma Qltb_ge (a b : Q) : Qltb a b = false <-> b <= a.
Proof.
  unfold Qltb. rewrite negb_false_iff. apply Qle_bool_iff.
Qed.

Lemma Qle_bool_gt (a b : Q) : Qle_bool a b = false <-> b < a.
Proof.
  rewrite <- not_true_iff_false, Qle_bool_iff.
  split; intros H; [apply Qnot_le_lt, H | apply Qlt_not_le, H].
Qed.

Lemma Qsign_pos (q : Q) : 0 < q -> Qsign q = Pos.
Proof.
  destruct q as [[|n|n] d]; unfold Qlt, Qsign; simpl; intros H;
    try reflexivity; lia.
Qed.

Lemma Qsign_neg (q : Q) : q < 0 -> Qsign q = Neg.
Proof.
  destruct q as [[|n|n] d]; unfold Qlt, Qsign; simpl; intros H;
    try reflexivity; lia.
Qed.

(** Division by a finite number other than zero is the rational quotient. *)
Lemma div_Fin (x y : Q) : ~ y == 0 -> (Fin x / Fin y)%num = Fin (x / y).
Proof.
  intros Hy. unfold div.
  destruct (Qsign y) eqn:E; try reflexivity.
  exfalso. apply Hy. destruct y as [[|n|n] d]; try discriminate E. reflexivity.
Qed.

Lemma Qdiv_lt_compat (a b d : Q) : 0 < d -> a < b -> a / d < b / d.
Proof.
  intros Hd Hab. unfold Qdiv.
  apply Qmult_lt_compat_r; [apply Qinv_lt_0_compat, Hd | exact Hab].
Qed.

(** ** Reward inclusion *)

Section RewardInclusion.

Variable Math_pow : num -> num -> num.
Variable i : EconomicInputs.

(** The output under a flag, given what the solver and the resolver
    returned. *)
Lemma computeFullModel_returns (flag : bool) r budget :
  solveFeerateForTarget Math_pow i = Return r ->
  securityBudgetTargetUsd i = Return budget ->
  exists o w,
    computeFullModel Math_pow i flag = Return (o, w)
    /\ optimalFeerate o = feerate r
    /\ dailyFeeRevenueUSD o = feesUsdPerDay Math_pow (feerate r) i
    /\ networkRevenueUSD o
       = (feesUsdPerDay Math_pow (feerate r) i * (Fin 1 + Fin (mevUplift i))
          + usd ((if flag then Fin (3125 # 1000) else Fin 0) * Fin 144)
              (Fin (btcPrice i)))%num
    /\ out_equilibriumHashrateTH o
       = (networkRevenueUSD o
          / (Fin (costPerTHDay i) * (Fin 1 + Fin (margin i))))%num
    /\ solverInfo o
       = mkSolverInfo (targetMet r) (gap r) (actualRevenue r) (targetFeesUsd r).
Proof.
  intros Hr Hb. unfold computeFullModel. rewrite Hr, Hb.
  do 2 eexists. split; [reflexivity|].
  repeat split.
Qed.

End RewardInclusion.

(** ** Finite revenue *)

Section FiniteRevenue.

Variable Math_pow : num -> num -> num.
Variable i : EconomicInputs.

(** The demand and the revenue at a finite fee rate, when the baseline fee
    rate and the batching factor are not zero and the power is finite. *)
Lemma demandVbPerDay_Fin (f y : Q) :
  ~ baselineFeerate i == 0 -> ~ batching i == 0 ->
  Math_pow (Fin (f / baselineFeerate i)) (Fin (elasticity i)) = Fin y ->
  demandVbPerDay Math_pow (Fin f) i
  = Fin (baselineDemandVbDay i / batching i * y).
Proof.
  intros Hf Hb Hy. unfold demandVbPerDay, batching in *.
  rewrite (div_Fin _ _ Hf), Hy.
  destruct (batchingFactor i) as [b|]; cbn [of_field];
    rewrite div_Fin by assumption; reflexivity.
Qed.

Lemma feesUsdPerDay_Fin (f y : Q) :
  ~ baselineFeerate i == 0 -> ~ batching i == 0 ->
  Math_pow (Fin (f / baselineFeerate i)) (Fin (elasticity i)) = Fin y ->
  feesUsdPerDay Math_pow (Fin f) i
  = Fin (f * Qmin_b (baselineDemandVbDay i / batching i * y) (supplyVbPerDay i)
         / 100000000 * btcPrice i).
Proof.
  intros Hf Hb Hy.
  unfold feesUsdPerDay, confirmedVbPerDay, usd.
  rewrite (demandVbPerDay_Fin f y Hf Hb Hy).
  unfold blockLimitVb, BLOCKS_PER_DAY, SATOSHIS_PER_BTC, supplyVbPerDay, Qmin_b.
  cbn [mul Math_min leb].
  destruct (Qle_bool _ _); reflexivity.
Qed.

(** The bracket and the tracked fee rate are finite throughout. *)
Lemma search_finite (target : num) :
  let s := search Math_pow i target in
  is_finite (lo s) /\ is_finite (hi s) /\ is_finite (bestFeerate s).
Proof.
  unfold search. apply search_loop_ind.
  - intros s (Hl & Hh & Hf). rewrite search_body_eq.
    destruct (lo s) as [l| | |]; try contradiction.
    destruct (hi s) as [h| | |]; try contradiction.
    cbn [lo hi bestFeerate]. change (Fin l + Fin h)%num with (Fin (l + h)).
    rewrite div_Fin by discriminate.
    repeat split;
      repeat match goal with
             | |- context [if ?c then _ else _] => destruct c
             end;
      try exact I; exact Hf.
  - repeat split.
Qed.

(** A sufficient condition for a finite revenue at the solved fee rate. *)
Lemma solved_revenue_finite :
  ~ baselineFeerate i == 0 -> ~ batching i == 0 ->
  (forall x, is_finite (Math_pow (Fin x) (Fin (elasticity i)))) ->
  forall r, solveFeerateForTarget Math_pow i = Return r ->
            is_finite (feesUsdPerDay Math_pow (feerate r) i).
Proof.
  intros Hf Hb Hpow r Hr. unfold solveFeerateForTarget in Hr.
  destruct (securityBudgetTargetUsd i) as [budget|]; [|discriminate].
  injection Hr as <-. cbn [feerate].
  destruct (search_finite (ToNumber budget / (Fin 1 + Fin (mevUplift i)))%num)
    as (_ & _ & Hfin).
  destruct (bestFeerate _) as [f| | |]; try contradiction.
  specialize (Hpow (f / baselineFeerate i)).
  destruct (Math_pow _ _) as [y| | |] eqn:Ey; try contradiction.
  rewrite (feesUsdPerDay_Fin f y Hf Hb Ey). exact I.
Qed.

End FiniteRevenue.

Lemma pow_int_zero_exponent (x : Q) : pow_int (Fin x) (Fin 0) = Fin 1.
Proof. unfold pow_int; simpl. destruct (Qsign x); reflexivity. Qed.

(** ** Monotonicity of the fee revenue *)

Section Monotonicity.

Variable Math_pow : num -> num -> num.
Variable i : EconomicInputs.

(** The value of [Math.pow] along the search domain. *)
Variable g : Q -> Q.

Hypothesis price_pos : 0 < btcPrice i.
Hypothesis feerate_pos : 0 < baselineFeerate i.
Hypothesis demand_pos : 0 < baselineDemandVbDay i.
Hypothesis batching_ge_1 : 1 <= batching i.
Hypothesis limit_nonneg : 0 <= blockLimitMB i.
Hypothesis pow_value :
  forall f, 1 <= f <= 100000 ->
  Math_pow (Fin (f / baselineFeerate i)) (Fin (elasticity i)) = Fin (g f).
(** Fee rate times demand does not fall as the fee rate rises: the demand
    is at most unit-elastic.  For the real power function this is
    [elasticity >= -1]. *)
Hypothesis at_most_unit_elastic :
  forall f1 f2, 1 <= f1 -> f1 <= f2 -> f2 <= 100000 ->
  f1 * g f1 <= f2 * g f2.

Lemma Qmin_b_scale_le (f1 f2 d1 d2 s : Q) :
  0 <= f1 -> f1 <= f2 -> 0 <= s -> f1 * d1 <= f2 * d2 ->
  f1 * Qmin_b d1 s <= f2 * Qmin_b d2 s.
Proof.
  intros H1 H12 Hs Hd. unfold Qmin_b.
  destruct (Qle_bool d1 s) eqn:E1; destruct (Qle_bool d2 s) eqn:E2.
  - exact Hd.
  - apply Qle_bool_iff in E1. apply Qle_bool_gt in E2.
    apply Qle_trans with (f1 * s); nra.
  - apply Qle_bool_gt in E1. apply Qle_bool_iff in E2.
    apply Qle_trans with (f1 * d1); [nra | exact Hd].
  - nra.
Qed.

(** Along a value [g] of [Math.pow] that keeps fee rate times demand from
    falling, the revenue does not fall. *)
Lemma feesUsdPerDay_monotone_along (f1 f2 : Q) :
  1 <= f1 -> f1 <= f2 -> f2 <= 100000 ->
  (feesUsdPerDay Math_pow (Fin f1) i <=? feesUsdPerDay Math_pow (Fin f2) i)%num
  = true.
Proof.
  intros H1 H12 H2.
  assert (Hf : ~ baselineFeerate i == 0) by lra.
  assert (Hb : ~ batching i == 0) by lra.
  rewrite (feesUsdPerDay_Fin Math_pow i f1 (g f1) Hf Hb)
    by (apply pow_value; lra).
  rewrite (feesUsdPerDay_Fin Math_pow i f2 (g f2) Hf Hb)
    by (apply pow_value; lra).
  cbn [leb]. apply Qle_bool_iff.
  set (c := baselineDemandVbDay i / batching i).
  assert (Hc : 0 < c).
  { unfold c, Qdiv. apply Qmult_lt_0_compat; [exact demand_pos|].
    apply Qinv_lt_0_compat. lra. }
  assert (Hs : 0 <= supplyVbPerDay i) by (unfold supplyVbPerDay; lra).
  pose proof (at_most_unit_elastic f1 f2 H1 H12 H2) as Hm.
  assert (Hd : f1 * (c * g f1) <= f2 * (c * g f2)) by nra.
  pose proof (Qmin_b_scale_le f1 f2 (c * g f1) (c * g f2) (supplyVbPerDay i)
                ltac:(lra) H12 Hs Hd) as Hmin.
  unfold Qdiv.
  set (m1 := f1 * Qmin_b (c * g f1) (supplyVbPerDay i)) in *.
  set (m2 := f2 * Qmin_b (c * g f2) (supplyVbPerDay i)) in *.
  change (/ 100000000) with (1 # 100000000).
  apply Qmult_le_compat_r; [|lra].
  apply Qmult_le_compat_r; [exact Hmin | discriminate].
Qed.

End Monotonicity.

Lemma pow_int_reciprocal (x : Q) :
  0 < x -> pow_int (Fin x) (Fin (-1)) = Fin (/ x).
Proof.
  intros Hx. unfold pow_int. cbn -[Qsign Qinv].
  rewrite (Qsign_pos x Hx). reflexivity.
Qed.

(** ** Elasticity and the power function *)

Section PowerLaws.

Variable Math_pow : num -> num -> num.
Variable power : Q -> Q -> Q.
Variable e f0 : Q.

Hypothesis laws : power_laws Math_pow power e.
Hypothesis baseline_pos : 0 < f0.
Hypothesis unit_elastic : -1 <= e.

(** With an elasticity of -1 or above, fee rate times demand does not fall
    as the fee rate rises: [(f2 / f1)^e >= (f2 / f1)^-1 = f1 / f2]. *)
Lemma power_unit_elastic (f1 f2 : Q) :
  1 <= f1 -> f1 <= f2 ->
  f1 * power (f1 / f0) e <= f2 * power (f2 / f0) e.
Proof.
  intros H1 H12.
  destruct laws as (_ & Hpos & Hproper & Hmul & Hexp & Hinv).
  set (rho := f2 / f1).
  assert (Hrho : 1 <= rho) by (apply Qle_shift_div_l; lra).
  assert (Hx1 : 0 < f1 / f0) by (apply Qlt_shift_div_l; lra).
  assert (Hx2 : 0 < f2 / f0) by (apply Qlt_shift_div_l; lra).
  assert (E : f2 / f0 == f1 / f0 * rho) by (unfold rho; field; lra).
  rewrite (Hproper _ _ e Hx2 E).
  assert (Hrho0 : 0 < rho) by lra.
  rewrite (Hmul (f1 / f0) rho e Hx1 Hrho0).
  pose proof (Hpos _ e Hx1) as Ha.
  pose proof (Hexp rho (-1) e Hrho unit_elastic) as Hb.
  rewrite (Hinv rho Hrho0) in Hb.
  set (a := power (f1 / f0) e) in *. set (b := power rho e) in *.
  assert (Hf : f1 <= f2 * b).
  { setoid_replace f1 with (f2 * / rho) by (unfold rho; field; lra).
    apply Qmult_le_l; lra. }
  setoid_replace (f2 * (a * b)) with (a * (f2 * b)) by ring.
  setoid_replace (f1 * a) with (a * f1) by ring.
  apply Qmult_le_l; assumption.
Qed.

End PowerLaws.


(** The integer power [x ^ floor e] has the laws asked of the power
    function, and it is [Math.pow] at the exponent -1. *)
Lemma floor_power_laws : power_laws pow_int floor_power (-1).
Proof.
  unfold power_laws, floor_power.
  refine (conj _ (conj _ (conj _ (conj _ (conj _ _))))).
  - intros x Hx. rewrite (pow_int_reciprocal x Hx). reflexivity.
  - intros x e Hx. apply Qpower_0_lt, Hx.
  - intros x x' e _ E. rewrite E. reflexivity.
  - intros x y e _ _. apply Qmult_power.
  - intros x e e' Hx He. apply Qpower_le_compat_l; [|exact Hx].
    apply Qfloor_resp_le, He.
  - intros x _. reflexivity.
Qed.



(** ** A target out of reach *)

Lemma ltb_not_geb (a b : num) : (a <? b)%num = true -> (a >=? b)%num = false.
Proof.
  unfold geb. destruct a, b; simpl; try discriminate; try reflexivity.
  unfold Qltb. intros H. apply negb_true_iff in H. exact H.
Qed.

Section Unreachable.

Variable Math_pow : num -> num -> num.
Variable i : EconomicInputs.
Variable t : Q.

Hypothesis out_of_reach : unreachable Math_pow i t.

(** Every pass moves the lower bound to the midpoint. *)
Lemma search_body_short (s : SearchState) :
  short_bracket Math_pow i s ->
  short_bracket Math_pow i (search_body Math_pow i (Fin t) s)
  /\ forall l, lo s = Fin l ->
     lo (search_body Math_pow i (Fin t) s) = Fin ((l + 100000) / 2).
Proof.
  intros (Hh & (l & Hl & Hl1 & Hl2) & Hbest).
  rewrite search_body_eq. rewrite Hh, Hl.
  change (Fin l + Fin 100000)%num with (Fin (l + 100000)).
  rewrite div_Fin by discriminate.
  set (m := (l + 100000) / 2).
  assert (Hm : 50000 < m /\ m < 100000 /\ l < m).
  { unfold m, Qdiv. change (/ 2) with (1 # 2). repeat split; lra. }
  destruct Hm as (Hm1 & Hm2 & Hm3).
  rewrite (ltb_not_geb _ _ (out_of_reach m ltac:(lra))).
  cbn [lo hi bestFeerate bestFeesUsd].
  split.
  - split; [reflexivity|]. split.
    + exists m. repeat split; lra.
    + destruct (_ <? _)%num.
      * right. exists m. repeat split; try lra.
      * exact Hbest.
  - intros l' E. injection E as <-. reflexivity.
Qed.

(** The loop leaves a bracket narrower than 0.001 that ends at the
    ceiling, provided the iterations left suffice to halve the width below
    the threshold. *)
Lemma search_loop_short (n : nat) :
  forall (s : SearchState) (l w : Q),
  short_bracket Math_pow i s -> lo s = Fin l -> 100000 - l <= w ->
  halvings n w < 1 # 1000 ->
  let s' := search_loop Math_pow n i (Fin t) s in
  short_bracket Math_pow i s'
  /\ exists l', lo s' = Fin l' /\ l <= l' /\ 100000 - l' < 1 # 1000.
Proof.
  induction n as [|n IH]; intros s l w Hs Hl Hw Hn; simpl in *.
  - split; [exact Hs|]. exists l. repeat split; [exact Hl | lra | lra].
  - destruct (search_body_short s Hs) as (Hs' & Hl').
    specialize (Hl' l Hl).
    destruct Hs as (_ & (l0 & Hl0 & Hl1 & Hl2) & _).
    assert (l0 = l) by congruence. subst l0.
    set (m := (l + 100000) / 2) in *.
    assert (Hm : l <= m /\ 100000 - m <= w / 2).
    { unfold m, Qdiv. change (/ 2) with (1 # 2). split; lra. }
    destruct Hm as (Hm1 & Hm2).
    destruct (_ <? _)%num eqn:Hbreak.
    + split; [exact Hs'|]. exists m. repeat split; [exact Hl' | exact Hm1 |].
      destruct Hs' as (Hh' & _). rewrite Hh', Hl' in Hbreak.
      apply Qltb_lt in Hbreak. lra.
    + destruct (IH _ m (w / 2) Hs' Hl' Hm2 Hn) as (Hs'' & l' & E' & Hle & Hw').
      split; [exact Hs''|]. exists l'. repeat split; [exact E' | lra | exact Hw'].
Qed.

End Unreachable.

Section ShortRevenue.

Variable t : Q.
Hypothesis target_pos : 0 < t.

Lemma relative_gap_Fin (y : Q) :
  relative_gap (Fin y) (Fin t) = Fin (Qabs (y + - t) / t).
Proof.
  unfold relative_gap. cbn [sub add neg Math_abs].
  apply div_Fin. lra.
Qed.

(** Below the target the relative gap shrinks as the revenue grows. *)
Lemma relative_gap_closer (y0 y : Q) :
  y0 < y -> y < t ->
  (relative_gap (Fin y) (Fin t) <? relative_gap (Fin y0) (Fin t))%num = true.
Proof.
  intros H0 H1. rewrite !relative_gap_Fin. cbn [ltb]. apply Qltb_lt.
  rewrite (Qabs_neg (y + - t)), (Qabs_neg (y0 + - t)) by lra.
  apply Qdiv_lt_compat; lra.
Qed.

(** A revenue short of the target has a negative signed gap. *)
Lemma final_gap_negative (a : num) :
  (a <? Fin t)%num = true -> ((a - Fin t) / Fin t <? Fin 0)%num = true.
Proof.
  destruct a as [y| | |]; cbn [ltb sub add neg]; try discriminate.
  - intros Hy. apply Qltb_lt in Hy. rewrite div_Fin by lra.
    cbn [ltb]. apply Qltb_lt.
    setoid_replace 0 with (0 / t) by (field; lra).
    apply Qdiv_lt_compat; lra.
  - intros _. cbn [div]. rewrite (Qsign_pos t target_pos). reflexivity.
Qed.

(** A revenue short by more than the tolerance does not meet the target. *)
Lemma short_by_tolerance_not_met (a : num) :
  (a <? Fin (t * (1 - tolerance)))%num = true ->
  (Math_abs ((a - Fin t) / Fin t) <=? Fin tolerance)%num = false.
Proof.
  destruct a as [y| | |]; cbn [ltb sub add neg]; try discriminate.
  - intros Hy. apply Qltb_lt in Hy. rewrite div_Fin by lra.
    cbn [Math_abs leb]. apply Qle_bool_gt.
    unfold tolerance in *.
    assert (Hg : (y + - t) / t < - (25 # 10000)).
    { setoid_replace (- (25 # 10000)) with ((- (25 # 10000) * t) / t)
        by (field; lra).
      apply Qdiv_lt_compat; lra. }
    rewrite Qabs_neg by lra. lra.
  - intros _. cbn [div]. rewrite (Qsign_pos t target_pos). reflexivity.
Qed.

End ShortRevenue.

Section UnreachableSolver.

Variable Math_pow : num -> num -> num.
Variable i : EconomicInputs.
Variable t : Q.

Hypothesis out_of_reach : unreachable Math_pow i t.

(** In exact arithmetic, with a positive target and a strictly increasing
    revenue every midpoint beats the candidate before it, so the candidate
    is the lower bound.  (In doubles the relative gaps of two midpoints can
    round to the same number, and the earlier midpoint is kept.) *)
Lemma search_body_climbs (s : SearchState) :
  0 < t -> strictly_increasing_revenue Math_pow i ->
  short_bracket Math_pow i s ->
  bestGap s = PInf
  \/ (bestFeerate s = lo s
      /\ bestGap s = relative_gap (feesUsdPerDay Math_pow (lo s) i) (Fin t)) ->
  let s' := search_body Math_pow i (Fin t) s in
  bestFeerate s' = lo s'
  /\ bestGap s' = relative_gap (feesUsdPerDay Math_pow (lo s') i) (Fin t).
Proof.
  intros Ht (Hfin & Hinc) (Hh & (l & Hl & Hl1 & Hl2) & _) Hbest.
  rewrite search_body_eq. rewrite Hh, Hl.
  change (Fin l + Fin 100000)%num with (Fin (l + 100000)).
  rewrite div_Fin by discriminate.
  set (m := (l + 100000) / 2).
  assert (Hm : 1 <= m /\ m < 100000 /\ l < m).
  { unfold m, Qdiv. change (/ 2) with (1 # 2). repeat split; lra. }
  destruct Hm as (Hm1 & Hm2 & Hm3).
  pose proof (out_of_reach m ltac:(lra)) as Hshort.
  rewrite (ltb_not_geb _ _ Hshort).
  pose proof (Hfin m ltac:(lra)) as Hfm.
  destruct (feesUsdPerDay Math_pow (Fin m) i) as [y| | |] eqn:Ey;
    try contradiction.
  cbn [ltb] in Hshort. apply Qltb_lt in Hshort.
  assert (Hbetter : (relative_gap (Fin y) (Fin t) <? bestGap s)%num = true).
  { destruct Hbest as [Hinf | (_ & Hgap)].
    - rewrite Hinf, relative_gap_Fin by exact Ht. reflexivity.
    - rewrite Hgap, Hl.
      pose proof (Hfin l ltac:(lra)) as Hfl.
      pose proof (Hinc l m Hl1 Hm3 ltac:(lra)) as Hlm.
      rewrite Ey in Hlm.
      destruct (feesUsdPerDay Math_pow (Fin l) i) as [y0| | |];
        try contradiction.
      cbn [ltb] in Hlm. apply Qltb_lt in Hlm.
      apply relative_gap_closer; assumption. }
  rewrite Hbetter. cbn [lo bestFeerate bestGap]. rewrite Ey.
  split; reflexivity.
Qed.

(** So, in exact arithmetic, the solver returns the last midpoint. *)
Lemma search_climbs :
  0 < t -> strictly_increasing_revenue Math_pow i ->
  bestFeerate (search Math_pow i (Fin t)) = lo (search Math_pow i (Fin t)).
Proof.
  intros Ht Hinc.
  assert (H0 : short_bracket Math_pow i search_init).
  { split; [reflexivity|]. split.
    - exists 1. repeat split; discriminate.
    - left. split; reflexivity. }
  set (P := fun s =>
    short_bracket Math_pow i s
    /\ bestFeerate s = lo s
    /\ bestGap s = relative_gap (feesUsdPerDay Math_pow (lo s) i) (Fin t)).
  assert (H1 : P (search_body Math_pow i (Fin t) search_init)).
  { split.
    - apply (search_body_short Math_pow i t out_of_reach), H0.
    - apply search_body_climbs; auto. }
  assert (HP : P (search Math_pow i (Fin t))).
  { unfold search. rewrite (search_loop_S Math_pow i 99).
    destruct (_ <? _)%num; [exact H1|].
    apply (search_loop_ind Math_pow i P); [|exact H1].
    intros s (Hs & Hc). split.
    - apply (search_body_short Math_pow i t out_of_reach), Hs.
    - apply search_body_climbs; auto. }
  apply HP.
Qed.

Lemma halvings_100 : halvings 100 99999 < 1 # 1000.
Proof. vm_compute. reflexivity. Qed.

(** The search ends with the bracket at the ceiling. *)
Lemma search_short :
  short_bracket Math_pow i (search Math_pow i (Fin t))
  /\ exists l, lo (search Math_pow i (Fin t)) = Fin l
               /\ 100000 - l < 1 # 1000.
Proof.
  assert (H0 : short_bracket Math_pow i search_init).
  { split; [reflexivity|]. split.
    - exists 1. repeat split; discriminate.
    - left. split; reflexivity. }
  assert (Hw : 100000 - 1 <= 99999) by discriminate.
  destruct (search_loop_short Math_pow i t out_of_reach 100 search_init
              1 99999 H0 eq_refl Hw halvings_100)
    as (Hs & l & Hl & _ & Hlw).
  split; [exact Hs|]. exists l. split; [exact Hl | exact Hlw].
Qed.

End UnreachableSolver.

(** *** Closed instances of the unreachable case *)

Lemma Qmin_b_le_l (a b : Q) : Qmin_b a b <= a.
Proof.
  unfold Qmin_b. destruct (Qle_bool a b) eqn:E; [apply Qle_refl|].
  apply Qle_bool_gt in E. apply Qlt_le_weak, E.
Qed.

Lemma Qmin_b_le_r (a b : Q) : Qmin_b a b <= b.
Proof.
  unfold Qmin_b. destruct (Qle_bool a b) eqn:E; [|apply Qle_refl].
  apply Qle_bool_iff, E.
Qed.

(** With zero elasticity and the default demand under the capacity, the
    revenue is 280,000 USD a day per sat/vB. *)
Lemma flat_revenue (u : option Q) (f : Q) :
  exists y, feesUsdPerDay pow_int (Fin f) (flatInputs u) = Fin y
            /\ y == 280000 * f.
Proof.
  eexists. split.
  - apply feesUsdPerDay_Fin with (y := 1); try discriminate.
    apply pow_int_zero_exponent.
  - assert (E : Qmin_b (baselineDemandVbDay (flatInputs u)
                        / batching (flatInputs u) * 1)
                  (supplyVbPerDay (flatInputs u)) == 280000000)
      by (vm_compute; reflexivity).
    rewrite E. change (btcPrice (flatInputs u)) with 100000. field.
Qed.

Lemma flat_unreachable (u : option Q) (t : Q) :
  28000000000 < t -> unreachable pow_int (flatInputs u) t.
Proof.
  intros Ht f [Hf1 Hf2]. destruct (flat_revenue u f) as (y & -> & Ey).
  cbn [ltb]. apply Qltb_lt. rewrite Ey. lra.
Qed.

Lemma flat_strictly_increasing (u : option Q) :
  strictly_increasing_revenue pow_int (flatInputs u).
Proof.
  split.
  - intros f _. destruct (flat_revenue u f) as (y & -> & _). exact I.
  - intros f1 f2 H1 H12 H2.
    destruct (flat_revenue u f1) as (y1 & -> & E1).
    destruct (flat_revenue u f2) as (y2 & -> & E2).
    cbn [ltb]. apply Qltb_lt. rewrite E1, E2. lra.
Qed.

Lemma pow_int_inverse_square (x : Q) :
  0 < x -> pow_int (Fin x) (Fin (-2)) = Fin (/ (x * x)).
Proof.
  intros Hx. unfold pow_int. cbn -[Qsign Qinv Qmult].
  rewrite (Qsign_pos x Hx). reflexivity.
Qed.

(** At the default record with elasticity -2 the revenue stays under
    24,000,000 USD a day: capacity bounds it up to 40 sat/vB, the falling
    demand beyond. *)
Lemma elastic_revenue_bound (f : Q) :
  1 <= f ->
  exists y, feesUsdPerDay pow_int (Fin f) (defaultInputs (-2)) = Fin y
            /\ y < 24000000.
Proof.
  intros Hf.
  assert (Hx : 0 < f / baselineFeerate (defaultInputs (-2))).
  { change (baselineFeerate (defaultInputs (-2))) with 12.
    unfold Qdiv. change (/ 12) with (1 # 12). lra. }
  eexists. split.
  - apply feesUsdPerDay_Fin; try discriminate.
    apply pow_int_inverse_square, Hx.
  - change (baselineFeerate (defaultInputs (-2))) with 12.
    change (btcPrice (defaultInputs (-2))) with 100000.
    assert (Ec : baselineDemandVbDay (defaultInputs (-2))
                 / batching (defaultInputs (-2)) == 5600000000 # 23)
      by (vm_compute; reflexivity).
    assert (Es : supplyVbPerDay (defaultInputs (-2)) == 576000000)
      by (vm_compute; reflexivity).
    set (d := baselineDemandVbDay (defaultInputs (-2))
              / batching (defaultInputs (-2)) * / (f / 12 * (f / 12))).
    set (s := supplyVbPerDay (defaultInputs (-2))) in *.
    assert (Hmin : f * Qmin_b d s < 24000000000).
    { destruct (Qlt_le_dec 40 f) as [Hbig | Hsmall].
      - apply Qle_lt_trans with (f * d).
        + apply Qmult_le_l; [lra | apply Qmin_b_le_l].
        + unfold d. rewrite Ec.
          setoid_replace (f * ((5600000000 # 23) * / (f / 12 * (f / 12))))
            with ((806400000000 # 23) / f) by (field; lra).
          apply Qlt_shift_div_r; lra.
      - apply Qle_lt_trans with (f * s).
        + apply Qmult_le_l; [lra | apply Qmin_b_le_r].
        + rewrite Es. lra. }
    unfold Qdiv. change (/ 100000000) with (1 # 100000000). lra.
Qed.

(** C3 as stated fails.  With a target 0.1% above the revenue at the
    ceiling, the target is out of reach, yet [targetMet] is true and the
    gap is negative.  With the default record and elasticity -2 the revenue
    falls along the midpoints, and the solver returns the first one,
    50000.5 sat/vB, again with a negative gap. *)
Lemma solveFeerateForTarget_unreachable_counterexample :
  (unreachable pow_int (flatInputs (Some 28028000000)) 28028000000
   /\ exists r,
        solveFeerateForTarget pow_int (flatInputs (Some 28028000000)) = Return r
        /\ same (targetFeesUsd r) (Fin 28028000000)
        /\ targetMet r = true
        /\ (gap r <? Fin 0)%num = true)
  /\ (unreachable pow_int (defaultInputs (-2)) (2925000000 # 103)
      /\ exists r,
           solveFeerateForTarget pow_int (defaultInputs (-2)) = Return r
           /\ same (targetFeesUsd r) (Fin (2925000000 # 103))
           /\ same (feerate r) (Fin (100001 # 2))
           /\ targetMet r = false
           /\ (gap r <? Fin 0)%num = true).
Proof.
  split; split.
  - apply flat_unreachable. reflexivity.
  - destruct (solveFeerateForTarget pow_int (flatInputs (Some 28028000000)))
      as [r|] eqn:E; vm_compute in E; [|discriminate].
    exists r. split; [reflexivity|]. injection E as <-.
    repeat split; vm_compute; reflexivity.
  - intros f [Hf1 Hf2]. destruct (elastic_revenue_bound f Hf1) as (y & -> & Hy).
    cbn [ltb]. apply Qltb_lt.
    apply Qlt_trans with 24000000; [exact Hy | reflexivity].
  - destruct (solveFeerateForTarget pow_int (defaultInputs (-2)))
      as [r|] eqn:E; vm_compute in E; [|discriminate].
    exists r. split; [reflexivity|]. injection E as <-.
    repeat split; vm_compute; reflexivity.
Qed.

(** A negative budget fares no better than a zero one: with a flat record
    and a budget of -1 USD a day every candidate has a negative relative
    gap, the first midpoint has the lowest, and the solver returns
    50000.5 sat/vB while the bracket closes on the floor. *)
Lemma negative_budget_returns_first_midpoint :
  exists r,
    solveFeerateForTarget pow_int (flatInputs (Some (-1))) = Return r
    /\ same (targetFeesUsd r) (Fin (-1))
    /\ same (feerate r) (Fin (100001 # 2))
    /\ targetMet r = false
    /\ (hi (search pow_int (flatInputs (Some (-1))) (targetFeesUsd r))
        <? Fin (1001 # 1000))%num = true.
Proof.
  destruct (solveFeerateForTarget pow_int (flatInputs (Some (-1))))
    as [r|] eqn:E; vm_compute in E; [|discriminate].
  exists r. split; [reflexivity|]. injection E as <-.
  repeat split; vm_compute; reflexivity.
Qed.

(** * Further properties of the solver *)

Section SearchDomain.

Variable Math_pow : num -> num -> num.
Variable i : EconomicInputs.
Variable target : num.

Lemma search_body_in_domain (s : SearchState) :
  in_domain s -> in_domain (search_body Math_pow i target s).
Proof.
  intros (l & h & b & Hl & Hh & Hb & H1 & H2 & H3 & H4 & H5).
  rewrite search_body_eq. rewrite Hl, Hh, Hb.
  change (Fin l + Fin h)%num with (Fin (l + h)).
  rewrite div_Fin by discriminate.
  set (m := (l + h) / 2).
  assert (Hm : l <= m /\ m <= h).
  { unfold m, Qdiv. change (/ 2) with (1 # 2). split; lra. }
  destruct Hm as (Hm1 & Hm2).
  cbn [lo hi bestFeerate].
  destruct (_ >=? _)%num; destruct (_ <? _)%num;
    do 3 eexists; (split; [reflexivity|]); (split; [reflexivity|]);
    (split; [reflexivity|]); repeat split; lra.
Qed.

Lemma search_in_domain : in_domain (search Math_pow i target).
Proof.
  unfold search. apply search_loop_ind.
  - apply search_body_in_domain.
  - exists 1, 100000, 100000. repeat split; discriminate.
Qed.

End SearchDomain.

(** X1: whatever the inputs, the target and [Math.pow] are, a fee rate
    returned by [solveFeerateForTarget] is a finite number of the search
    domain, between 1 and 100000 sat/vB. *)
Theorem solveFeerateForTarget_feerate_in_domain
    (Math_pow : num -> num -> num) (i : EconomicInputs) :
  match solveFeerateForTarget Math_pow i with
  | Return r => exists f, feerate r = Fin f /\ 1 <= f /\ f <= 100000
  | Throw _ => True
  end.
Proof.
  unfold solveFeerateForTarget.
  destruct (securityBudgetTargetUsd i) as [budget|]; [|exact I].
  cbn [feerate].
  destruct (search_in_domain Math_pow i
              (ToNumber budget / (Fin 1 + Fin (mevUplift i)))%num)
    as (l & h & b & _ & _ & Hb & _ & _ & _ & H4 & H5).
  exists b. repeat split; assumption.
Qed.

Section PassCount.

Variable Math_pow : num -> num -> num.
Variable i : EconomicInputs.
Variable target : num.

(** Whichever bound moves, a pass halves the bracket. *)
Lemma search_body_halves (s : SearchState) (w : Q) :
  bracket_width s w -> bracket_width (search_body Math_pow i target s) (w / 2).
Proof.
  intros (l & h & Hl & Hh & Hw).
  rewrite search_body_eq. rewrite Hl, Hh.
  change (Fin l + Fin h)%num with (Fin (l + h)).
  rewrite div_Fin by discriminate.
  cbn [lo hi].
  destruct (_ >=? _)%num; do 2 eexists;
    (split; [reflexivity|]); (split; [reflexivity|]);
    unfold Qdiv; change (/ 2) with (1 # 2); lra.
Qed.

Lemma bracket_width_break (s : SearchState) (w : Q) :
  bracket_width s w ->
  ((hi s - lo s) <? Fin (1 # 1000))%num = Qltb w (1 # 1000).
Proof.
  intros (l & h & -> & -> & Hw). cbn [sub add neg ltb].
  destruct (Qltb w (1 # 1000)) eqn:E.
  - apply Qltb_lt in E. apply Qltb_lt. lra.
  - apply Qltb_ge in E. apply Qltb_ge. lra.
Qed.

Lemma halvings_le (k : nat) : forall w, 0 <= w -> halvings k w <= w.
Proof.
  induction k as [|k IH]; intros w Hw; simpl.
  - apply Qle_refl.
  - apply Qle_trans with (w / 2).
    + apply IH. unfold Qdiv. change (/ 2) with (1 # 2). lra.
    + unfold Qdiv. change (/ 2) with (1 # 2). lra.
Qed.

(** If [k] halvings leave the width at 0.001 or more and one more brings
    it below, the loop makes exactly [k + 1] passes, provided it has that
    many iterations. *)
Lemma search_loop_passes (k : nat) :
  forall (n : nat) (s : SearchState) (w : Q),
  bracket_width s w -> 0 <= w ->
  1 # 1000 <= halvings k w -> halvings (S k) w < 1 # 1000 ->
  search_loop Math_pow (S k + n) i target s
  = Nat.iter (S k) (search_body Math_pow i target) s.
Proof.
  induction k as [|k IH]; intros n s w Hs Hw Hge Hlt.
  - change (S 0 + n)%nat with (S n). rewrite search_loop_S.
    rewrite (bracket_width_break _ _ (search_body_halves s w Hs)).
    simpl in Hlt. apply Qltb_lt in Hlt. rewrite Hlt. reflexivity.
  - change (S (S k) + n)%nat with (S (S k + n)). rewrite search_loop_S.
    rewrite (bracket_width_break _ _ (search_body_halves s w Hs)).
    assert (Hw2 : 0 <= w / 2)
      by (unfold Qdiv; change (/ 2) with (1 # 2); lra).
    assert (Hcont : Qltb (w / 2) (1 # 1000) = false).
    { apply Qltb_ge. apply Qle_trans with (halvings k (w / 2)).
      - exact Hge.
      - apply halvings_le, Hw2. }
    rewrite Hcont.
    rewrite (IH n _ (w / 2) (search_body_halves s w Hs) Hw2 Hge Hlt).
    rewrite <- Nat.iter_succ_r. reflexivity.
Qed.

Lemma passes_width (n : nat) :
  bracket_width (passes Math_pow i target n) (halvings n 99999).
Proof.
  unfold passes.
  assert (G : forall k s w, bracket_width s w ->
              bracket_width (Nat.iter k (search_body Math_pow i target) s)
                (halvings k w)).
  { induction k as [|k IH]; intros s w Hs; [exact Hs|].
    rewrite Nat.iter_succ_r. simpl. apply IH, search_body_halves, Hs. }
  apply G. exists 1, 100000. repeat split; reflexivity.
Qed.

(** The loop makes exactly 27 passes. *)
Lemma search_27_passes :
  search Math_pow i target = passes Math_pow i target 27
  /\ bracket_width (search Math_pow i target) (99999 # 134217728)
  /\ forall k, (k < 27)%nat ->
       ((hi (passes Math_pow i target k) - lo (passes Math_pow i target k))
        <? Fin (1 # 1000))%num = false.
Proof.
  assert (E : search Math_pow i target = passes Math_pow i target 27).
  { unfold search, passes. change 100%nat with (S 26 + 73)%nat.
    apply search_loop_passes with (w := 99999).
    - exists 1, 100000. repeat split; reflexivity.
    - discriminate.
    - vm_compute. discriminate.
    - vm_compute. reflexivity. }
  split; [exact E|]. split.
  - rewrite E. destruct (passes_width 27) as (l & h & Hl & Hh & Hw).
    exists l, h. repeat split; assumption.
  - intros k Hk. rewrite (bracket_width_break _ _ (passes_width k)).
    apply Qltb_ge.
    assert (Hmono : forall a b w, 0 <= w ->
              halvings (a + b) w <= halvings b w).
    { intros a b. revert a. induction b as [|b IHb]; intros a w Hw.
      - rewrite Nat.add_0_r. apply halvings_le, Hw.
      - rewrite Nat.add_succ_r. simpl. apply IHb.
        unfold Qdiv. change (/ 2) with (1 # 2). lra. }
    assert (H26 : 1 # 1000 <= halvings 26 99999)
      by (vm_compute; discriminate).
    assert (Ek : (26 = (26 - k) + k)%nat) by lia.
    rewrite Ek in H26.
    eapply Qle_trans; [exact H26 | apply Hmono; discriminate].
Qed.

End PassCount.

(** X2: for every input the loop of [solveFeerateForTarget] makes exactly
    27 passes: each pass halves the bracket, whichever bound moves, the
    width 99999 / 2^26 is still above 0.001 and 99999 / 2^27 is below.  The
    ceiling of 100 iterations is never reached, and the bracket left is
    99999 / 2^27 wide. *)
Theorem search_makes_27_passes
    (Math_pow : num -> num -> num) (i : EconomicInputs) (target : num) :
  search Math_pow i target = passes Math_pow i target 27
  /\ bracket_width (search Math_pow i target) (99999 # 134217728)
  /\ forall k, (k < 27)%nat ->
       ((hi (passes Math_pow i target k) - lo (passes Math_pow i target k))
        <? Fin (1 # 1000))%num = false.
Proof. exact (search_27_passes Math_pow i target). Qed.

Lemma search_makes_27_passes_witness :
  search pow_int (flatInputs (Some 2800000)) (Fin 2800000)
  = passes pow_int (flatInputs (Some 2800000)) (Fin 2800000) 27
  /\ ((hi (passes pow_int (flatInputs (Some 2800000)) (Fin 2800000) 0)
       - lo (passes pow_int (flatInputs (Some 2800000)) (Fin 2800000) 0))
      <? Fin (1 # 1000))%num = false.
Proof.
  destruct (search_makes_27_passes pow_int (flatInputs (Some 2800000))
              (Fin 2800000)) as (E & _ & H).
  split; [exact E | apply H; lia].
Defined.

Section Bisection.

Variable Math_pow : num -> num -> num.
Variable i : EconomicInputs.
Variable target : num.

Lemma passes_S (n : nat) :
  passes Math_pow i target (S n)
  = search_body Math_pow i target (passes Math_pow i target n).
Proof. reflexivity. Qed.

Lemma passes_in_domain (n : nat) : in_domain (passes Math_pow i target n).
Proof.
  induction n as [|n IH].
  - exists 1, 100000, 100000. repeat split; discriminate.
  - rewrite passes_S. apply search_body_in_domain, IH.
Qed.

(** A bound that has moved sits on an evaluated midpoint: the lower one
    where the revenue is not at the target, the upper one where it is. *)
Lemma search_body_keeps_sides (s : SearchState) :
  (lo s = Fin 1
   \/ (feesUsdPerDay Math_pow (lo s) i >=? target)%num = false) ->
  (hi s = Fin 100000
   \/ (feesUsdPerDay Math_pow (hi s) i >=? target)%num = true) ->
  let s' := search_body Math_pow i target s in
  (lo s' = Fin 1
   \/ (feesUsdPerDay Math_pow (lo s') i >=? target)%num = false)
  /\ (hi s' = Fin 100000
      \/ (feesUsdPerDay Math_pow (hi s') i >=? target)%num = true).
Proof.
  intros Hl Hh. rewrite search_body_eq. cbn [lo hi].
  set (m := ((lo s + hi s) / Fin 2)%num).
  destruct (feesUsdPerDay Math_pow m i >=? target)%num eqn:E.
  - split; [exact Hl | right; exact E].
  - split; [right; exact E | exact Hh].
Qed.

(** The bracket left by the loop keeps the crossing. *)
Lemma search_crossing :
  (feesUsdPerDay Math_pow (Fin 1) i >=? target)%num = false ->
  (feesUsdPerDay Math_pow (Fin 100000) i >=? target)%num = true ->
  exists l h,
    lo (search Math_pow i target) = Fin l
    /\ hi (search Math_pow i target) = Fin h
    /\ 1 <= l /\ l < h /\ h <= 100000 /\ h - l < 1 # 1000
    /\ (feesUsdPerDay Math_pow (Fin l) i >=? target)%num = false
    /\ (feesUsdPerDay Math_pow (Fin h) i >=? target)%num = true.
Proof.
  intros H1 H2.
  assert (Hsides :
    (lo (search Math_pow i target) = Fin 1
     \/ (feesUsdPerDay Math_pow (lo (search Math_pow i target)) i
         >=? target)%num = false)
    /\ (hi (search Math_pow i target) = Fin 100000
        \/ (feesUsdPerDay Math_pow (hi (search Math_pow i target)) i
            >=? target)%num = true)).
  { unfold search.
    apply (search_loop_ind Math_pow i
             (fun s =>
                (lo s = Fin 1
                 \/ (feesUsdPerDay Math_pow (lo s) i >=? target)%num = false)
                /\ (hi s = Fin 100000
                    \/ (feesUsdPerDay Math_pow (hi s) i >=? target)%num
                       = true))).
    - intros s (Hl & Hh). apply search_body_keeps_sides; assumption.
    - split; left; reflexivity. }
  destruct (search_in_domain Math_pow i target)
    as (l & h & b & Hl & Hh & _ & Hl1 & Hlh & Hh1 & _).
  destruct (search_27_passes Math_pow i target)
    as (_ & (l' & h' & Hl' & Hh' & Hw) & _).
  assert (l' = l) by congruence. assert (h' = h) by congruence. subst l' h'.
  assert (Hpos : 0 < 99999 # 134217728) by reflexivity.
  assert (Hsmall : 99999 # 134217728 < 1 # 1000) by reflexivity.
  exists l, h. rewrite Hl, Hh in Hsides. destruct Hsides as (Sl & Sh).
  repeat split; try assumption; try lra.
  - destruct Sl as [E | E]; [|exact E]. injection E as ->. exact H1.
  - destruct Sh as [E | E]; [|exact E]. injection E as ->. exact H2.
Qed.

(** The final state is the 27th pass, and an end of its bracket is the
    midpoint that pass evaluated. *)
Lemma search_last_pass :
  search Math_pow i target
  = search_body Math_pow i target (passes Math_pow i target 26).
Proof.
  destruct (search_27_passes Math_pow i target) as (E & _).
  rewrite E. apply passes_S.
Qed.

Lemma search_last_midpoint :
  let m := midpoint (passes Math_pow i target 26) in
  ((feesUsdPerDay Math_pow m i >=? target)%num = true
   /\ hi (search Math_pow i target) = m)
  \/ ((feesUsdPerDay Math_pow m i >=? target)%num = false
      /\ lo (search Math_pow i target) = m).
Proof.
  intros m. subst m. unfold midpoint.
  rewrite search_last_pass, search_body_eq. cbn [lo hi].
  set (m := ((lo (passes Math_pow i target 26)
              + hi (passes Math_pow i target 26)) / Fin 2)%num).
  destruct (feesUsdPerDay Math_pow m i >=? target)%num;
    [left | right]; split; reflexivity.
Qed.

End Bisection.

(** X3: the bisection keeps a crossing.  If the revenue at the floor is not
    at the target and the revenue at the ceiling is, the bracket the loop
    leaves is inside the domain, narrower than 0.001, with the revenue not
    at the target at its lower end and at the target at its upper end.  No
    monotonicity is needed. *)
Theorem search_brackets_crossing
    (Math_pow : num -> num -> num) (i : EconomicInputs) (target : num) :
  (feesUsdPerDay Math_pow (Fin 1) i >=? target)%num = false ->
  (feesUsdPerDay Math_pow (Fin 100000) i >=? target)%num = true ->
  exists l h,
    lo (search Math_pow i target) = Fin l
    /\ hi (search Math_pow i target) = Fin h
    /\ 1 <= l /\ l < h /\ h <= 100000 /\ h - l < 1 # 1000
    /\ (feesUsdPerDay Math_pow (Fin l) i >=? target)%num = false
    /\ (feesUsdPerDay Math_pow (Fin h) i >=? target)%num = true.
Proof. exact (search_crossing Math_pow i target). Qed.

Lemma search_brackets_crossing_witness :
  exists l h,
    lo (search pow_int (flatInputs (Some 2800000)) (Fin 2800000)) = Fin l
    /\ hi (search pow_int (flatInputs (Some 2800000)) (Fin 2800000)) = Fin h
    /\ l < h /\ h - l < 1 # 1000
    /\ (feesUsdPerDay pow_int (Fin l) (flatInputs (Some 2800000))
        >=? Fin 2800000)%num = false
    /\ (feesUsdPerDay pow_int (Fin h) (flatInputs (Some 2800000))
        >=? Fin 2800000)%num = true.
Proof.
  destruct (search_brackets_crossing pow_int (flatInputs (Some 2800000))
              (Fin 2800000))
    as (l & h & Hl & Hh & _ & Hlh & _ & Hw & Sl & Sh).
  - vm_compute. reflexivity.
  - vm_compute. reflexivity.
  - exists l, h. repeat split; assumption.
Defined.

(** ** The tracked candidate *)

Lemma leb_total (a b : num) :
  a <> NaN -> b <> NaN -> (a <? b)%num = false -> (b <=? a)%num = true.
Proof.
  destruct a, b; cbn [ltb leb]; intros Ha Hb H;
    try congruence; try reflexivity.
  apply Qltb_ge in H. apply Qle_bool_iff, H.
Qed.

Lemma leb_ltb_trans (a b c : num) :
  (b <=? a)%num = true -> (c <? b)%num = true -> (c <=? a)%num = true.
Proof.
  destruct a, b, c; cbn [ltb leb]; intros H1 H2;
    try discriminate; try reflexivity.
  apply Qle_bool_iff in H1. apply Qltb_lt in H2. apply Qle_bool_iff. lra.
Qed.

Lemma leb_refl_num (a : num) : a <> NaN -> (a <=? a)%num = true.
Proof.
  destruct a; cbn [leb]; intros H; try congruence; try reflexivity.
  apply Qle_bool_iff, Qle_refl.
Qed.

Lemma ltb_not_NaN (a b : num) : (a <? b)%num = true -> a <> NaN.
Proof. destruct a; intros H; try discriminate; cbn in H; discriminate. Qed.

Section BestCandidate.

Variable Math_pow : num -> num -> num.
Variable i : EconomicInputs.
Variable target : num.

Lemma bestGap_pass (n : nat) :
  bestGap (passes Math_pow i target (S n))
  = if (pass_gap Math_pow i target n <? bestGap (passes Math_pow i target n))%num
    then pass_gap Math_pow i target n
    else bestGap (passes Math_pow i target n).
Proof. rewrite passes_S, search_body_eq. reflexivity. Qed.

Lemma passes_best_minimal (n : nat) :
  bestGap (passes Math_pow i target n) <> NaN
  /\ forall k, (k < n)%nat -> pass_gap Math_pow i target k <> NaN ->
       (bestGap (passes Math_pow i target n) <=? pass_gap Math_pow i target k)%num = true.
Proof.
  induction n as [|n (Hn & IH)].
  - split; [discriminate | intros k Hk; lia].
  - rewrite bestGap_pass.
    destruct (pass_gap Math_pow i target n <? bestGap (passes Math_pow i target n))%num eqn:E.
    + split; [exact (ltb_not_NaN _ _ E)|].
      intros k Hk Hg. destruct (Nat.eq_dec k n) as [-> | Hne].
      * apply leb_refl_num, Hg.
      * apply leb_ltb_trans with (b := bestGap (passes Math_pow i target n));
          [apply IH; [lia | exact Hg] | exact E].
    + split; [exact Hn|].
      intros k Hk Hg. destruct (Nat.eq_dec k n) as [-> | Hne].
      * apply leb_total; assumption.
      * apply IH; [lia | exact Hg].
Qed.

(** The candidate left by the loop has the smallest relative gap among
    the 27 midpoints evaluated. *)
Lemma search_best_minimal (k : nat) :
  (k < 27)%nat ->
  pass_gap Math_pow i target k = NaN
  \/ (bestGap (search Math_pow i target) <=? pass_gap Math_pow i target k)%num = true.
Proof.
  intros Hk. destruct (search_27_passes Math_pow i target) as (-> & _).
  destruct (passes_best_minimal 27) as (_ & H).
  destruct (pass_gap Math_pow i target k) eqn:E; try (right; rewrite <- E; apply H;
    [exact Hk | rewrite E; discriminate]).
  left; reflexivity.
Qed.

End BestCandidate.

(** X4: the candidate [solveFeerateForTarget] tracks is a best one: its
    relative gap is at most the relative gap [|fees - target| / target] of
    each of the 27 midpoints the loop evaluates, leaving aside midpoints
    whose gap is not a number.  The tracked gap itself is never [NaN]. *)
Theorem best_candidate_is_minimal
    (Math_pow : num -> num -> num) (i : EconomicInputs) (target : num)
    (k : nat) :
  (k < 27)%nat ->
  let g := pass_gap Math_pow i target k in
  bestGap (search Math_pow i target) <> NaN
  /\ (g = NaN \/ (bestGap (search Math_pow i target) <=? g)%num = true).
Proof.
  intros Hk g. split.
  - destruct (search_27_passes Math_pow i target) as (-> & _).
    apply (passes_best_minimal Math_pow i target 27).
  - apply search_best_minimal, Hk.
Qed.

Lemma best_candidate_is_minimal_witness :
  let I := flatInputs (Some 2800000) in
  let g := pass_gap pow_int I (Fin 2800000) 3 in
  bestGap (search pow_int I (Fin 2800000)) <> NaN
  /\ (g = NaN \/ (bestGap (search pow_int I (Fin 2800000)) <=? g)%num = true).
Proof.
  apply (best_candidate_is_minimal pow_int (flatInputs (Some 2800000))
           (Fin 2800000) 3).
  lia.
Defined.

(** ** What the solver returns *)

Lemma ltb_leb_trans (a b c : num) :
  (a <? b)%num = true -> (b <=? c)%num = true -> (a <? c)%num = true.
Proof.
  destruct a, b, c; cbn [ltb leb]; intros H1 H2;
    try discriminate; try reflexivity.
  apply Qltb_lt in H1. apply Qle_bool_iff in H2. apply Qltb_lt. lra.
Qed.

Section Candidate.

Variable Math_pow : num -> num -> num.
Variable i : EconomicInputs.
Variable target : num.

(** Where the tracked candidate comes from.  After [n] passes it is still
    the initial one, no pass having had a gap below [Infinity], or it is
    the midpoint of a pass [k], stored with the revenue and the gap of that
    pass, and pass [k] had a gap strictly below that of every pass before
    it. *)
Lemma passes_best_origin (n : nat) :
  let s := passes Math_pow i target n in
  (bestFeerate s = Fin 100000 /\ bestGap s = PInf /\ bestFeesUsd s = Fin 0
   /\ forall j, (j < n)%nat ->
        (pass_gap Math_pow i target j <? PInf)%num = false)
  \/ (exists k, (k < n)%nat
      /\ bestFeerate s = midpoint (passes Math_pow i target k)
      /\ bestGap s = pass_gap Math_pow i target k
      /\ bestFeesUsd s
         = feesUsdPerDay Math_pow (midpoint (passes Math_pow i target k)) i
      /\ forall j, (j < k)%nat ->
           pass_gap Math_pow i target j = NaN
           \/ (pass_gap Math_pow i target k
               <? pass_gap Math_pow i target j)%num = true).
Proof.
  induction n as [|n IH]; cbn zeta.
  - left. repeat split. intros j Hj. lia.
  - cbn zeta in IH. rewrite passes_S, search_body_eq.
    cbn [bestFeerate bestGap bestFeesUsd].
    change ((lo (passes Math_pow i target n) + hi (passes Math_pow i target n))
            / Fin 2)%num with (midpoint (passes Math_pow i target n)).
    change (relative_gap
              (feesUsdPerDay Math_pow (midpoint (passes Math_pow i target n)) i)
              target) with (pass_gap Math_pow i target n).
    destruct (pass_gap Math_pow i target n
              <? bestGap (passes Math_pow i target n))%num eqn:E.
    + right. exists n. split; [lia|]. repeat split.
      intros j Hj.
      destruct (passes_best_minimal Math_pow i target n) as (_ & Hmin).
      destruct (pass_gap Math_pow i target j) eqn:Ej;
        try (right; apply ltb_leb_trans
                      with (b := bestGap (passes Math_pow i target n));
             [exact E | rewrite <- Ej; apply Hmin;
                        [exact Hj | rewrite Ej; discriminate]]).
      left; reflexivity.
    + destruct IH as [(Hf & Hg & Hu & Hno) | (k & Hk & Hf & Hg & Hu & Hfirst)].
      * left. repeat split; try assumption.
        intros j Hj. destruct (Nat.eq_dec j n) as [-> | Hne].
        -- rewrite Hg in E. exact E.
        -- apply Hno. lia.
      * right. exists k. split; [lia|]. repeat split; assumption.
Qed.

(** The initial candidate is never flagged as meeting the target. *)
Lemma initial_candidate_not_met :
  (Math_abs ((Fin 0 - target) / target) <=? Fin (25 # 10000))%num = false.
Proof.
  destruct target as [q| | |]; try reflexivity.
  cbn [sub add neg div].
  destruct (Qsign q) eqn:Es.
  - assert (Hq : q < 0).
    { destruct q as [[|n|n] d]; try discriminate Es. reflexivity. }
    cbn [Math_abs leb]. apply Qle_bool_gt.
    setoid_replace ((0 + - q) / q) with (- (1)) by (field; lra).
    reflexivity.
  - assert (Hq : q == 0).
    { destruct q as [[|n|n] d]; try discriminate Es. reflexivity. }
    assert (E0 : 0 + - q == 0) by (rewrite Hq; reflexivity).
    rewrite (Qsign_zero _ E0). reflexivity.
  - assert (Hq : 0 < q).
    { destruct q as [[|n|n] d]; try discriminate Es. reflexivity. }
    cbn [Math_abs leb]. apply Qle_bool_gt.
    setoid_replace ((0 + - q) / q) with (- (1)) by (field; lra).
    reflexivity.
Qed.

End Candidate.

(** C1: [solveFeerateForTarget] throws exactly when the budget resolver
    does.  Otherwise it returns a result whose [targetFeesUsd] is
    [securityBudgetTargetUsd(inputs) / (1 + mevUplift)] and whose
    [targetMet] is true if and only if the absolute value of the returned
    [gap] is at most 0.0025.  The fee rate returned is the best candidate
    found: either it is the midpoint of one of the 27 passes of the loop,
    the returned [gap] is [(fees - target) / target] at the revenue of that
    fee rate, [actualRevenue] is that revenue times [1 + mevUplift], and the
    relative gap [|fees - target| / target] of that pass is at most that of
    every pass and strictly below that of every earlier pass (passes whose
    gap is not a number aside); or no pass had a relative gap below
    [Infinity], and the result is the initial candidate, 100000 sat/vB with
    no revenue, flagged [targetMet = false].  In both cases the candidate
    and the numeric gap are returned. *)
Theorem solveFeerateForTarget_result
    (Math_pow : num -> num -> num) (i : EconomicInputs) :
  match securityBudgetTargetUsd i with
  | Throw msg => solveFeerateForTarget Math_pow i = Throw msg
  | Return budget =>
      let target := (ToNumber budget / (Fin 1 + Fin (mevUplift i)))%num in
      exists r,
        solveFeerateForTarget Math_pow i = Return r
        /\ targetFeesUsd r = target
        /\ (targetMet r = true
            <-> (Math_abs (gap r) <=? Fin (25 # 10000))%num = true)
        /\ ((exists k, (k < 27)%nat
             /\ feerate r = midpoint (passes Math_pow i target k)
             /\ gap r
                = ((feesUsdPerDay Math_pow (feerate r) i - target) / target)%num
             /\ actualRevenue r
                = (feesUsdPerDay Math_pow (feerate r) i
                   * (Fin 1 + Fin (mevUplift i)))%num
             /\ (forall j, (j < 27)%nat ->
                   pass_gap Math_pow i target j = NaN
                   \/ (pass_gap Math_pow i target k
                       <=? pass_gap Math_pow i target j)%num = true)
             /\ (forall j, (j < k)%nat ->
                   pass_gap Math_pow i target j = NaN
                   \/ (pass_gap Math_pow i target k
                       <? pass_gap Math_pow i target j)%num = true))
            \/ (feerate r = Fin 100000 /\ targetMet r = false
                /\ gap r = ((Fin 0 - target) / target)%num
                /\ forall j, (j < 27)%nat ->
                     (pass_gap Math_pow i target j <? PInf)%num = false))
  end.
Proof.
  unfold solveFeerateForTarget.
  destruct (securityBudgetTargetUsd i) as [budget | msg]; [|reflexivity].
  cbn zeta.
  set (target := (ToNumber budget / (Fin 1 + Fin (mevUplift i)))%num).
  eexists. split; [reflexivity|].
  cbn [targetFeesUsd targetMet gap feerate actualRevenue].
  split; [reflexivity|]. split; [split; intros H; exact H|].
  destruct (search_27_passes Math_pow i target) as (E & _).
  pose proof (passes_best_origin Math_pow i target 27) as Ho.
  cbn zeta in Ho. rewrite <- E in Ho.
  destruct Ho as [(Hf & _ & Hu & Hno) | (k & Hk & Hf & Hg & Hu & Hfirst)].
  - right. rewrite Hf, Hu. repeat split; try assumption.
    apply initial_candidate_not_met.
  - left. exists k. rewrite Hf, Hu. repeat split; try assumption.
    intros j Hj.
    destruct (search_best_minimal Math_pow i target j Hj) as [Hn | Hle];
      [left; exact Hn | right; rewrite <- Hg; exact Hle].
Qed.

(** C1 at a flat record with a budget of 2,800,000 USD a day: the target
    is the budget, the fee rate returned is a midpoint the loop evaluated,
    and the target is met. *)
Lemma solveFeerateForTarget_result_witness :
  exists r k,
    solveFeerateForTarget pow_int (flatInputs (Some 2800000)) = Return r
    /\ targetFeesUsd r = (Fin 2800000 / (Fin 1 + Fin 0))%num
    /\ (k < 27)%nat
    /\ feerate r
       = midpoint (passes pow_int (flatInputs (Some 2800000))
                     (Fin 2800000 / (Fin 1 + Fin 0))%num k)
    /\ targetMet r = true.
Proof.
  destruct (solveFeerateForTarget_result pow_int (flatInputs (Some 2800000)))
    as (r & Hr & Ht & Hm & [(k & Hk & Hf & _) | (Hf & Hno & _)]).
  - exists r, k. repeat split; try assumption.
    vm_compute in Hr. injection Hr as <-. reflexivity.
  - exfalso. vm_compute in Hr. injection Hr as <-. discriminate Hno.
Defined.

(** ** A target out of reach: what is returned *)

(** C3, as amended: when the target is above the fee revenue at every fee
    rate in [1, 100000], [solveFeerateForTarget] returns (it does not throw,
    and the loop is bounded by its 100 iterations); the bracket ends at the
    ceiling, [hi = 100000] and [hi - lo < 0.001]; the returned fee rate is
    the tracked candidate, above 50000 sat/vB and at most 100000.  For a
    positive target the returned gap [(bestFeesUsd - target) / target] is
    negative, and [targetMet] is false whenever the revenue falls short of
    the target by more than 0.25% throughout.  For a positive target and a
    finite revenue the returned fee rate is the midpoint of one of the 27
    passes: the one whose relative gap is at most that of every pass and
    strictly below that of every pass before it, so it is a midpoint near
    the ceiling only if the computed gaps keep improving up to there. *)
Theorem solveFeerateForTarget_unreachable
    (Math_pow : num -> num -> num) (i : EconomicInputs) (t : Q)
    (budget : value) :
  unreachable Math_pow i t ->
  securityBudgetTargetUsd i = Return budget ->
  (ToNumber budget / (Fin 1 + Fin (mevUplift i)))%num = Fin t ->
  exists r,
    solveFeerateForTarget Math_pow i = Return r
    /\ let s := search Math_pow i (Fin t) in
       hi s = Fin 100000
       /\ (exists l, lo s = Fin l /\ l < 100000 /\ 100000 - l < 1 # 1000)
       /\ feerate r = bestFeerate s
       /\ (exists f, feerate r = Fin f /\ 50000 < f /\ f <= 100000)
       /\ (0 < t -> (gap r <? Fin 0)%num = true)
       /\ (0 < t ->
           (forall f, 1 <= f <= 100000 ->
              (feesUsdPerDay Math_pow (Fin f) i
               <? Fin (t * (1 - tolerance)))%num = true) ->
           targetMet r = false)
       /\ (0 < t -> finite_revenue Math_pow i ->
           exists k, (k < 27)%nat
             /\ feerate r = midpoint (passes Math_pow i (Fin t) k)
             /\ (forall j, (j < 27)%nat ->
                   pass_gap Math_pow i (Fin t) j = NaN
                   \/ (pass_gap Math_pow i (Fin t) k
                       <=? pass_gap Math_pow i (Fin t) j)%num = true)
             /\ (forall j, (j < k)%nat ->
                   pass_gap Math_pow i (Fin t) j = NaN
                   \/ (pass_gap Math_pow i (Fin t) k
                       <? pass_gap Math_pow i (Fin t) j)%num = true)).
Proof.
  intros out_of_reach Hb Ht. unfold solveFeerateForTarget. rewrite Hb, Ht.
  eexists. split; [reflexivity|].
  cbn [feerate gap targetMet].
  destruct (search_short Math_pow i t out_of_reach)
    as ((Hh & (l0 & Hl0 & Hl1 & Hl2) & Hbest) & l & Hl & Hw).
  assert (l0 = l) by congruence. subst l0.
  pose proof (search_27_passes Math_pow i (Fin t)) as (E27 & _).
  pose proof (passes_best_origin Math_pow i (Fin t) 27) as Ho.
  pose proof (fun j => search_best_minimal Math_pow i (Fin t) j) as Hmin.
  cbn zeta in Ho. rewrite <- E27 in Ho.
  set (s := search Math_pow i (Fin t)) in *.
  assert (Hshort : 0 < t -> (bestFeesUsd s <? Fin t)%num = true).
  { intros Hpos. destruct Hbest as [(_ & E) | (f & _ & Hf1 & Hf2 & E)];
      rewrite E.
    - apply Qltb_lt, Hpos.
    - apply out_of_reach. lra. }
  repeat split.
  - exact Hh.
  - exists l. repeat split; assumption.
  - destruct Hbest as [(E & _) | (f & E & Hf1 & Hf2 & _)]; rewrite E.
    + exists 100000. repeat split; discriminate.
    + exists f. repeat split; lra.
  - intros Hpos. apply final_gap_negative; auto.
  - intros Hpos Hfar. apply short_by_tolerance_not_met; [exact Hpos|].
    destruct Hbest as [(_ & E) | (f & _ & Hf1 & Hf2 & E)]; rewrite E.
    + apply Qltb_lt. unfold tolerance. lra.
    + apply Hfar. lra.
  - intros Hpos Hfin.
    destruct Ho as [(_ & _ & _ & Hno) | (k & Hk & Hf & Hg & _ & Hfirst)].
    + exfalso. specialize (Hno 0%nat ltac:(lia)).
      change (pass_gap Math_pow i (Fin t) 0)
        with (relative_gap
                (feesUsdPerDay Math_pow (Fin ((1 + 100000) / 2)) i) (Fin t))
        in Hno.
      assert (Hdom : 1 <= (1 + 100000) / 2 <= 100000)
        by (split; vm_compute; discriminate).
      specialize (Hfin _ Hdom).
      destruct (feesUsdPerDay Math_pow (Fin ((1 + 100000) / 2)) i) as [y| | |];
        try contradiction.
      rewrite (relative_gap_Fin t Hpos) in Hno. discriminate Hno.
    + exists k. split; [exact Hk|]. split; [exact Hf|]. split.
      * intros j Hj. destruct (Hmin j Hj) as [Hn | Hle];
          [left; exact Hn | right; rewrite <- Hg; exact Hle].
      * exact Hfirst.
Qed.

(** C3 at a flat record with a budget of 10^12 USD a day: the solver
    returns a midpoint of the upper half of the domain, with a negative
    gap and [targetMet = false]. *)
Lemma solveFeerateForTarget_unreachable_witness :
  exists r,
    solveFeerateForTarget pow_int (flatInputs (Some 1000000000000)) = Return r
    /\ (exists f, feerate r = Fin f /\ 50000 < f /\ f <= 100000)
    /\ (gap r <? Fin 0)%num = true
    /\ targetMet r = false
    /\ exists k, (k < 27)%nat
         /\ feerate r
            = midpoint (passes pow_int (flatInputs (Some 1000000000000))
                          (Fin 1000000000000) k).
Proof.
  assert (Hreach : unreachable pow_int (flatInputs (Some 1000000000000))
                     1000000000000)
    by (apply flat_unreachable; reflexivity).
  destruct (solveFeerateForTarget_unreachable pow_int
              (flatInputs (Some 1000000000000)) 1000000000000
              (Number (Fin 1000000000000)) Hreach eq_refl eq_refl)
    as (r & Hr & Hh & _ & _ & Hf & Hgap & Hmet & Hbest).
  exists r. split; [exact Hr|]. split; [exact Hf|]. split; [|split].
  - apply Hgap. reflexivity.
  - apply Hmet; [reflexivity|].
    intros f [Hf1 Hf2].
    destruct (flat_revenue (Some 1000000000000) f) as (y & -> & Ey).
    cbn [ltb]. apply Qltb_lt. rewrite Ey. unfold tolerance. lra.
  - destruct Hbest as (k & Hk & Hfk & _).
    + reflexivity.
    + intros f _.
      destruct (flat_revenue (Some 1000000000000) f) as (y & -> & _). exact I.
    + exists k. split; assumption.
Defined.

(** ** Meeting the target *)

Lemma Qabs_div (a t : Q) : ~ t == 0 -> Qabs (a / t) == Qabs a / Qabs t.
Proof.
  intros Ht. unfold Qdiv. rewrite Qabs_Qmult, Qabs_Qinv. reflexivity.
Qed.

Lemma Qabs_pos_nonzero (t : Q) : ~ t == 0 -> 0 < Qabs t.
Proof.
  intros Ht. destruct (Qlt_le_dec 0 t) as [H | H].
  - rewrite Qabs_pos by lra. exact H.
  - rewrite Qabs_neg by exact H.
    destruct (Qeq_dec t 0) as [E | E]; [contradiction|].
    assert (t < 0) by (apply Qle_lteq in H; destruct H; [assumption | contradiction]).
    lra.
Qed.

Lemma Qle_div_l (a b c : Q) : 0 < c -> a / c <= b -> a <= b * c.
Proof.
  intros Hc H. apply Qmult_le_compat_r with (z := c) in H; [|lra].
  setoid_replace (a / c * c) with a in H by (field; lra). exact H.
Qed.

Lemma Qle_div_r (a b c : Q) : 0 < c -> a <= b * c -> a / c <= b.
Proof.
  intros Hc H. apply Qle_shift_div_r; assumption.
Qed.

Section Convergence.

Variable Math_pow : num -> num -> num.
Variable i : EconomicInputs.
Variable t : Q.

Hypothesis target_pos : 0 < t.
Hypothesis floor_short :
  (feesUsdPerDay Math_pow (Fin 1) i >=? Fin t)%num = false.
Hypothesis ceiling_enough :
  (feesUsdPerDay Math_pow (Fin 100000) i >=? Fin t)%num = true.
Hypothesis steady : crossing_within_tolerance Math_pow i t.

(** The last midpoint is an end of the final bracket, and its gap is
    within the tolerance. *)
Lemma last_pass_gap :
  exists g, pass_gap Math_pow i (Fin t) 26 = Fin g /\ g <= tolerance.
Proof.
  destruct (search_crossing Math_pow i (Fin t) floor_short ceiling_enough)
    as (l & h & Hl & Hh & Hl1 & Hlh & Hh1 & Hw & Sl & Sh).
  destruct (steady l h Hl1 Hlh Hh1 Hw Sl Sh) as (y & y' & Ey & Ey' & Hy).
  rewrite Ey in Sl. rewrite Ey' in Sh.
  cbn [geb leb] in Sl, Sh. apply Qle_bool_gt in Sl. apply Qle_bool_iff in Sh.
  unfold pass_gap.
  destruct (search_last_midpoint Math_pow i (Fin t)) as [(_ & Em) | (_ & Em)].
  - rewrite <- Em, Hh, Ey', (relative_gap_Fin t target_pos).
    eexists. split; [reflexivity|].
    rewrite Qabs_pos by lra. apply Qle_div_r; lra.
  - rewrite <- Em, Hl, Ey, (relative_gap_Fin t target_pos).
    eexists. split; [reflexivity|].
    rewrite Qabs_neg by lra. apply Qle_div_r; lra.
Qed.

(** So the tracked candidate is one the loop evaluated, with a finite
    revenue within the tolerance of the target. *)
Lemma search_converges :
  exists y,
    bestFeesUsd (search Math_pow i (Fin t)) = Fin y
    /\ feesUsdPerDay Math_pow (bestFeerate (search Math_pow i (Fin t))) i
       = Fin y
    /\ Qabs (y - t) <= tolerance * t.
Proof.
  destruct last_pass_gap as (g & Eg & Hg).
  destruct (search_best_minimal Math_pow i (Fin t) 26 ltac:(lia))
    as [Hn | Hle]; [congruence|].
  rewrite Eg in Hle.
  destruct (search_best_tracked Math_pow i (Fin t)) as [(_ & Hinf & _) | (Hf & Hb)].
  - rewrite Hinf in Hle. discriminate.
  - rewrite Hb in Hle. rewrite <- Hf.
    destruct (bestFeesUsd (search Math_pow i (Fin t))) as [y| | |].
    + rewrite (relative_gap_Fin t target_pos) in Hle.
      cbn [leb] in Hle. apply Qle_bool_iff in Hle.
      exists y. split; [reflexivity|]. split; [reflexivity|].
      apply Qle_div_l; [exact target_pos|].
      unfold Qminus. lra.
    + unfold relative_gap in Hle. cbn in Hle.
      rewrite (Qsign_pos t target_pos) in Hle. discriminate.
    + unfold relative_gap in Hle. cbn in Hle.
      rewrite (Qsign_pos t target_pos) in Hle. discriminate.
    + discriminate.
Qed.

End Convergence.

(** X5: solver convergence.  Let the target be positive, the revenue at
    1 sat/vB short of it and the revenue at 100000 sat/vB at or above it,
    and let the revenue rise by at most 0.25% of the target between any two
    fee rates less than 0.001 apart that straddle the target.  Then
    [solveFeerateForTarget] returns [targetMet = true], and the revenue at
    the returned fee rate is within 0.25% of the target.  The revenue need
    not be monotone. *)
Theorem solveFeerateForTarget_meets_target
    (Math_pow : num -> num -> num) (i : EconomicInputs) (t : Q)
    (budget : value) :
  securityBudgetTargetUsd i = Return budget ->
  (ToNumber budget / (Fin 1 + Fin (mevUplift i)))%num = Fin t ->
  0 < t ->
  (feesUsdPerDay Math_pow (Fin 1) i >=? Fin t)%num = false ->
  (feesUsdPerDay Math_pow (Fin 100000) i >=? Fin t)%num = true ->
  crossing_within_tolerance Math_pow i t ->
  exists r y,
    solveFeerateForTarget Math_pow i = Return r
    /\ targetMet r = true
    /\ feesUsdPerDay Math_pow (feerate r) i = Fin y
    /\ Qabs (y - t) <= tolerance * t.
Proof.
  intros Hb Ht Hpos H1 H2 Hvar.
  destruct (search_converges Math_pow i t Hpos H1 H2 Hvar)
    as (y & Ey & Ef & Hy).
  unfold solveFeerateForTarget. rewrite Hb, Ht.
  eexists. exists y. split; [reflexivity|].
  cbn [targetMet feerate]. rewrite Ey.
  split; [|split; assumption].
  cbn [sub add neg]. rewrite div_Fin by lra.
  cbn [Math_abs leb]. apply Qle_bool_iff.
  rewrite Qabs_div by lra. rewrite (Qabs_pos t) by lra.
  apply Qle_div_r; [exact Hpos | exact Hy].
Qed.

Lemma flat_crossing_within_tolerance (u : option Q) (t : Q) :
  112000 <= t -> crossing_within_tolerance pow_int (flatInputs u) t.
Proof.
  intros Ht f f' Hf1 Hff Hf2 Hw _ _.
  destruct (flat_revenue u f) as (y & Ey & Hy).
  destruct (flat_revenue u f') as (y' & Ey' & Hy').
  exists y, y'. split; [exact Ey|]. split; [exact Ey'|].
  rewrite Hy, Hy'. unfold tolerance. lra.
Qed.

(** X5 at a flat record with a budget of 2,800,000 USD a day, met at
    10 sat/vB. *)
Lemma solveFeerateForTarget_meets_target_witness :
  exists r y,
    solveFeerateForTarget pow_int (flatInputs (Some 2800000)) = Return r
    /\ targetMet r = true
    /\ feesUsdPerDay pow_int (feerate r) (flatInputs (Some 2800000)) = Fin y
    /\ Qabs (y - 2800000) <= tolerance * 2800000.
Proof.
  apply (solveFeerateForTarget_meets_target pow_int
           (flatInputs (Some 2800000)) 2800000 (Number (Fin 2800000))).
  - reflexivity.
  - reflexivity.
  - reflexivity.
  - vm_compute. reflexivity.
  - vm_compute. reflexivity.
  - apply flat_crossing_within_tolerance. discriminate.
Defined.

Section TargetMet.

Variable Math_pow : num -> num -> num.
Variable i : EconomicInputs.

(** A result flagged as meeting a finite, non-zero target carries a fee
    rate whose revenue is finite and within the tolerance of the target. *)
Lemma targetMet_sound (r : SolverResult) (t : Q) :
  solveFeerateForTarget Math_pow i = Return r ->
  targetFeesUsd r = Fin t -> ~ t == 0 -> targetMet r = true ->
  exists y,
    feesUsdPerDay Math_pow (feerate r) i = Fin y
    /\ Qabs (y - t) <= tolerance * Qabs t.
Proof.
  unfold solveFeerateForTarget.
  destruct (securityBudgetTargetUsd i) as [budget|]; [|discriminate].
  intros Hr Ht Hnz Hmet. injection Hr as <-.
  cbn [targetFeesUsd feerate targetMet] in *. rewrite Ht in *.
  pose proof (Qabs_pos_nonzero t Hnz) as Hat.
  assert (Hfin : forall y,
            (Math_abs ((Fin y - Fin t) / Fin t) <=? Fin tolerance)%num = true ->
            Qabs (y - t) <= tolerance * Qabs t).
  { intros y H. cbn [sub add neg] in H. rewrite div_Fin in H by exact Hnz.
    cbn [Math_abs leb] in H. apply Qle_bool_iff in H.
    rewrite Qabs_div in H by exact Hnz.
    apply Qle_div_l; assumption. }
  destruct (search_best_tracked Math_pow i (Fin t)) as [(_ & _ & Hz) | (Hf & _)].
  - rewrite Hz in Hmet. apply Hfin in Hmet. exfalso.
    assert (E : Qabs (0 - t) == Qabs t).
    { setoid_replace (0 - t) with (- t) by ring. apply Qabs_opp. }
    rewrite E in Hmet. unfold tolerance in Hmet. lra.
  - rewrite <- Hf.
    destruct (bestFeesUsd (search Math_pow i (Fin t))) as [y| | |].
    + exists y. split; [reflexivity | apply Hfin, Hmet].
    + exfalso. cbn in Hmet. destruct (Qsign t); discriminate.
    + exfalso. cbn in Hmet. destruct (Qsign t); discriminate.
    + discriminate.
Qed.

End TargetMet.

(** X6: when [computeFullModel] reports [solverInfo.targetMet = true]
    against a finite target other than zero, the [dailyFeeRevenueUSD] it
    reports is a finite number within 0.25% of
    [solverInfo.targetFeesUsd], whatever the inputs and [Math.pow] are. *)
Theorem computeFullModel_target_met
    (Math_pow : num -> num -> num) (i : EconomicInputs) (flag : bool)
    (o : EconomicOutputs) (w : list string) (t : Q) :
  computeFullModel Math_pow i flag = Return (o, w) ->
  info_targetMet (solverInfo o) = true ->
  info_targetFeesUsd (solverInfo o) = Fin t -> ~ t == 0 ->
  exists y,
    dailyFeeRevenueUSD o = Fin y /\ Qabs (y - t) <= tolerance * Qabs t.
Proof.
  intros Hc Hmet Ht Hnz.
  destruct (solveFeerateForTarget Math_pow i) as [r|] eqn:Hr;
    [|unfold computeFullModel in Hc; rewrite Hr in Hc; discriminate].
  destruct (securityBudgetTargetUsd i) as [budget|] eqn:Hb;
    [|unfold solveFeerateForTarget in Hr; rewrite Hb in Hr; discriminate].
  destruct (computeFullModel_returns Math_pow i flag r budget Hr Hb)
    as (o' & w' & E & _ & Hd & _ & _ & Hs).
  rewrite E in Hc. injection Hc as <- <-.
  rewrite Hs in Hmet, Ht. cbn [info_targetMet info_targetFeesUsd] in Hmet, Ht.
  rewrite Hd. exact (targetMet_sound Math_pow i r t Hr Ht Hnz Hmet).
Qed.

Lemma computeFullModel_target_met_witness :
  exists o w y,
    computeFullModel pow_int (flatInputs (Some 2800000)) false = Return (o, w)
    /\ dailyFeeRevenueUSD o = Fin y
    /\ Qabs (y - 2800000) <= tolerance * Qabs 2800000.
Proof.
  destruct (computeFullModel pow_int (flatInputs (Some 2800000)) false)
    as [[o w]|] eqn:E; [|vm_compute in E; discriminate E].
  destruct (computeFullModel_target_met pow_int (flatInputs (Some 2800000))
              false o w 2800000 E) as (y & Hy & Hb).
  - vm_compute in E. injection E as <- _. reflexivity.
  - vm_compute in E. injection E as <- _. reflexivity.
  - intros X; discriminate X.
  - exists o, w, y. repeat split; assumption.
Defined.

(** * Further properties of the full model *)

(** An assertion that compares a number with itself never warns: the
    difference is zero, or not a number. *)
Lemma assertNearlyEqual_same (x : num) (tol : Q) (label : string) :
  0 <= tol -> assertNearlyEqual x x (Fin tol) label = [].
Proof.
  intros Htol. unfold assertNearlyEqual, gtb.
  destruct x as [q| | |]; cbn [sub add neg Math_abs ltb]; try reflexivity.
  assert (E : Qltb tol (Qabs (q + - q)) = false).
  { apply Qltb_ge. setoid_replace (q + - q) with 0 by ring. exact Htol. }
  rewrite E. reflexivity.
Qed.

Section Warnings.

Variable Math_pow : num -> num -> num.
Variable i : EconomicInputs.
Variable flag : bool.

(** The warnings are those of the three assertions that compare two
    different computations. *)
Lemma computeFullModel_warnings (o : EconomicOutputs) (w : list string) :
  computeFullModel Math_pow i flag = Return (o, w) ->
  exists w1 w3 w4,
    w = (w1 ++ w3 ++ w4)%list
    /\ w1 = assertNearlyEqual (dailyFeeRevenueUSD o)
              (info_targetFeesUsd (solverInfo o)) (Fin 1)
              "Daily fees match solver target"
    /\ (w3 = [] \/ w3 = ["Block fees BTC/USD consistency"%string])
    /\ (w4 = [] \/ w4 = ["Daily fees BTC/USD consistency"%string]).
Proof.
  unfold computeFullModel.
  destruct (solveFeerateForTarget Math_pow i) as [r|]; [|discriminate].
  destruct (securityBudgetTargetUsd i) as [budget|]; [|discriminate].
  intros H. injection H as <- <-.
  rewrite !assertNearlyEqual_same by discriminate.
  cbn [dailyFeeRevenueUSD solverInfo info_targetFeesUsd app].
  rewrite app_nil_r.
  do 3 eexists. split; [reflexivity|]. split; [reflexivity|].
  split; unfold assertNearlyEqual; destruct (_ >? _)%num; auto.
Qed.

End Warnings.

(** X7: two of the five consistency assertions of [computeFullModel] can
    never fire, whatever the inputs: "Fees per block consistency" and
    "Pool revenue calculation" each compare a quantity with a second
    evaluation of the same expression, so the difference is zero or not a
    number.  Every warning logged is one of the other three. *)
Theorem computeFullModel_vacuous_assertions
    (Math_pow : num -> num -> num) (i : EconomicInputs) (flag : bool) :
  match computeFullModel Math_pow i flag with
  | Return (_, w) =>
      ~ In "Fees per block consistency"%string w
      /\ ~ In "Pool revenue calculation"%string w
      /\ forall label, In label w ->
           label = "Daily fees match solver target"%string
           \/ label = "Block fees BTC/USD consistency"%string
           \/ label = "Daily fees BTC/USD consistency"%string
  | Throw _ => True
  end.
Proof.
  destruct (computeFullModel Math_pow i flag) as [[o w]|] eqn:E; [|exact I].
  destruct (computeFullModel_warnings Math_pow i flag o w E)
    as (w1 & w3 & w4 & -> & -> & H3 & H4).
  assert (Hall : forall label,
            In label
              (assertNearlyEqual (dailyFeeRevenueUSD o)
                 (info_targetFeesUsd (solverInfo o)) (Fin 1)
                 "Daily fees match solver target" ++ w3 ++ w4) ->
            label = "Daily fees match solver target"%string
            \/ label = "Block fees BTC/USD consistency"%string
            \/ label = "Daily fees BTC/USD consistency"%string).
  { intros label Hin. rewrite !in_app_iff in Hin.
    destruct Hin as [Hin | [Hin | Hin]].
    - unfold assertNearlyEqual in Hin. destruct (_ >? _)%num; simpl in Hin;
        [destruct Hin as [<- | []]; auto | contradiction].
    - destruct H3 as [-> | ->]; simpl in Hin;
        [contradiction | destruct Hin as [<- | []]; auto].
    - destruct H4 as [-> | ->]; simpl in Hin;
        [contradiction | destruct Hin as [<- | []]; auto]. }
  split; [|split; [|exact Hall]].
  - intros Hin. destruct (Hall _ Hin) as [H | [H | H]]; discriminate H.
  - intros Hin. destruct (Hall _ Hin) as [H | [H | H]]; discriminate H.
Qed.

Section Outputs.

Variable Math_pow : num -> num -> num.
Variable i : EconomicInputs.
Variable flag : bool.

(** The derived outputs in terms of the revenue and the hashrate. *)
Lemma computeFullModel_outputs (o : EconomicOutputs) (w : list string) :
  computeFullModel Math_pow i flag = Return (o, w) ->
  exists r budget,
    solveFeerateForTarget Math_pow i = Return r
    /\ securityBudgetTargetUsd i = Return budget
    /\ securityBudgetTargetUSD o = budget
    /\ solverInfo o
       = mkSolverInfo (targetMet r) (gap r) (actualRevenue r) (targetFeesUsd r)
    /\ dailyFeeRevenueUSD o = feesUsdPerDay Math_pow (feerate r) i
    /\ dailyFeeRevenueBTC o = (dailyFeeRevenueUSD o / Fin (btcPrice i))%num
    /\ networkRevenueUSD o
       = (dailyFeeRevenueUSD o * (Fin 1 + Fin (mevUplift i))
          + usd ((if flag then Fin (3125 # 1000) else Fin 0) * Fin 144)
              (Fin (btcPrice i)))%num
    /\ out_equilibriumHashrateTH o
       = (networkRevenueUSD o
          / (Fin (costPerTHDay i) * (Fin 1 + Fin (margin i))))%num
    /\ poolDailyRevenueUSD o = (networkRevenueUSD o * Fin (poolShare i))%num
    /\ poolDailyExpensesUSD o
       = (out_equilibriumHashrateTH o * Fin (poolShare i)
          * Fin (costPerTHDay i))%num
    /\ poolProfitMargin o
       = (if (poolDailyRevenueUSD o >? Fin 0)%num
          then ((poolDailyRevenueUSD o - poolDailyExpensesUSD o)
                / poolDailyRevenueUSD o)%num
          else Fin (-1))
    /\ breakEvenBTCPrice o
       = (if (poolDailyExpensesUSD o >? Fin 0)%num
             && (dailyFeeRevenueBTC o >? Fin 0)%num
          then (poolDailyExpensesUSD o
                / (dailyFeeRevenueBTC o * Fin (poolShare i)))%num
          else PInf)
    /\ out_demandVbPerDay o = demandVbPerDay Math_pow (feerate r) i
    /\ out_confirmedVbPerDay o = confirmedVbPerDay Math_pow (feerate r) i
    /\ out_backlogVb o
       = Math_max (Fin 0)
           (Fin (backlogVb i) + out_demandVbPerDay o
            - out_confirmedVbPerDay o)%num
    /\ attackCost6hUSD o
       = attackCostUsd (Fin 6) (out_equilibriumHashrateTH o)
           (or_default (rentRateUsdPerTHHour i) (Fin (6 # 100))).
Proof.
  unfold computeFullModel.
  destruct (solveFeerateForTarget Math_pow i) as [r|] eqn:Hr; [|discriminate].
  destruct (securityBudgetTargetUsd i) as [budget|] eqn:Hb; [|discriminate].
  intros H. injection H as <- _.
  exists r, budget. repeat split.
Qed.

End Outputs.

Lemma solveFeerateForTarget_target
    (Math_pow : num -> num -> num) (i : EconomicInputs) r budget :
  solveFeerateForTarget Math_pow i = Return r ->
  securityBudgetTargetUsd i = Return budget ->
  targetFeesUsd r = (ToNumber budget / (Fin 1 + Fin (mevUplift i)))%num.
Proof.
  unfold solveFeerateForTarget. intros Hr Hb. rewrite Hb in Hr.
  injection Hr as <-. reflexivity.
Qed.



Lemma Qmult_nonzero (a b : Q) : ~ a == 0 -> ~ b == 0 -> ~ a * b == 0.
Proof.
  intros Ha Hb E. apply Qmult_integral in E. tauto.
Qed.

(** X9: rounding aside, the pool's profit margin does not depend on the
    revenue, the pool share or the cost.  In exact arithmetic, whenever the
    network revenue is finite and the pool revenue positive (with
    [costPerTHDay] and [1 + margin] not zero), [poolProfitMargin] is
    [margin / (1 + margin)]; the doubles of the program agree with it up
    to their last digits ([computeFullModel_binary64_rounding]).  Whenever
    the pool revenue is not positive the margin is the sentinel -1. *)
Theorem computeFullModel_pool_margin
    (Math_pow : num -> num -> num) (i : EconomicInputs) (flag : bool)
    (o : EconomicOutputs) (w : list string) :
  computeFullModel Math_pow i flag = Return (o, w) ->
  (forall N, networkRevenueUSD o = Fin N -> 0 < N * poolShare i ->
             ~ costPerTHDay i == 0 -> ~ 1 + margin i == 0 ->
             same (poolProfitMargin o) (Fin (margin i / (1 + margin i))))
  /\ ((poolDailyRevenueUSD o >? Fin 0)%num = false ->
      poolProfitMargin o = Fin (-1)).
Proof.
  intros Hc.
  destruct (computeFullModel_outputs Math_pow i flag o w Hc)
    as (r & budget & _ & _ & _ & _ & _ & _ & _ & Eh & Er & Ee & Em & _).
  split.
  - intros N EN Hpos Hcost Hmu.
    assert (HN : ~ N == 0) by (intros E; rewrite E in Hpos; lra).
    assert (Hp : ~ poolShare i == 0) by (intros E; rewrite E in Hpos; lra).
    rewrite Em, Ee, Er, Eh, EN. cbn [add mul].
    rewrite div_Fin by (apply Qmult_nonzero; assumption).
    cbn [mul sub add neg gtb ltb].
    assert (Hgt : Qltb 0 (N * poolShare i) = true) by (apply Qltb_lt, Hpos).
    rewrite Hgt. rewrite div_Fin by lra.
    unfold same. field. repeat split; assumption.
  - intros Hle. rewrite Em, Hle. reflexivity.
Qed.

Lemma computeFullModel_pool_margin_witness :
  exists o w,
    computeFullModel pow_int (flatInputs (Some 2800000)) false = Return (o, w)
    /\ same (poolProfitMargin o) (Fin ((107 # 1000) / (1 + (107 # 1000)))).
Proof.
  destruct (computeFullModel pow_int (flatInputs (Some 2800000)) false)
    as [[o w]|] eqn:E; [|vm_compute in E; discriminate E].
  exists o, w. split; [reflexivity|].
  destruct (computeFullModel_pool_margin pow_int (flatInputs (Some 2800000))
              false o w E) as (H & _).
  vm_compute in E. injection E as <- _.
  apply (H _ eq_refl).
  - reflexivity.
  - intros X; discriminate X.
  - intros X; discriminate X.
Defined.

(** X10: rounding aside, in the fee-only scenario the break-even price
    does not depend on the fee revenue, the pool share or the cost.  In
    exact arithmetic, whenever the fee revenue is finite and positive, and
    [btcPrice], [poolShare], [costPerTHDay], [1 + margin] and
    [1 + mevUplift] are positive, [breakEvenBTCPrice] is
    [btcPrice * (1 + mevUplift) / (1 + margin)]; the doubles of the program
    agree with it up to their last digits
    ([computeFullModel_binary64_rounding]). *)
Theorem computeFullModel_break_even
    (Math_pow : num -> num -> num) (i : EconomicInputs)
    (o : EconomicOutputs) (w : list string) (x : Q) :
  computeFullModel Math_pow i false = Return (o, w) ->
  dailyFeeRevenueUSD o = Fin x -> 0 < x ->
  0 < btcPrice i -> 0 < poolShare i -> 0 < costPerTHDay i ->
  0 < 1 + margin i -> 0 < 1 + mevUplift i ->
  same (breakEvenBTCPrice o)
       (Fin (btcPrice i * (1 + mevUplift i) / (1 + margin i))).
Proof.
  intros Hc Ex Hx HP Hp Hcost Hmu Hg.
  destruct (computeFullModel_outputs Math_pow i false o w Hc)
    as (r & budget & _ & _ & _ & _ & _ & Eb & En & Eh & _ & Ee & _ & Ebe & _).
  rewrite Ebe, Ee, Eh, Eb, En, Ex. cbn [add mul usd].
  assert (Hden : 0 < costPerTHDay i * (1 + margin i))
    by (apply Qmult_lt_0_compat; assumption).
  rewrite !div_Fin by lra. cbn [mul gtb ltb].
  set (N := x * (1 + mevUplift i) + 0 * 144 * btcPrice i).
  assert (HN : 0 < N).
  { unfold N. assert (0 < x * (1 + mevUplift i))
      by (apply Qmult_lt_0_compat; assumption). lra. }
  assert (Hexp : 0 < N / (costPerTHDay i * (1 + margin i)) * poolShare i
                     * costPerTHDay i).
  { assert (0 < N / (costPerTHDay i * (1 + margin i)))
      by (apply Qlt_shift_div_l; [exact Hden | lra]).
    apply Qmult_lt_0_compat; [|exact Hcost].
    apply Qmult_lt_0_compat; assumption. }
  assert (Hbtc : 0 < x / btcPrice i)
    by (apply Qlt_shift_div_l; [exact HP | lra]).
  apply Qltb_lt in Hexp. apply Qltb_lt in Hbtc as Hbtc'.
  rewrite Hexp, Hbtc'. cbn [andb].
  assert (Hd2 : 0 < x / btcPrice i * poolShare i)
    by (apply Qmult_lt_0_compat; assumption).
  rewrite div_Fin by lra.
  unfold same, N. field. repeat split; lra.
Qed.

Lemma computeFullModel_break_even_witness :
  exists o w,
    computeFullModel pow_int (flatInputs (Some 2800000)) false = Return (o, w)
    /\ same (breakEvenBTCPrice o)
            (Fin (100000 * (1 + 0) / (1 + (107 # 1000)))).
Proof.
  destruct (computeFullModel pow_int (flatInputs (Some 2800000)) false)
    as [[o w]|] eqn:E; [|vm_compute in E; discriminate E].
  exists o, w. split; [reflexivity|].
  pose proof (fun x => computeFullModel_break_even pow_int
                         (flatInputs (Some 2800000)) o w x E) as H.
  vm_compute in E. injection E as <- _.
  apply (H _ eq_refl); reflexivity.
Defined.

(** ** Optional fields and errors at the entry point *)

Lemma solve_with_rentRate (Math_pow : num -> num -> num) r i :
  solveFeerateForTarget Math_pow (with_rentRate r i)
  = solveFeerateForTarget Math_pow i.
Proof.
  assert (Hb : forall t s, search_body Math_pow (with_rentRate r i) t s
                           = search_body Math_pow i t s) by reflexivity.
  assert (Hl : forall n t s, search_loop Math_pow n (with_rentRate r i) t s
                             = search_loop Math_pow n i t s).
  { intros n t; induction n as [|n IH]; intros s; simpl;
      [reflexivity | rewrite Hb; destruct (_ <? _)%num; [reflexivity | apply IH]]. }
  unfold solveFeerateForTarget, search.
  change (securityBudgetTargetUsd (with_rentRate r i))
    with (securityBudgetTargetUsd i).
  destruct (securityBudgetTargetUsd i); [|reflexivity].
  rewrite Hl. reflexivity.
Qed.

(** X11: a rent rate of zero cannot be expressed.  [computeFullModel] reads
    the field through [|| 0.06], so a record with
    [rentRateUsdPerTHHour = 0] gives exactly the result of the record
    without the field: the attack cost is computed at 0.06 USD per
    TH-hour. *)
Theorem computeFullModel_zero_rent_rate
    (Math_pow : num -> num -> num) (i : EconomicInputs) (flag : bool) (q : Q) :
  q == 0 ->
  computeFullModel Math_pow (with_rentRate (Some q) i) flag
  = computeFullModel Math_pow (with_rentRate None i) flag.
Proof.
  intros Hq. unfold computeFullModel. rewrite !solve_with_rentRate.
  destruct (solveFeerateForTarget Math_pow i) as [r|]; [|reflexivity].
  change (securityBudgetTargetUsd (with_rentRate (Some q) i))
    with (securityBudgetTargetUsd i).
  change (securityBudgetTargetUsd (with_rentRate None i))
    with (securityBudgetTargetUsd i).
  destruct (securityBudgetTargetUsd i) as [budget|]; [|reflexivity].
  assert (E : or_default (rentRateUsdPerTHHour (with_rentRate (Some q) i))
                (Fin (6 # 100))
              = or_default (rentRateUsdPerTHHour (with_rentRate None i))
                  (Fin (6 # 100))).
  { unfold or_default. cbn [rentRateUsdPerTHHour with_rentRate of_field truthy].
    apply Qeq_bool_iff in Hq. rewrite Hq. reflexivity. }
  rewrite E. reflexivity.
Qed.

Lemma computeFullModel_zero_rent_rate_witness :
  computeFullModel pow_int (with_rentRate (Some 0) (defaultInputs (-1))) false
  = computeFullModel pow_int (with_rentRate None (defaultInputs (-1))) false.
Proof.
  apply (computeFullModel_zero_rent_rate pow_int (defaultInputs (-1)) false 0).
  reflexivity.
Defined.

Lemma securityBudgetTargetUsd_unrecognised (i : EconomicInputs) :
  ~ recognised (securityBudgetMode i) ->
  securityBudgetTargetUsd i = Throw "Invalid security budget mode".
Proof.
  unfold securityBudgetTargetUsd, recognised. intros Hno.
  destruct (String.eqb_spec (securityBudgetMode i) "absolute_usd");
    [tauto|].
  destruct (String.eqb_spec (securityBudgetMode i) "percent_of_2025");
    [tauto|].
  destruct (String.eqb_spec (securityBudgetMode i) "percent_of_settlement_value");
    [tauto|].
  reflexivity.
Qed.

(** X12: the only error of [computeFullModel].  Under either flag the call
    returns an output record whenever the mode is one of the three
    recognised strings, whatever else the record holds, and throws
    "Invalid security budget mode" for every other mode. *)
Theorem computeFullModel_throws_iff
    (Math_pow : num -> num -> num) (i : EconomicInputs) (flag : bool) :
  (recognised (securityBudgetMode i) ->
   exists o w, computeFullModel Math_pow i flag = Return (o, w))
  /\ (~ recognised (securityBudgetMode i) ->
      computeFullModel Math_pow i flag = Throw "Invalid security budget mode").
Proof.
  split.
  - intros Hr. destruct (securityBudgetTargetUsd_returns i Hr) as [budget Hb].
    unfold computeFullModel, solveFeerateForTarget. rewrite Hb.
    do 2 eexists. reflexivity.
  - intros Hno.
    unfold computeFullModel, solveFeerateForTarget.
    rewrite (securityBudgetTargetUsd_unrecognised i Hno). reflexivity.
Qed.

Lemma computeFullModel_throws_iff_witness :
  (exists o w, computeFullModel pow_int (defaultInputs (-1)) true = Return (o, w))
  /\ computeFullModel pow_int bogusInputs true
     = Throw "Invalid security budget mode".
Proof.
  split.
  - apply (computeFullModel_throws_iff pow_int (defaultInputs (-1)) true).
    right; left; reflexivity.
  - apply (computeFullModel_throws_iff pow_int bogusInputs true).
    unfold recognised; simpl. intros [H | [H | H]]; discriminate H.
Defined.

(** X13: rounding aside, the backlog never shrinks.  In exact arithmetic,
    for a finite demand at the solved fee rate and an existing backlog that
    is not negative, the backlog reported by [computeFullModel] is the
    existing backlog when the demand fits in the daily block space, and the
    existing backlog plus the excess demand otherwise: spare capacity is
    not used to clear what is queued.  In doubles [(B + d) - d] can fall
    one unit in the last place short of [B]
    ([computeFullModel_binary64_rounding]). *)
Theorem computeFullModel_backlog
    (Math_pow : num -> num -> num) (i : EconomicInputs) (flag : bool)
    (o : EconomicOutputs) (w : list string) (d : Q) :
  computeFullModel Math_pow i flag = Return (o, w) ->
  out_demandVbPerDay o = Fin d -> 0 <= backlogVb i ->
  exists b,
    out_backlogVb o = Fin b /\ backlogVb i <= b
    /\ (d <= supplyVbPerDay i -> b == backlogVb i)
    /\ (supplyVbPerDay i < d -> b == backlogVb i + (d - supplyVbPerDay i)).
Proof.
  intros Hc Ed Hb.
  destruct (computeFullModel_outputs Math_pow i flag o w Hc)
    as (r & budget & _ & _ & _ & _ & _ & _ & _ & _ & _ & _ & _ & _
        & Edem & Econf & Eback & _).
  rewrite Eback, Econf, Ed. rewrite Ed in Edem.
  unfold confirmedVbPerDay. rewrite <- Edem.
  unfold blockLimitVb, BLOCKS_PER_DAY. cbn [mul].
  change (blockLimitMB i * 1000000 * 144) with (supplyVbPerDay i).
  cbn [Math_min leb].
  destruct (Qle_bool d (supplyVbPerDay i)) eqn:E; cbn [sub add neg Math_max leb].
  - apply Qle_bool_iff in E.
    assert (H0 : Qle_bool 0 (backlogVb i + d + - d) = true)
      by (apply Qle_bool_iff; lra).
    rewrite H0. eexists. split; [reflexivity|].
    repeat split; intros; lra.
  - apply Qle_bool_gt in E.
    assert (H0 : Qle_bool 0 (backlogVb i + d + - supplyVbPerDay i) = true)
      by (apply Qle_bool_iff; lra).
    rewrite H0. eexists. split; [reflexivity|].
    repeat split; intros; lra.
Qed.

Lemma computeFullModel_backlog_witness :
  exists o w b,
    computeFullModel pow_int (defaultInputs (-1)) false = Return (o, w)
    /\ out_backlogVb o = Fin b /\ 25000000 <= b.
Proof.
  destruct (computeFullModel pow_int (defaultInputs (-1)) false)
    as [[o w]|] eqn:E; [|vm_compute in E; discriminate E].
  pose proof (fun d => computeFullModel_backlog pow_int (defaultInputs (-1))
                         false o w d E) as H.
  vm_compute in E. injection E as <- _.
  destruct (H _ eq_refl) as (b & Hb & Hle & _).
  - intros X; discriminate X.
  - do 3 eexists. split; [reflexivity|]. split; [exact Hb | exact Hle].
Defined.

(** ** One source for every figure *)

(** X14: the figures [computeFullModel] computes in line are those of the
    model's own methods at the solved fee rate: the fee revenue is
    [feesUsdPerDay], the confirmed volume [confirmedVbPerDay], the
    hashrate [equilibriumHashrateTH] with the scenario's reward, the
    confirmation time [calculateConfirmationTime], and the attack cost
    [attackCostUsd] over 6 hours at 51% of that hashrate. *)
Theorem computeFullModel_uses_methods
    (Math_pow : num -> num -> num) (i : EconomicInputs) (flag : bool) :
  match computeFullModel Math_pow i flag with
  | Return (o, _) =>
      let f := optimalFeerate o in
      let reward :=
        usd ((if flag then Fin (3125 # 1000) else Fin 0) * Fin 144)%num
          (Fin (btcPrice i)) in
      dailyFeeRevenueUSD o = feesUsdPerDay Math_pow f i
      /\ out_demandVbPerDay o = demandVbPerDay Math_pow f i
      /\ out_confirmedVbPerDay o = confirmedVbPerDay Math_pow f i
      /\ out_equilibriumHashrateTH o = equilibriumHashrateTH Math_pow f reward i
      /\ avgConfirmationTimeMin o = calculateConfirmationTime Math_pow f i
      /\ attackCost6hUSD o
         = (Fin (51 # 100) * out_equilibriumHashrateTH o
            * or_default (rentRateUsdPerTHHour i) (Fin (6 # 100)) * Fin 6)%num
  | Throw _ => True
  end.
Proof.
  unfold computeFullModel.
  destruct (solveFeerateForTarget Math_pow i) as [r|]; [|exact I].
  destruct (securityBudgetTargetUsd i) as [budget|]; [|exact I].
  repeat split.
Qed.

(** X15: BTC and USD figures agree.  For a finite fee revenue and a price
    other than zero, [dailyFeeRevenueBTC] times the price is
    [dailyFeeRevenueUSD], 144 times [feesPerBlockBTC] is
    [dailyFeeRevenueBTC], and [dailyFeeRevenueBTC] is [feesBtcPerDay] at the
    solved fee rate (exactly, rounding aside). *)
Theorem computeFullModel_btc_usd
    (Math_pow : num -> num -> num) (i : EconomicInputs) (flag : bool)
    (o : EconomicOutputs) (w : list string) (x : Q) :
  computeFullModel Math_pow i flag = Return (o, w) ->
  dailyFeeRevenueUSD o = Fin x -> ~ btcPrice i == 0 ->
  same (dailyFeeRevenueBTC o * Fin (btcPrice i))%num (dailyFeeRevenueUSD o)
  /\ same (feesPerBlockBTC o * Fin 144)%num (dailyFeeRevenueBTC o)
  /\ same (dailyFeeRevenueBTC o) (feesBtcPerDay Math_pow (optimalFeerate o) i).
Proof.
  unfold computeFullModel.
  destruct (solveFeerateForTarget Math_pow i) as [r|]; [|discriminate].
  destruct (securityBudgetTargetUsd i) as [budget|]; [|discriminate].
  intros H Hx HP. injection H as <- _.
  cbn [dailyFeeRevenueUSD dailyFeeRevenueBTC feesPerBlockBTC optimalFeerate] in *.
  unfold feesBtcPerDay.
  set (b := (feerate r * confirmedVbPerDay Math_pow (feerate r) i
             / Fin SATOSHIS_PER_BTC)%num) in *.
  rewrite Hx. unfold BLOCKS_PER_DAY.
  rewrite !div_Fin by (try exact HP; discriminate).
  destruct b as [y| | |]; cbn [mul] in Hx.
  - injection Hx as <-. cbn [mul same].
    repeat split; field; exact HP.
  - destruct (Qsign (btcPrice i)); discriminate Hx.
  - destruct (Qsign (btcPrice i)); discriminate Hx.
  - discriminate Hx.
Qed.

Lemma computeFullModel_btc_usd_witness :
  exists o w,
    computeFullModel pow_int (flatInputs (Some 2800000)) false = Return (o, w)
    /\ same (dailyFeeRevenueBTC o * Fin 100000)%num (dailyFeeRevenueUSD o).
Proof.
  destruct (computeFullModel pow_int (flatInputs (Some 2800000)) false)
    as [[o w]|] eqn:E; [|vm_compute in E; discriminate E].
  exists o, w. split; [reflexivity|].
  pose proof (fun x => computeFullModel_btc_usd pow_int
                         (flatInputs (Some 2800000)) false o w x E) as H.
  vm_compute in E. injection E as <- _.
  apply (H _ eq_refl). intros X; discriminate X.
Defined.

(** * The scenario sweep *)

Section Sweep.

Variable Math_pow : num -> num -> num.
Variable i : EconomicInputs.

Lemma computeFullModel_with_baselineFeerate (f : Q) (budget : value) :
  securityBudgetTargetUsd i = Return budget ->
  exists o w,
    computeFullModel Math_pow (with_baselineFeerate f i) false = Return (o, w)
    /\ securityBudgetTargetUSD o = budget.
Proof.
  intros Hb. unfold computeFullModel, solveFeerateForTarget.
  change (securityBudgetTargetUsd (with_baselineFeerate f i))
    with (securityBudgetTargetUsd i).
  rewrite Hb. do 2 eexists. split; reflexivity.
Qed.

Lemma scenario_loop_rows (budget : value) (feeRates : list Q) :
  securityBudgetTargetUsd i = Return budget ->
  forall acc log,
  exists rows log',
    scenario_loop Math_pow i feeRates acc log = Return (acc ++ rows, log')%list
    /\ map sc_feeRate rows = map Fin feeRates
    /\ Forall (fun row =>
                 sc_securityTarget row
                 = (ToNumber budget / Fin 1000000)%num) rows.
Proof.
  intros Hb. induction feeRates as [|f rest IH]; intros acc log.
  - exists [], log. rewrite app_nil_r. repeat split. constructor.
  - destruct (computeFullModel_with_baselineFeerate f budget Hb)
      as (o & w & Ho & Hs).
    cbn [scenario_loop]. rewrite Ho.
    match goal with
    | |- context [scenario_loop _ _ _ (acc ++ [?row]) ?lg] =>
        destruct (IH (acc ++ [row])%list lg) as (rows & log' & E & Hf & Ht);
        exists (row :: rows), log'
    end.
    rewrite E, <- app_assoc. split; [reflexivity|]. split.
    + cbn [map sc_feeRate]. rewrite Hf. reflexivity.
    + constructor; [cbn [sc_securityTarget]; rewrite Hs; reflexivity | exact Ht].
Qed.

End Sweep.

(** X16: the scenario sweep of the charts.  For a recognised mode
    [generateFeeScenarios] returns one row per fee rate of its list, in
    order (5, 10, 20, 50, 100, 200, 300, 500, 1000), and every row carries
    the same security target, the budget of the unchanged inputs in
    millions: the sweep replaces [baselineFeerate], which the budget does
    not read.  For any other mode the first pass throws. *)
Theorem generateFeeScenarios_rows
    (Math_pow : num -> num -> num) (i : EconomicInputs) :
  (recognised (securityBudgetMode i) ->
   exists budget rows log,
     securityBudgetTargetUsd i = Return budget
     /\ generateFeeScenarios Math_pow i = Return (rows, log)
     /\ map sc_feeRate rows = map Fin scenarioFeeRates
     /\ Forall (fun row =>
                  sc_securityTarget row
                  = (ToNumber budget / Fin 1000000)%num) rows)
  /\ (~ recognised (securityBudgetMode i) ->
      generateFeeScenarios Math_pow i = Throw "Invalid security budget mode").
Proof.
  split.
  - intros Hr. destruct (securityBudgetTargetUsd_returns i Hr) as [budget Hb].
    destruct (scenario_loop_rows Math_pow i budget scenarioFeeRates Hb [] [])
      as (rows & log & E & Hf & Ht).
    exists budget, rows, log. repeat split; assumption.
  - intros Hno. unfold generateFeeScenarios, scenarioFeeRates.
    cbn [scenario_loop]. unfold computeFullModel, solveFeerateForTarget.
    change (securityBudgetTargetUsd (with_baselineFeerate 5 i))
      with (securityBudgetTargetUsd i).
    rewrite (securityBudgetTargetUsd_unrecognised i Hno). reflexivity.
Qed.

Lemma generateFeeScenarios_rows_witness :
  (exists rows log,
     generateFeeScenarios pow_int (defaultInputs (-1)) = Return (rows, log)
     /\ List.length rows = 9%nat)
  /\ generateFeeScenarios pow_int bogusInputs
     = Throw "Invalid security budget mode".
Proof.
  split.
  - destruct (generateFeeScenarios_rows pow_int (defaultInputs (-1)))
      as (H & _).
    destruct H as (budget & rows & log & _ & E & Hf & _).
    { right; left; reflexivity. }
    exists rows, log. split; [exact E|].
    rewrite <- (length_map sc_feeRate), Hf. reflexivity.
  - apply (generateFeeScenarios_rows pow_int bogusInputs).
    unfold recognised; simpl. intros [H | [H | H]]; discriminate H.
Defined.

(** * Formatting helpers *)

Section FormattingProperties.

Variable toFixed : num -> nat -> string.

Lemma not_small_nonneg (r : num) :
  (Math_abs r <? Fin (5 # 1000))%num = false -> (r >=? Fin 0)%num = true ->
  (Fin (1 # 2) <=? r * Fin 100)%num = true.
Proof.
  unfold geb. destruct r as [q| | |]; cbn [Math_abs ltb leb mul];
    try discriminate; try reflexivity.
  intros Hs Hn. apply Qltb_ge in Hs. apply Qle_bool_iff in Hn.
  apply Qle_bool_iff. rewrite Qabs_pos in Hs by exact Hn. lra.
Qed.

(** X17: [fmtChange] and [pctChange] are the same function, and neither
    doubles a sign.  With a non-zero old value and a relative change [r]
    of at least 0.5% in size, the result is "+", the change in percent to
    one digit and "%" when [r >= 0], and then the number printed is at least
    0.5; otherwise it is the printed number and "%" with no sign added.  A
    zero old value gives the dash, a change under 0.5% gives "≈0%". *)
Theorem fmtChange_sign (newV oldV : num) :
  let r := ((newV - oldV) / oldV)%num in
  fmtChange toFixed newV oldV = pctChange toFixed newV oldV
  /\ (is_zero oldV = true -> fmtChange toFixed newV oldV = "—"%string)
  /\ (is_zero oldV = false ->
      ((Math_abs r <? Fin (5 # 1000))%num = true ->
       fmtChange toFixed newV oldV = "≈0%"%string)
      /\ ((Math_abs r <? Fin (5 # 1000))%num = false ->
          ((r >=? Fin 0)%num = true ->
           fmtChange toFixed newV oldV
           = ("+" ++ toFixed (r * Fin 100)%num 1 ++ "%")%string
           /\ (Fin (1 # 2) <=? r * Fin 100)%num = true)
          /\ ((r >=? Fin 0)%num = false ->
              fmtChange toFixed newV oldV
              = (toFixed (r * Fin 100)%num 1 ++ "%")%string))).
Proof.
  intros r. unfold fmtChange, pctChange. fold r.
  split; [reflexivity|]. split.
  - intros Hz. rewrite Hz. reflexivity.
  - intros Hz. rewrite Hz. split.
    + intros Hs. rewrite Hs. reflexivity.
    + intros Hs. rewrite Hs. split.
      * intros Hn. rewrite Hn. split; [reflexivity|].
        apply not_small_nonneg; assumption.
      * intros Hn. rewrite Hn. reflexivity.
Qed.

(** X18: [pctOfCurrent] shows every negative ratio as "<0.5%".  With a
    zero [current] the result is the dash whatever the value; with finite
    operands of opposite signs the ratio is below 0.005 and the result is
    "<0.5%", the same as for a small positive share. *)
Theorem pctOfCurrent_negative (v c : Q) :
  (c == 0 -> pctOfCurrent toFixed (Fin v) (Fin c) = "—"%string)
  /\ (v * c < 0 -> pctOfCurrent toFixed (Fin v) (Fin c) = "<0.5%"%string).
Proof.
  unfold pctOfCurrent, is_zero. split.
  - intros Hc. apply Qeq_bool_iff in Hc. rewrite Hc. reflexivity.
  - intros Hneg.
    assert (Hc : ~ c == 0) by (intros E; rewrite E in Hneg; lra).
    destruct (Qeq_bool c 0) eqn:E; [apply Qeq_bool_iff in E; contradiction|].
    rewrite div_Fin by exact Hc. cbn [ltb].
    assert (Hr : v / c < 5 # 1000).
    { assert (Hsq : 0 < c * c).
      { destruct (Qlt_le_dec 0 c) as [H | H]; [nra|].
        assert (c < 0) by (apply Qle_lteq in H; destruct H; [assumption | contradiction]).
        nra. }
      setoid_replace (v / c) with ((v * c) / (c * c)) by (field; exact Hc).
      apply Qlt_shift_div_r; [exact Hsq | nra]. }
    apply Qltb_lt in Hr. rewrite Hr. reflexivity.
Qed.

End FormattingProperties.

Lemma fmtChange_sign_witness :
  fmtChange (fun _ _ => "50.0"%string) (Fin 3) (Fin 2) = "+50.0%"%string
  /\ fmtChange (fun _ _ => "-50.0"%string) (Fin 1) (Fin 2) = "-50.0%"%string.
Proof.
  split.
  - apply (fmtChange_sign (fun _ _ => "50.0"%string) (Fin 3) (Fin 2));
      reflexivity.
  - apply (fmtChange_sign (fun _ _ => "-50.0"%string) (Fin 1) (Fin 2));
      reflexivity.
Defined.

Lemma pctOfCurrent_negative_witness :
  pctOfCurrent (fun _ _ => ""%string) (Fin (-3)) (Fin 2) = "<0.5%"%string.
Proof.
  apply (pctOfCurrent_negative (fun _ _ => ""%string) (-3) 2). reflexivity.
Defined.

(** * The mining economics calculator *)

Lemma with_default_value (f : option Q) (d : Q) :
  with_default f d = Fin (default_value f d).
Proof. destruct f; reflexivity. Qed.

Lemma leb_refl_Fin (q : Q) : (Fin q <=? Fin q)%num = true.
Proof. apply Qle_bool_iff, Qle_refl. Qed.

(** [Math.max(lo, Math.min(hi, v))] is a clamp. *)
Lemma clamp_between (lo hi : Q) (v : num) :
  lo <= hi ->
  NaN_or_between (Fin lo) (Fin hi) (Math_max (Fin lo) (Math_min (Fin hi) v)).
Proof.
  intros Hlh. unfold NaN_or_between.
  destruct v as [q| | |]; cbn [Math_min leb].
  - destruct (Qle_bool hi q) eqn:E1; cbn [Math_max leb].
    + apply Qle_bool_iff in Hlh as Hb. rewrite Hb. right.
      split; [exact Hb | apply leb_refl_Fin].
    + apply Qle_bool_gt in E1.
      destruct (Qle_bool lo q) eqn:E2; right; cbn [leb].
      * split; [exact E2 | apply Qle_bool_iff; lra].
      * split; [apply leb_refl_Fin | apply Qle_bool_iff; exact Hlh].
  - cbn [Math_max leb]. apply Qle_bool_iff in Hlh as Hb. rewrite Hb. right.
    split; [exact Hb | apply leb_refl_Fin].
  - cbn [Math_max leb]. right.
    split; [apply leb_refl_Fin | apply Qle_bool_iff; exact Hlh].
  - left; reflexivity.
Qed.

(** [Math.min(cap, v)] is at most the cap. *)
Lemma Math_min_cap (cap : Q) (v : num) :
  Math_min (Fin cap) v = NaN \/ (Math_min (Fin cap) v <=? Fin cap)%num = true.
Proof.
  destruct v as [q| | |]; cbn [Math_min leb].
  - right. destruct (Qle_bool cap q) eqn:E; cbn [leb].
    + apply leb_refl_Fin.
    + apply Qle_bool_gt in E. apply Qle_bool_iff. lra.
  - right. apply leb_refl_Fin.
  - right. reflexivity.
  - left; reflexivity.
Qed.

(** [Math.max(floor, v)] is at least the floor. *)
Lemma Math_max_floor (fl : Q) (v : num) :
  Math_max (Fin fl) v = NaN \/ (Fin fl <=? Math_max (Fin fl) v)%num = true.
Proof.
  destruct v as [q| | |]; cbn [Math_max leb].
  - right. destruct (Qle_bool fl q) eqn:E; cbn [leb].
    + exact E.
    + apply leb_refl_Fin.
  - right. reflexivity.
  - right. apply leb_refl_Fin.
  - left; reflexivity.
Qed.

(** X19: the clamps of [calculateMiningMetrics].  For every parameter
    object the profit margin is not a number or lies in [-1000, 1000], and
    it is the sentinel -100 when the daily revenue is not positive; the
    break-even price is [Infinity] (no BTC revenue), not a number, or at
    most 10,000,000; the months to return are [Infinity] (no profit), not a
    number, or at most 1200. *)
Theorem calculateMiningMetrics_clamps (params : MiningEconomicsCalculator.Params) :
  let m := MiningEconomicsCalculator.calculateMiningMetrics params in
  NaN_or_between (Fin (-1000)) (Fin 1000)
    (MiningEconomicsCalculator.profitMargin m)
  /\ ((MiningEconomicsCalculator.dailyRevenue m >? Fin 0)%num = false ->
      MiningEconomicsCalculator.profitMargin m = Fin (-100))
  /\ (MiningEconomicsCalculator.breakEvenPrice m = PInf
      \/ MiningEconomicsCalculator.breakEvenPrice m = NaN
      \/ (MiningEconomicsCalculator.breakEvenPrice m <=? Fin 10000000)%num
         = true)
  /\ (MiningEconomicsCalculator.roiMonths m = PInf
      \/ MiningEconomicsCalculator.roiMonths m = NaN
      \/ (MiningEconomicsCalculator.roiMonths m <=? Fin 1200)%num = true)
  /\ ((MiningEconomicsCalculator.dailyProfit m >? Fin 0)%num = false ->
      MiningEconomicsCalculator.roiMonths m = PInf).
Proof.
  intros m. unfold m, MiningEconomicsCalculator.calculateMiningMetrics.
  cbn [MiningEconomicsCalculator.profitMargin
       MiningEconomicsCalculator.dailyRevenue
       MiningEconomicsCalculator.breakEvenPrice
       MiningEconomicsCalculator.roiMonths
       MiningEconomicsCalculator.dailyProfit].
  split; [|split; [|split; [|split]]].
  - destruct (_ >? _)%num.
    + apply clamp_between. discriminate.
    + right. split; reflexivity.
  - intros H. rewrite H. reflexivity.
  - destruct (_ >? _)%num; [|left; reflexivity].
    right. apply Math_min_cap.
  - destruct (_ >? _)%num; [|left; reflexivity].
    right. apply Math_min_cap.
  - intros H. rewrite H. reflexivity.
Qed.

Lemma calculateMiningMetrics_clamps_witness :
  let m := MiningEconomicsCalculator.calculateMiningMetrics
             (MiningEconomicsCalculator.mkParams
                2000000000000000000 400000000000000000000 100000 0 4000000
                None None None) in
  MiningEconomicsCalculator.profitMargin m = Fin (-100)
  /\ MiningEconomicsCalculator.roiMonths m = PInf.
Proof.
  intros m.
  destruct (calculateMiningMetrics_clamps
              (MiningEconomicsCalculator.mkParams
                 2000000000000000000 400000000000000000000 100000 0 4000000
                 None None None)) as (_ & H1 & _ & _ & H2).
  split; [apply H1 | apply H2]; reflexivity.
Defined.

(** X20: a pool without positive revenue is always shown as "Severely
    Unprofitable".  When the daily revenue of [calculateMiningMetrics] is
    not positive, its profit margin is the sentinel -100, and
    [formatProfitability] maps it, like a margin that is not a number,
    to the last branch. *)
Theorem no_revenue_is_severely_unprofitable
    (params : MiningEconomicsCalculator.Params) :
  let m := MiningEconomicsCalculator.calculateMiningMetrics params in
  (MiningEconomicsCalculator.dailyRevenue m >? Fin 0)%num = false
  \/ MiningEconomicsCalculator.profitMargin m = NaN ->
  formatProfitability (MiningEconomicsCalculator.profitMargin m)
  = ("Severely Unprofitable", "text-red-400", unprofitable)%string.
Proof.
  intros m [H | H].
  - assert (E : MiningEconomicsCalculator.profitMargin m = Fin (-100)).
    { unfold m, MiningEconomicsCalculator.calculateMiningMetrics.
      cbn [MiningEconomicsCalculator.profitMargin].
      unfold m, MiningEconomicsCalculator.calculateMiningMetrics in H.
      cbn [MiningEconomicsCalculator.dailyRevenue] in H.
      rewrite H. reflexivity. }
    rewrite E. reflexivity.
  - rewrite H. reflexivity.
Qed.

Lemma no_revenue_is_severely_unprofitable_witness :
  formatProfitability
    (MiningEconomicsCalculator.profitMargin
       (MiningEconomicsCalculator.calculateMiningMetrics
          (MiningEconomicsCalculator.mkParams
             2000000000000000000 400000000000000000000 100000 0 4000000
             None None None)))
  = ("Severely Unprofitable", "text-red-400", unprofitable)%string.
Proof.
  apply (no_revenue_is_severely_unprofitable
           (MiningEconomicsCalculator.mkParams
              2000000000000000000 400000000000000000000 100000 0 4000000
              None None None)).
  left. reflexivity.
Defined.

(** X21: rounding aside, [calculateNetworkEconomics] always describes a
    pool with a tenth of the network.  In exact arithmetic, for every
    network hashrate other than zero the market share it reports is 10
    (percent) and the blocks mined per day 14.4, whatever the other
    parameters are. *)
Theorem calculateNetworkEconomics_share
    (networkHashrate btcPrice avgFeeRate blockSize : Q)
    (electricityCost : option Q) :
  ~ networkHashrate == 0 ->
  let m := MiningEconomicsCalculator.calculateNetworkEconomics
             networkHashrate btcPrice avgFeeRate blockSize electricityCost in
  same (MiningEconomicsCalculator.marketShare m) (Fin 10)
  /\ same (MiningEconomicsCalculator.dailyBlocks m) (Fin (144 # 10)).
Proof.
  intros HN m.
  unfold m, MiningEconomicsCalculator.calculateNetworkEconomics,
    MiningEconomicsCalculator.calculateMiningMetrics.
  cbn [MiningEconomicsCalculator.marketShare
       MiningEconomicsCalculator.dailyBlocks
       MiningEconomicsCalculator.poolHashrate
       MiningEconomicsCalculator.networkHashrate].
  rewrite !(div_Fin _ 1000000000000) by discriminate.
  assert (HT : ~ networkHashrate / 1000000000000 == 0).
  { intros E. apply HN.
    setoid_replace networkHashrate
      with (networkHashrate / 1000000000000 * 1000000000000) by field.
    rewrite E. ring. }
  rewrite !div_Fin by exact HT.
  cbn [mul same]. split; field; exact HN.
Qed.

Lemma calculateNetworkEconomics_share_witness :
  same (MiningEconomicsCalculator.marketShare
          (MiningEconomicsCalculator.calculateNetworkEconomics
             400000000000000000000 100000 12 4000000 None))
       (Fin 10).
Proof.
  apply (calculateNetworkEconomics_share
           400000000000000000000 100000 12 4000000 None).
  intros X; discriminate X.
Defined.

(** X22: the modules agree on the fee revenue of a block.  The
    [feesPerBlockUSD] of [analyzeFeeMarket] is [calculateMinerRevenue] of
    the same fee rate, block size and price, computed by the same
    operations in the same order, and its [dailyFeeRevenue] is 144 times
    that.  Rounding aside, the [dailyRevenue] of [calculateMiningMetrics]
    is the pool's [dailyBlocks] times [calculateMinerRevenue], for every
    network hashrate other than zero: there the products are taken in
    another order, so the equality is one of exact arithmetic. *)
Theorem fee_revenue_agrees
    (fp : FeeAnalyzer.Params) (mp : MiningEconomicsCalculator.Params) :
  ~ MiningEconomicsCalculator.networkHashrate mp == 0 ->
  let a := FeeAnalyzer.analyzeFeeMarket fp in
  let m := MiningEconomicsCalculator.calculateMiningMetrics mp in
  FeeAnalyzer.feesPerBlockUSD a
  = calculateMinerRevenue (Fin (FeeAnalyzer.avgFeeRate fp))
      (Fin (FeeAnalyzer.blockSize fp)) (Fin (FeeAnalyzer.btcPrice fp))
  /\ FeeAnalyzer.dailyFeeRevenue a
     = (calculateMinerRevenue (Fin (FeeAnalyzer.avgFeeRate fp))
          (Fin (FeeAnalyzer.blockSize fp)) (Fin (FeeAnalyzer.btcPrice fp))
        * Fin 144)%num
  /\ same (MiningEconomicsCalculator.dailyRevenue m)
          (MiningEconomicsCalculator.dailyBlocks m
           * calculateMinerRevenue
               (Fin (MiningEconomicsCalculator.avgFeeRate mp))
               (Fin (MiningEconomicsCalculator.blockSize mp))
               (Fin (MiningEconomicsCalculator.btcPrice mp)))%num.
Proof.
  intros HN a m. split; [reflexivity|]. split; [reflexivity|].
  unfold m, MiningEconomicsCalculator.calculateMiningMetrics,
    calculateMinerRevenue.
  cbn [MiningEconomicsCalculator.dailyRevenue
       MiningEconomicsCalculator.dailyBlocks].
  rewrite !(div_Fin _ 1000000000000) by discriminate.
  assert (HT : ~ MiningEconomicsCalculator.networkHashrate mp
                 / 1000000000000 == 0).
  { intros E. apply HN.
    setoid_replace (MiningEconomicsCalculator.networkHashrate mp)
      with (MiningEconomicsCalculator.networkHashrate mp
            / 1000000000000 * 1000000000000) by field.
    rewrite E. ring. }
  rewrite !div_Fin by exact HT.
  cbn [mul]. rewrite !div_Fin by discriminate.
  cbn [mul same]. ring.
Qed.

Lemma fee_revenue_agrees_witness :
  same (MiningEconomicsCalculator.dailyRevenue
          (MiningEconomicsCalculator.calculateMiningMetrics
             (MiningEconomicsCalculator.mkParams
                2000000000000000000 400000000000000000000 100000 12 4000000
                None None None)))
       (MiningEconomicsCalculator.dailyBlocks
          (MiningEconomicsCalculator.calculateMiningMetrics
             (MiningEconomicsCalculator.mkParams
                2000000000000000000 400000000000000000000 100000 12 4000000
                None None None))
        * calculateMinerRevenue (Fin 12) (Fin 4000000) (Fin 100000))%num.
Proof.
  apply (fee_revenue_agrees
           (FeeAnalyzer.mkParams 12 35000 4000000 100000
              400000000000000000000 None)
           (MiningEconomicsCalculator.mkParams
              2000000000000000000 400000000000000000000 100000 12 4000000
              None None None)).
  intros X; discriminate X.
Defined.

(** The value of [calculateHashrateSustainability] for a non-negative
    electricity cost: the daily cost of a TH/s is positive. *)
Lemma calculateHashrateSustainability_value (P f s : Q) (e tm : option Q) :
  0 <= default_value e (8 # 100) ->
  exists c, 0 < c /\
  forall P',
  MiningEconomicsCalculator.calculateHashrateSustainability P' f s e tm
  = Math_max (Fin 0)
      (Fin (144 * (f * s / 100000000) * P'
            * ((100 - default_value tm 10) / 100) / c * 1000000000000)).
Proof.
  intros He.
  set (ev := default_value e (8 # 100)) in *.
  exists (25 / 1000 * 24 * ev + 25 / 1000 * 24 * ev * (3 # 10)
          + ((1 # 10) + (5 # 100) + (15 # 100))).
  assert (Hc : 0 < 25 / 1000 * 24 * ev + 25 / 1000 * 24 * ev * (3 # 10)
                   + ((1 # 10) + (5 # 100) + (15 # 100))).
  { unfold Qdiv. change (/ 1000) with (1 # 1000). lra. }
  split; [exact Hc|]. intros P'.
  unfold MiningEconomicsCalculator.calculateHashrateSustainability.
  rewrite !with_default_value. fold ev.
  cbn [mul add sub neg].
  rewrite !div_Fin by discriminate.
  cbn [mul add sub neg].
  rewrite div_Fin by lra.
  reflexivity.
Qed.



(** * The fee analyzer *)



Lemma Qfloor_unit (x : Q) : 0 <= x -> x < 1 -> Qfloor x = 0%Z.
Proof.
  intros H0 H1.
  pose proof (Qfloor_le x) as Hle. pose proof (Qlt_floor x) as Hlt.
  assert (Hz1 : (Qfloor x < 1)%Z).
  { rewrite Zlt_Qlt. change (inject_Z 1) with 1. lra. }
  assert (Hz2 : (0 < Qfloor x + 1)%Z).
  { rewrite Zlt_Qlt. change (inject_Z 0) with 0. lra. }
  lia.
Qed.

(** X25: bounds of [analyzeFeeMarket].  The low-priority fee is finite and
    never below 1 sat/vB; the sustainable throughput is not a number or at
    least 0.1 tx/s; and for a block size from 0 up to, but not including,
    250 bytes no transaction fits a block, so the average fee per
    transaction is a division by zero: [Infinity] or [NaN], never a finite
    number. *)
Theorem analyzeFeeMarket_bounds (p : FeeAnalyzer.Params) :
  let a := FeeAnalyzer.analyzeFeeMarket p in
  (exists l, FeeAnalyzer.lowPriorityFee a = Fin l /\ 1 <= l)
  /\ (FeeAnalyzer.sustainableTxThroughput a = NaN
      \/ (Fin (1 # 10) <=? FeeAnalyzer.sustainableTxThroughput a)%num = true)
  /\ (0 <= FeeAnalyzer.blockSize p -> FeeAnalyzer.blockSize p < 250 ->
      ~ is_finite (FeeAnalyzer.avgFeePerTransaction a)).
Proof.
  intros a. unfold a, FeeAnalyzer.analyzeFeeMarket.
  cbn [FeeAnalyzer.lowPriorityFee FeeAnalyzer.sustainableTxThroughput
       FeeAnalyzer.avgFeePerTransaction].
  split; [|split].
  - cbn [mul Math_max leb].
    destruct (Qle_bool 1 (FeeAnalyzer.avgFeeRate p * (3 # 10))) eqn:E.
    + eexists. split; [reflexivity | apply Qle_bool_iff, E].
    + exists 1. split; [reflexivity | apply Qle_refl].
  - apply Math_max_floor.
  - intros H0 H250.
    rewrite (div_Fin (FeeAnalyzer.blockSize p) 250) by discriminate.
    cbn [Math_floor].
    rewrite Qfloor_unit.
    + cbn [mul]. rewrite (div_Fin _ 100000000) by discriminate.
      cbn [mul div]. change (Qsign (inject_Z 0)) with Zero.
      destruct (Qsign _); intros H; exact H.
    + apply Qle_shift_div_l; lra.
    + apply Qlt_shift_div_r; lra.
Qed.

Lemma analyzeFeeMarket_bounds_witness :
  ~ is_finite
      (FeeAnalyzer.avgFeePerTransaction
         (FeeAnalyzer.analyzeFeeMarket
            (FeeAnalyzer.mkParams 12 35000 200 100000
               400000000000000000000 None))).
Proof.
  apply (analyzeFeeMarket_bounds
           (FeeAnalyzer.mkParams 12 35000 200 100000
              400000000000000000000 None)).
  - intros X; discriminate X.
  - reflexivity.
Defined.

Lemma Math_min_cap_r (cap : Q) (v : num) :
  Math_min v (Fin cap) = NaN \/ (Math_min v (Fin cap) <=? Fin cap)%num = true.
Proof.
  destruct v as [q| | |]; cbn [Math_min leb].
  - right. destruct (Qle_bool q cap) eqn:E; cbn [leb].
    + exact E.
    + apply leb_refl_Fin.
  - right. apply leb_refl_Fin.
  - right. reflexivity.
  - left; reflexivity.
Qed.



(** * A required field that is missing *)

(** C4 (the code at the failing inputs): when the mode is one of the three
    recognised ones and a field it requires is missing, no call fails.
    [securityBudgetTargetUsd] returns [undefined] in mode [absolute_usd]
    and [NaN] in the two product modes; [solveFeerateForTarget] returns the
    search ceiling, 100000 sat/vB, with [targetMet = false], a gap that is
    not a number and [targetFeesUsd = NaN]; and [computeFullModel], under
    either flag, returns an output record with that fee rate and budget
    instead of raising a configuration error. *)
Theorem missing_field_is_not_rejected
    (Math_pow : num -> num -> num) (i : EconomicInputs) :
  required_field_missing i ->
  exists budget r,
    securityBudgetTargetUsd i = Return budget
    /\ (securityBudgetMode i = "absolute_usd"%string -> budget = Undefined)
    /\ (securityBudgetMode i <> "absolute_usd"%string -> budget = Number NaN)
    /\ solveFeerateForTarget Math_pow i = Return r
    /\ feerate r = Fin 100000 /\ targetMet r = false /\ gap r = NaN
    /\ targetFeesUsd r = NaN
    /\ forall flag, exists o w,
         computeFullModel Math_pow i flag = Return (o, w)
         /\ optimalFeerate o = Fin 100000
         /\ securityBudgetTargetUSD o = budget
         /\ info_targetMet (solverInfo o) = false
         /\ info_targetFeesUsd (solverInfo o) = NaN.
Proof.
  intros H.
  assert (Hb : exists budget,
             securityBudgetTargetUsd i = Return budget
             /\ ToNumber budget = NaN
             /\ (securityBudgetMode i = "absolute_usd"%string ->
                 budget = Undefined)
             /\ (securityBudgetMode i <> "absolute_usd"%string ->
                 budget = Number NaN)).
  { unfold securityBudgetTargetUsd.
    destruct H as [[Hm Hf] | [[Hm Hf] | [Hm Hf]]]; rewrite Hm; simpl.
    - destruct Hf as [Hf | Hf]; rewrite Hf; eexists;
        (split; [reflexivity|]); simpl.
      + repeat split; try reflexivity. intros X; discriminate X.
      + destruct (of_field (alpha i)) as [|[]]; repeat split;
          try reflexivity; intros X; discriminate X.
    - destruct Hf as [Hf | Hf]; rewrite Hf; eexists;
        (split; [reflexivity|]); simpl.
      + repeat split; try reflexivity. intros X; discriminate X.
      + destruct (of_field (beta i)) as [|[]]; repeat split;
          try reflexivity; intros X; discriminate X.
    - rewrite Hf. eexists. split; [reflexivity|]. simpl.
      repeat split; try reflexivity. intros X. contradiction X. reflexivity. }
  destruct Hb as (budget & Hb & Hn & Habs & Hprod).
  destruct (solve_degenerate Math_pow i budget Hb) as (r & Hr & Hf & Hm & Hg & _).
  { rewrite Hn. exact I. }
  assert (Ht : targetFeesUsd r = NaN).
  { rewrite (solveFeerateForTarget_target Math_pow i r budget Hr Hb), Hn.
    reflexivity. }
  exists budget, r. repeat split; try assumption.
  intros flag.
  destruct (computeFullModel_returns Math_pow i flag r budget Hr Hb)
    as (o & w & E & Ef & _ & _ & _ & Es).
  exists o, w. split; [exact E|].
  destruct (computeFullModel_outputs Math_pow i flag o w E)
    as (r' & budget' & _ & Hb' & Eb & _).
  assert (budget' = budget) by congruence. subst budget'.
  rewrite Ef, Es, Hf. cbn [info_targetMet info_targetFeesUsd].
  repeat split; assumption.
Qed.

(** C4 at the default record without [alpha], in mode [percent_of_2025]:
    the budget is [NaN], nothing is thrown, and the solver returns
    100000 sat/vB. *)
Lemma missing_field_is_not_rejected_witness :
  exists budget r,
    securityBudgetTargetUsd (with_alpha None (defaultInputs (-1)))
    = Return budget
    /\ budget = Number NaN
    /\ solveFeerateForTarget pow_int (with_alpha None (defaultInputs (-1)))
       = Return r
    /\ feerate r = Fin 100000 /\ targetMet r = false /\ gap r = NaN
    /\ targetFeesUsd r = NaN
    /\ exists o w,
         computeFullModel pow_int (with_alpha None (defaultInputs (-1))) false
         = Return (o, w).
Proof.
  destruct (missing_field_is_not_rejected pow_int
              (with_alpha None (defaultInputs (-1))))
    as (budget & r & Hb & _ & Hprod & Hr & Hf & Hm & Hg & Ht & Hc).
  - left. split; [reflexivity | left; reflexivity].
  - exists budget, r. repeat split; try assumption.
    + apply Hprod. intros X; discriminate X.
    + destruct (Hc false) as (o & w & E & _). exists o, w. exact E.
Defined.

(** * Reward inclusion *)

Section Reward.

Variable Math_pow : num -> num -> num.
Variable i : EconomicInputs.

Hypothesis data_model : well_formed i.
Hypothesis pow_number : pow_is_number Math_pow (elasticity i).

(** The confirmed volume at a positive fee rate is finite, between zero
    and the daily block space. *)
Lemma confirmedVbPerDay_bounds (f : Q) :
  0 < f ->
  exists c, confirmedVbPerDay Math_pow (Fin f) i = Fin c
            /\ 0 <= c /\ c <= supplyVbPerDay i.
Proof.
  intros Hf.
  destruct data_model as (HP & Hf0 & Hd & Hb & Hl & _).
  assert (Hs : 0 <= supplyVbPerDay i) by (unfold supplyVbPerDay; lra).
  assert (Hx : 0 < f / baselineFeerate i)
    by (apply Qlt_shift_div_l; [exact Hf0 | lra]).
  assert (Hc : 0 < baselineDemandVbDay i / batching i)
    by (apply Qlt_shift_div_l; lra).
  assert (Ed : demandVbPerDay Math_pow (Fin f) i
               = (Fin (baselineDemandVbDay i / batching i)
                  * Math_pow (Fin (f / baselineFeerate i))
                      (Fin (elasticity i)))%num).
  { unfold demandVbPerDay, batching.
    rewrite (div_Fin f (baselineFeerate i)) by lra.
    unfold batching in Hb.
    destruct (batchingFactor i) as [b|]; cbn [of_field];
      rewrite div_Fin by lra; reflexivity. }
  unfold confirmedVbPerDay. rewrite Ed.
  unfold blockLimitVb, BLOCKS_PER_DAY. cbn [mul].
  change (blockLimitMB i * 1000000 * 144) with (supplyVbPerDay i).
  destruct (pow_number _ Hx) as [E | (y & E & Hy)]; rewrite E.
  - cbn [mul scale_inf].
    rewrite (Qsign_pos _ Hc). cbn [scale_inf Math_min leb].
    exists (supplyVbPerDay i). repeat split; [exact Hs | apply Qle_refl].
  - cbn [mul Math_min leb].
    destruct (Qle_bool _ _) eqn:El.
    + apply Qle_bool_iff in El. eexists. split; [reflexivity|].
      split; [|exact El]. apply Qmult_le_0_compat; lra.
    + exists (supplyVbPerDay i). repeat split; [exact Hs | apply Qle_refl].
Qed.

(** So the fee revenue at a fee rate of the search domain is finite, not
    negative, and at most the revenue of full blocks at the ceiling. *)
Lemma feesUsdPerDay_bounds (f : Q) :
  1 <= f -> f <= 100000 ->
  exists x, feesUsdPerDay Math_pow (Fin f) i = Fin x
            /\ 0 <= x /\ x <= blockLimitMB i * 144000 * btcPrice i.
Proof.
  intros H1 H2.
  destruct (confirmedVbPerDay_bounds f ltac:(lra)) as (c & Ec & Hc0 & Hc1).
  destruct data_model as (HP & _).
  unfold feesUsdPerDay, usd. rewrite Ec. cbn [mul].
  unfold SATOSHIS_PER_BTC. rewrite div_Fin by discriminate. cbn [mul].
  eexists. split; [reflexivity|].
  unfold supplyVbPerDay in Hc1.
  assert (Hfc : 0 <= f * c) by (apply Qmult_le_0_compat; lra).
  assert (Hfc' : f * c <= 100000 * (blockLimitMB i * 1000000 * 144)) by nra.
  unfold Qdiv. change (/ 100000000) with (1 # 100000000).
  split.
  - apply Qmult_le_0_compat; [|lra]. lra.
  - assert (f * c * (1 # 100000000) <= blockLimitMB i * 144000) by lra.
    nra.
Qed.

End Reward.


(** Outside the data model the revenue need not be a number: with no
    baseline demand and a zero batching factor the demand is [0 / 0], both
    revenues and both hashrates are [NaN], and neither is larger than the
    other. *)
Example computeFullModel_without_demand :
  0 < btcPrice noDemandInputs /\ 0 < costPerTHDay noDemandInputs
  /\ 0 <= margin noDemandInputs
  /\ exists o0 w0 o1 w1,
       computeFullModel pow_int noDemandInputs false = Return (o0, w0)
       /\ computeFullModel pow_int noDemandInputs true = Return (o1, w1)
       /\ networkRevenueUSD o0 = NaN /\ networkRevenueUSD o1 = NaN
       /\ (networkRevenueUSD o0 <? networkRevenueUSD o1)%num = false
       /\ (out_equilibriumHashrateTH o0 <? out_equilibriumHashrateTH o1)%num
          = false.
Proof.
  split; [reflexivity|]. split; [reflexivity|]. split; [discriminate|].
  destruct (computeFullModel pow_int noDemandInputs false) as [[o0 w0]|] eqn:E0;
    [|vm_compute in E0; discriminate].
  destruct (computeFullModel pow_int noDemandInputs true) as [[o1 w1]|] eqn:E1;
    [|vm_compute in E1; discriminate].
  exists o0, w0, o1, w1.
  vm_compute in E0. vm_compute in E1.
  injection E0 as <- _. injection E1 as <- _.
  repeat split; reflexivity.
Qed.

Lemma pow_int_is_number_zero : pow_is_number pow_int 0.
Proof.
  intros x Hx. right. exists 1. split; [|discriminate].
  apply pow_int_zero_exponent.
Qed.


(** * The program on binary64 numbers *)

Section Rounding.

Import PrimFloat.
Local Open Scope float_scope.


(** The order of the fee revenue in double precision.  At the default
    record with elasticity -1 the exact revenue is constant wherever the
    demand is under the capacity; the doubles differ in their last digit,
    and the revenue at 87500.125 sat/vB is above the revenue at
    93750.0625 sat/vB. *)
Lemma feesUsdPerDay_binary64_order :
  Binary64.feesUsdPerDay Binary64.pow_unit 87500.125
    (Binary64.defaultInputs (-1)) = 2921739.1304347836
  /\ Binary64.feesUsdPerDay Binary64.pow_unit 93750.0625
       (Binary64.defaultInputs (-1)) = 2921739.1304347832
  /\ (Binary64.feesUsdPerDay Binary64.pow_unit 87500.125
        (Binary64.defaultInputs (-1))
      <=? Binary64.feesUsdPerDay Binary64.pow_unit 93750.0625
            (Binary64.defaultInputs (-1))) = false.
Proof. repeat split; vm_compute; reflexivity. Qed.

(** A budget far out of reach in double precision.  With a flat record
    the revenue is strictly increasing, yet against a budget of 10^20 USD
    a day the relative gaps of the later midpoints round to the same
    double and the solver returns 99999.952..., and against 10^30 USD a day
    every gap rounds to 1 and it returns the first midpoint,
    50000.5 sat/vB. *)
Lemma solveFeerateForTarget_binary64_unreachable :
  (exists r,
     Binary64.solveFeerateForTarget Binary64.pow_unit
       (Binary64.flatInputs 1e20) = Return r
     /\ Binary64.feerate r = 99999.952316761017
     /\ Binary64.targetMet r = false)
  /\ (exists r,
        Binary64.solveFeerateForTarget Binary64.pow_unit
          (Binary64.flatInputs 1e30) = Return r
        /\ Binary64.feerate r = 50000.5
        /\ Binary64.gap r = -1
        /\ Binary64.targetMet r = false).
Proof.
  split; eexists; (split; [vm_compute; reflexivity|]);
    repeat split; vm_compute; reflexivity.
Qed.

(** The derived figures in double precision.  The pool's profit margin and
    the break-even price change in their last digits with the pool share,
    and a demand that fits the block space leaves a backlog one unit in
    the last place below the existing 25,000,000 vB: [(B + d) - d] is not
    [B]. *)
Lemma computeFullModel_binary64_rounding :
  (exists o w o' w',
     Binary64.computeFullModel Binary64.pow_unit
       (Binary64.flatInputs 2800000) false = Return (o, w)
     /\ Binary64.computeFullModel Binary64.pow_unit
          (Binary64.with_poolShare 0.3 (Binary64.flatInputs 2800000)) false
        = Return (o', w')
     /\ Binary64.poolProfitMargin o = 0.096657633242999058
     /\ Binary64.poolProfitMargin o' = 0.096657633242999169
     /\ Binary64.breakEvenBTCPrice o = 90334.2366757001
     /\ Binary64.breakEvenBTCPrice o' = 90334.236675700085)
  /\ (exists o w,
        Binary64.computeFullModel Binary64.pow_unit
          (Binary64.demandInputs 25050299.94) false = Return (o, w)
        /\ Binary64.out_demandVbPerDay o = Binary64.out_confirmedVbPerDay o
        /\ Binary64.out_backlogVb o = 24999999.999999996
        /\ (Binary64.out_backlogVb o
            <? Binary64.backlogVb (Binary64.demandInputs 25050299.94))
           = true).
Proof.
  split.
  - do 4 eexists.
    split; [vm_compute; reflexivity|].
    split; [vm_compute; reflexivity|].
    repeat split; vm_compute; reflexivity.
  - do 2 eexists.
    split; [vm_compute; reflexivity|].
    repeat split; vm_compute; reflexivity.
Qed.

End Rounding.

(** * The fee scenarios of the analyzer *)

Lemma scenario_confirm_time (d : Q) :
  let t := Math_max (Fin 10) (Fin 600 / (Fin 7 * Fin d))%num in
  (Fin 10 <=? t)%num = true
  /\ (d == 0 -> t = PInf)
  /\ (d < 0 \/ 60 # 7 <= d -> same t (Fin 10))
  /\ (0 < d -> exists q, t = Fin q /\ 600 / (7 * d) <= q
                         /\ (q == 10 \/ q == 600 / (7 * d))).
Proof.
  cbn zeta. cbn [mul].
  destruct (Qeq_dec d 0) as [E0 | N0].
  - assert (Es : Qsign (7 * d) = Zero)
      by (apply Qsign_zero; rewrite E0; reflexivity).
    cbn [div]. rewrite Es. cbn [Qsign Qnum Math_max leb].
    split; [reflexivity|]. split; [reflexivity|]. split.
    + intros [H | H]; rewrite E0 in H;
        [discriminate H | exfalso; apply H; reflexivity].
    + intros H. rewrite E0 in H. discriminate H.
  - assert (N7 : ~ 7 * d == 0) by (intros E; apply N0; lra).
    rewrite div_Fin by exact N7. cbn [Math_max leb].
    destruct (Qle_bool 10 (600 / (7 * d))) eqn:E.
    + apply Qle_bool_iff in E.
      split; [apply Qle_bool_iff, E|].
      split; [intros H; contradiction|]. split.
      * intros [H | H]; cbn [same].
        -- exfalso. assert (H7 : 7 * d < 0) by lra.
           assert (Hq : 600 / (7 * d) <= 0).
           { setoid_replace (600 / (7 * d)) with (- (600 / - (7 * d)))
               by (field; exact N0).
             assert (0 < 600 / - (7 * d))
               by (apply Qlt_shift_div_l; lra).
             lra. }
           lra.
        -- apply Qle_antisym; [|exact E].
           apply Qle_shift_div_r; lra.
      * intros Hd. eexists. split; [reflexivity|].
        split; [apply Qle_refl | right; reflexivity].
    + apply Qle_bool_gt in E.
      split; [apply leb_refl_Fin|].
      split; [intros H; contradiction|]. split.
      * intros _. cbn [same]. reflexivity.
      * intros Hd. exists 10. split; [reflexivity|].
        split; [lra | left; reflexivity].
Qed.

(** X27: the rows of [calculateFeeScenarios].  The result has one row per
    scenario, in order, with the scenario's name and demand multiplier.
    The confirmation time of a row is never below 10 minutes and never
    [NaN]; it is [Infinity] for a demand multiplier of zero and 10 for a
    negative one and for one of 60/7 or more.  And it does not rise with
    the demand: of two scenarios with positive demand multipliers, the one
    with more demand is given the shorter or equal time. *)
Theorem calculateFeeScenarios_rows
    (baseFeeRate btcPrice blockSize : Q) (scenarios : list FeeAnalyzer.Scenario) :
  let rows := FeeAnalyzer.calculateFeeScenarios baseFeeRate btcPrice blockSize
                scenarios in
  map FeeAnalyzer.r_name rows = map FeeAnalyzer.name scenarios
  /\ map FeeAnalyzer.r_demandMultiplier rows
     = map (fun sc => Fin (FeeAnalyzer.demandMultiplier sc)) scenarios
  /\ (forall n sc r,
        nth_error scenarios n = Some sc -> nth_error rows n = Some r ->
        (Fin 10 <=? FeeAnalyzer.r_avgConfirmTime r)%num = true
        /\ (FeeAnalyzer.demandMultiplier sc == 0 ->
            FeeAnalyzer.r_avgConfirmTime r = PInf)
        /\ (FeeAnalyzer.demandMultiplier sc < 0
            \/ 60 # 7 <= FeeAnalyzer.demandMultiplier sc ->
            same (FeeAnalyzer.r_avgConfirmTime r) (Fin 10)))
  /\ (forall n n' sc sc' r r',
        nth_error scenarios n = Some sc -> nth_error rows n = Some r ->
        nth_error scenarios n' = Some sc' -> nth_error rows n' = Some r' ->
        0 < FeeAnalyzer.demandMultiplier sc ->
        FeeAnalyzer.demandMultiplier sc <= FeeAnalyzer.demandMultiplier sc' ->
        (FeeAnalyzer.r_avgConfirmTime r' <=? FeeAnalyzer.r_avgConfirmTime r)%num
        = true).
Proof.
  intros rows. unfold rows, FeeAnalyzer.calculateFeeScenarios.
  assert (Hrow : forall n sc r,
            nth_error scenarios n = Some sc ->
            nth_error
              (FeeAnalyzer.calculateFeeScenarios baseFeeRate btcPrice blockSize
                 scenarios) n = Some r ->
            FeeAnalyzer.r_avgConfirmTime r
            = Math_max (Fin 10)
                (Fin 600 / (Fin 7 * Fin (FeeAnalyzer.demandMultiplier sc)))%num).
  { intros n sc r Hs Hr. unfold FeeAnalyzer.calculateFeeScenarios in Hr.
    rewrite nth_error_map, Hs in Hr. cbn [option_map] in Hr.
    injection Hr as <-. reflexivity. }
  unfold FeeAnalyzer.calculateFeeScenarios in Hrow.
  split; [|split; [|split]].
  - rewrite map_map. reflexivity.
  - rewrite map_map. reflexivity.
  - intros n sc r Hs Hr. rewrite (Hrow n sc r Hs Hr).
    destruct (scenario_confirm_time (FeeAnalyzer.demandMultiplier sc))
      as (H1 & H2 & H3 & _).
    repeat split; assumption.
  - intros n n' sc sc' r r' Hs Hr Hs' Hr' Hpos Hle.
    rewrite (Hrow n sc r Hs Hr), (Hrow n' sc' r' Hs' Hr').
    set (d := FeeAnalyzer.demandMultiplier sc) in *.
    set (d' := FeeAnalyzer.demandMultiplier sc') in *.
    pose proof (scenario_confirm_time d) as Hd. cbn zeta in Hd.
    pose proof (scenario_confirm_time d') as Hd'. cbn zeta in Hd'.
    destruct Hd as (Hlow & _ & _ & H4).
    destruct Hd' as (_ & _ & _ & H4').
    destruct (H4 Hpos) as (q & Eq & Hq & _).
    destruct (H4' ltac:(lra)) as (q' & Eq' & _ & Hq').
    rewrite Eq in Hlow. rewrite Eq, Eq'.
    cbn [leb] in *. apply Qle_bool_iff in Hlow. apply Qle_bool_iff.
    assert (Hmono : 600 / (7 * d') <= 600 / (7 * d)).
    { apply Qle_shift_div_r; [lra|].
      setoid_replace (600 / (7 * d) * (7 * d'))
        with (600 * (d' / d)) by (field; lra).
      assert (1 <= d' / d) by (apply Qle_shift_div_l; lra).
      lra. }
    destruct Hq' as [E | E]; rewrite E; lra.
Qed.

Lemma calculateFeeScenarios_rows_witness :
  exists r r',
    FeeAnalyzer.calculateFeeScenarios 12 100000 4000000
      [FeeAnalyzer.mkScenario "calm" 1 1; FeeAnalyzer.mkScenario "rush" 3 5]
    = [r; r']
    /\ (FeeAnalyzer.r_avgConfirmTime r' <=? FeeAnalyzer.r_avgConfirmTime r)%num
       = true.
Proof.
  do 2 eexists. split; [reflexivity|].
  apply (proj2 (proj2 (proj2
           (calculateFeeScenarios_rows 12 100000 4000000
              [FeeAnalyzer.mkScenario "calm" 1 1;
               FeeAnalyzer.mkScenario "rush" 3 5])))
           0%nat 1%nat (FeeAnalyzer.mkScenario "calm" 1 1)
           (FeeAnalyzer.mkScenario "rush" 3 5));
    reflexivity || discriminate.
Defined.
